(** * Overseer: density clustering, 6-D reduction and dataset rebalancing

    A shallow embedding of the numerical core of the pipeline:
    - [Embeddings]            : [src/api/embeddings.py], [find_dense_clusters];
    - [ClusterAnalysis]       : [src/api/cluster_analysis.py],
                                [normalize_embeddings] and the 6-D reduction
                                of [save_cluster_embeddings];
    - [CreateUnbiasedDataset] : [src/api/create_unbiased_dataset.py], the
                                removal sampling, the record and embedding
                                split, and the 6-D projection.

    Conventions.  Real-valued data is modelled in exact arithmetic (rationals
    where only field operations and comparisons occur, reals where a square
    root occurs), with the non-finite results of a division by zero.  Where
    a property depends on rounding, the code is modelled a second time in
    binary64: in [Rounded], on reals, every operation followed by the
    rounding of its exact result, and in [Binary64], on the IEEE 754
    operations that the Standard Library specifies, which evaluate on
    concrete inputs.  Calls into third-party libraries (HDBSCAN,
    scikit-learn's nearest neighbours and SVD, CPython's [random]) are
    parameters of the sections that use them. *)

From Stdlib Require Import String.
From Stdlib Require Import List ZArith QArith Qround Bool Lia Lqa.
From Stdlib Require Import Reals Lra.
From Stdlib Require Import Sorting.Sorted Sorting.Permutation.
From Stdlib Require Floats.SpecFloat.
Import ListNotations.

Local Open Scope Z_scope.

(* ================================================================== *)
(** * numpy / Python helpers shared by the modules *)
(* ================================================================== *)

Module Py.

(** [xs[mask]] for a boolean mask of the same length. *)
Fixpoint mask_select {A : Type} (mask : list bool) (xs : list A) : list A :=
  match mask, xs with
  | b :: mask', x :: xs' =>
      if b then x :: mask_select mask' xs' else mask_select mask' xs'
  | _, _ => []
  end.

(** [np.where(mask)[0]], counting positions from [i]. *)
Fixpoint where_from (i : nat) (mask : list bool) : list nat :=
  match mask with
  | [] => []
  | b :: mask' =>
      if b then i :: where_from (S i) mask' else where_from (S i) mask'
  end.

Definition np_where (mask : list bool) : list nat := where_from 0 mask.

(** [seq[:n]] with Python's treatment of a negative bound. *)
Definition slice_to {A : Type} (n : Z) (l : list A) : list A :=
  if 0 <=? n then firstn (Z.to_nat n) l
  else firstn (Z.to_nat (Z.of_nat (length l) + n)) l.

(** Insertion of one value into an ascending duplicate-free list. *)
Fixpoint insert_unique (x : Z) (l : list Z) : list Z :=
  match l with
  | [] => [x]
  | y :: l' =>
      match x ?= y with
      | Lt => x :: l
      | Eq => l
      | Gt => y :: insert_unique x l'
      end
  end.

(** [np.unique]: the sorted distinct values. *)
Definition np_unique (l : list Z) : list Z := fold_right insert_unique [] l.

(** Dictionary kept as an association list in insertion order; every key
    is inserted once by the code modelled here. *)
Fixpoint dict_get {V : Type} (k : Z) (d : list (Z * V)) : option V :=
  match d with
  | [] => None
  | (k', v) :: d' => if k =? k' then Some v else dict_get k d'
  end.

(** [[f(x) for x in l]] where [f] may raise. *)
Fixpoint traverse {A B : Type} (f : A -> option B) (l : list A)
  : option (list B) :=
  match l with
  | [] => Some []
  | x :: l' =>
      match f x, traverse f l' with
      | Some y, Some ys => Some (y :: ys)
      | _, _ => None
      end
  end.

End Py.

(* ================================================================== *)
(** * [src/api/embeddings.py] *)
(* ================================================================== *)

Module Embeddings.
Import Py.

(** Keyword arguments handed to [hdbscan.HDBSCAN]. *)
Record HDBSCAN : Type := mkHDBSCAN {
  min_cluster_size : Z;
  min_samples : Z;
  metric : string;
  cluster_selection_method : string
}.

(** Defaults written in the signature
    [find_dense_clusters(embeddings, min_cluster_size=5, min_samples=5,
    n_clusters=10)]. *)
Definition default_min_cluster_size : Z := 5.
Definition default_min_samples : Z := 5.
Definition default_n_clusters : Z := 10.

(** An omitted keyword argument is [None]. *)
Definition kwarg (given : option Z) (default : Z) : Z :=
  match given with Some v => v | None => default end.

Definition clusterer_of (min_cluster_size min_samples : option Z) : HDBSCAN :=
  {| min_cluster_size := kwarg min_cluster_size default_min_cluster_size;
     min_samples := kwarg min_samples default_min_samples;
     metric := "euclidean";
     cluster_selection_method := "eom" |}.

(** Arguments with which [main] calls [find_dense_clusters]
    (lines 171-176). *)
Definition main_min_cluster_size : option Z := Some 10.
Definition main_min_samples : option Z := Some 5.

Definition Qltb (x y : Q) : bool := negb (Qle_bool y x).

Definition Qsum (l : list Q) : Q := fold_right Qplus 0%Q l.

(** [np.mean] of a flattened array. *)
Definition np_mean (l : list Q) : Q :=
  (Qsum l / inject_Z (Z.of_nat (length l)))%Q.

(** [distances[:, 1:]], flattened. *)
Definition drop_self_column (distances : list (list Q)) : list Q :=
  concat (map (@tl Q) distances).

Definition avg_dist (distances : list (list Q)) : Q :=
  np_mean (drop_self_column distances).

Definition epsilon : Q := 1 # 1000000.

(** [1.0 / (avg_dist + 1e-6)] *)
Definition density_of_avg (avg : Q) : Q := (1 / (avg + epsilon))%Q.

(** [sorted(items, key=lambda x: x[1], reverse=True)]: a stable sort,
    descending by key; items with equal keys keep their input order. *)
Fixpoint insert_desc (x : Z * Q) (l : list (Z * Q)) : list (Z * Q) :=
  match l with
  | [] => [x]
  | y :: l' =>
      if Qltb (snd x) (snd y) then y :: insert_desc x l' else x :: l
  end.

Definition sorted_desc (items : list (Z * Q)) : list (Z * Q) :=
  fold_right insert_desc [] items.

Section FindDenseClusters.

(** Embedding rows are only selected and handed on, never inspected. *)
Variable vec : Type.

(** [hdbscan.HDBSCAN(...).fit_predict]: one label per row. *)
Variable fit_predict : HDBSCAN -> list vec -> list Z.

(** [NearestNeighbors(n_neighbors, metric='euclidean').fit(P).kneighbors(P)]:
    the distance matrix, one row per point, self-distance first. *)
Variable kneighbors : Z -> list vec -> list (list Q).

Definition label_mask (cluster_labels : list Z) (label : Z) : list bool :=
  map (fun l => l =? label) cluster_labels.

Definition cluster_points (embeddings : list vec) (cluster_labels : list Z)
    (label : Z) : list vec :=
  mask_select (label_mask cluster_labels label) embeddings.

Definition cluster_point_indices (cluster_labels : list Z) (label : Z)
  : list nat :=
  np_where (label_mask cluster_labels label).

(** [k = min(5, len(cluster_points) - 1)] *)
Definition neighbor_count (points : list vec) : Z :=
  Z.min 5 (Z.of_nat (length points) - 1).

(** Average distance to the [k] nearest other points. *)
Definition cluster_avg_dist (points : list vec) : Q :=
  avg_dist (kneighbors (neighbor_count points + 1) points).

(** Body of the loop, lines 66-76. *)
Definition density_of_points (points : list vec) : Q :=
  if 0 <? neighbor_count points
  then density_of_avg (cluster_avg_dist points)
  else 0%Q.

Definition cluster_density (embeddings : list vec) (cluster_labels : list Z)
    (label : Z) : Q :=
  density_of_points (cluster_points embeddings cluster_labels label).

(** [unique_clusters[unique_clusters != -1]] *)
Definition unique_clusters (cluster_labels : list Z) : list Z :=
  filter (fun l => negb (l =? -1)) (np_unique cluster_labels).

Definition cluster_densities (embeddings : list vec)
    (cluster_labels : list Z) : list (Z * Q) :=
  map (fun label => (label, cluster_density embeddings cluster_labels label))
      (unique_clusters cluster_labels).

Definition cluster_indices (cluster_labels : list Z) : list (Z * list nat) :=
  map (fun label => (label, cluster_point_indices cluster_labels label))
      (unique_clusters cluster_labels).

(** Lines 46-100, after the clustering; [None] stands for an exception
    (the only candidate is a [KeyError] in [cluster_indices[label]]). *)
Definition select_densest (embeddings : list vec) (cluster_labels : list Z)
    (n_clusters : Z) : option (list Z * list (list nat)) :=
  let num_clusters := length (unique_clusters cluster_labels) in
  if Nat.eqb num_clusters 0 then Some ([], [])
  else
    let sorted_clusters :=
      sorted_desc (cluster_densities embeddings cluster_labels) in
    let n_densest :=
      Z.min n_clusters (Z.of_nat (length sorted_clusters)) in
    let densest_cluster_labels :=
      map fst (slice_to n_densest sorted_clusters) in
    match traverse (fun label => dict_get label (cluster_indices cluster_labels))
                   densest_cluster_labels with
    | Some densest_cluster_indices =>
        Some (densest_cluster_labels, densest_cluster_indices)
    | None => None
    end.

Definition find_dense_clusters (embeddings : list vec)
    (min_cluster_size min_samples n_clusters : option Z)
  : option (list Z * list (list nat)) :=
  let clusterer := clusterer_of min_cluster_size min_samples in
  let cluster_labels := fit_predict clusterer embeddings in
  select_densest embeddings cluster_labels
                 (kwarg n_clusters default_n_clusters).

End FindDenseClusters.

End Embeddings.


(* ================================================================== *)
(** * numpy arrays of reals *)
(* ================================================================== *)

Module Np.
Local Open Scope R_scope.

Definition vector : Type := list R.
Definition matrix : Type := list vector.

(** A float as the result of a division: finite, or one of the non-finite
    values numpy produces when the divisor is zero. *)
Inductive npfloat : Type :=
| Finite (r : R)
| PosInf
| NegInf
| NaN.

(** [x / d] on finite operands. *)
Definition np_divide (x d : R) : npfloat :=
  if Req_dec_T d 0 then
    if Req_dec_T x 0 then NaN
    else if Rlt_dec 0 x then PosInf else NegInf
  else Finite (x / d).

Definition is_finite (f : npfloat) : bool :=
  match f with Finite _ => true | _ => false end.

(** The real values of a row when all of them are finite. *)
Fixpoint finite_values (row : list npfloat) : option vector :=
  match row with
  | [] => Some []
  | Finite r :: row' =>
      match finite_values row' with
      | Some v => Some (r :: v)
      | None => None
      end
  | _ :: _ => None
  end.

Definition Rsum (l : list R) : R := fold_right Rplus 0 l.

(** [np.sum(row ** 2)] *)
Definition sum_squares (row : vector) : R := Rsum (map (fun x => x * x) row).

(** [np.sqrt(np.sum(row ** 2))] *)
Definition l2_norm (row : vector) : R := sqrt (sum_squares row).

Definition dot (u v : vector) : R :=
  Rsum (map (fun p => fst p * snd p) (combine u v)).

Definition vsub (u v : vector) : vector :=
  map (fun p => fst p - snd p) (combine u v).

Definition vdiv (u v : vector) : vector :=
  map (fun p => fst p / snd p) (combine u v).

Definition n_rows (X : matrix) : nat := length X.

Definition n_cols (X : matrix) : nat :=
  match X with [] => 0%nat | row :: _ => length row end.

Definition column (j : nat) (X : matrix) : list R :=
  map (fun row => nth j row 0) X.

Definition mean (l : list R) : R := Rsum l / INR (length l).

(** [np.mean(X, axis=0)] *)
Definition col_mean (X : matrix) : vector :=
  map (fun j => mean (column j X)) (seq 0 (n_cols X)).

(** [np.var(X, axis=0)] *)
Definition col_var (X : matrix) : vector :=
  map (fun j =>
         let c := column j X in
         let m := mean c in
         mean (map (fun x => (x - m) * (x - m)) c))
      (seq 0 (n_cols X)).

End Np.

(* ================================================================== *)
(** * scikit-learn: [StandardScaler] and [PCA(n_components=6)] *)
(* ================================================================== *)

Module Sklearn.
Import Np.
Local Open Scope R_scope.

Record StandardScaler : Type := mkScaler {
  scaler_mean_ : vector;
  scaler_scale_ : vector
}.

(** A constant feature is scaled by 1. *)
Definition handle_zeros_in_scale (s : R) : R :=
  if Req_dec_T s 0 then 1 else s.

(** [None] stands for the [ValueError] on an array without samples. *)
Definition StandardScaler_fit (X : matrix) : option StandardScaler :=
  match X with
  | [] => None
  | _ =>
      Some {| scaler_mean_ := col_mean X;
              scaler_scale_ :=
                map (fun v => handle_zeros_in_scale (sqrt v)) (col_var X) |}
  end.

Definition StandardScaler_transform_row (sc : StandardScaler) (row : vector)
  : vector :=
  vdiv (vsub row (scaler_mean_ sc)) (scaler_scale_ sc).

Definition StandardScaler_transform (sc : StandardScaler) (X : matrix) : matrix :=
  map (StandardScaler_transform_row sc) X.

Definition StandardScaler_fit_transform (X : matrix) : option matrix :=
  match StandardScaler_fit X with
  | Some sc => Some (StandardScaler_transform sc X)
  | None => None
  end.

Definition n_components : nat := 6.

Record PCA : Type := mkPCA {
  pca_mean_ : vector;
  pca_components_ : matrix
}.

Definition center (X : matrix) : matrix :=
  map (fun row => vsub row (col_mean X)) X.

Section WithSVD.

(** The right singular vectors of a centred matrix, one per row, by
    descending singular value (the [Vt] of [svd] after [svd_flip]). *)
Variable principal_axes : matrix -> matrix.

(** [None] stands for the [ValueError] raised unless
    [n_components <= min(n_samples, n_features)]. *)
Definition PCA_fit (X : matrix) : option PCA :=
  if (n_components <=? Nat.min (n_rows X) (n_cols X))%nat then
    Some {| pca_mean_ := col_mean X;
            pca_components_ := firstn n_components (principal_axes (center X)) |}
  else None.

End WithSVD.

(** One row of [(X - mean_) @ components_.T]. *)
Definition PCA_transform_row (pca : PCA) (row : vector) : vector :=
  map (fun axis => dot (vsub row (pca_mean_ pca)) axis) (pca_components_ pca).

(** [None] stands for the [ValueError] on an array without samples. *)
Definition PCA_transform (pca : PCA) (X : matrix) : option matrix :=
  match X with
  | [] => None
  | _ => Some (map (PCA_transform_row pca) X)
  end.

Definition PCA_fit_transform (principal_axes : matrix -> matrix) (X : matrix)
  : option matrix :=
  match PCA_fit principal_axes X with
  | Some pca => PCA_transform pca X
  | None => None
  end.

End Sklearn.

(* ================================================================== *)
(** * [src/api/cluster_analysis.py] *)
(* ================================================================== *)

Module ClusterAnalysis.
Import Np Sklearn.
Local Open Scope R_scope.

(** [1e-10] *)
Definition norm_floor : R := / 10 ^ 10.

(** One row of [normalize_embeddings], lines 194-204. *)
Definition normalize_row (row : vector) : list npfloat :=
  let norms := l2_norm row in
  let norms := Rmax norms norm_floor in
  map (fun x => np_divide x norms) row.

Definition normalize_embeddings (embeddings : matrix) : list (list npfloat) :=
  map normalize_row embeddings.

(** [save_cluster_embeddings], lines 149-159: the 6-D reduction of one
    cluster's embeddings. *)
Definition embeddings_6d (principal_axes : matrix -> matrix)
    (cluster_embeddings : matrix) : option (list (list npfloat)) :=
  match StandardScaler_fit_transform cluster_embeddings with
  | None => None
  | Some scaled_embeddings =>
      match PCA_fit_transform principal_axes scaled_embeddings with
      | None => None
      | Some embeddings_6d => Some (normalize_embeddings embeddings_6d)
      end
  end.

End ClusterAnalysis.

(* ================================================================== *)
(** * [src/api/create_unbiased_dataset.py] *)
(* ================================================================== *)

Module CreateUnbiasedDataset.
Import Py Np Sklearn.

(** One element of the ["embeddings"] list of a
    [cluster_<n>_embeddings.json] file (the vector itself is not read). *)
Record embedding_entry : Type := mkEntry {
  entry_id : Z;
  resume_id : Z;
  cluster_id : Z
}.

Definition embeddings_data : Type := list embedding_entry.

Definition top_clusters : list Z := [1; 2; 3].

(** Lines 50-64: clusters whose file is absent are skipped. *)
Definition load_cluster_embeddings (files : Z -> option embeddings_data)
  : list (Z * embeddings_data) :=
  flat_map (fun cluster_num =>
              match files cluster_num with
              | Some data => [(cluster_num, data)]
              | None => []
              end)
           top_clusters.

Record selection : Type := mkSelection {
  indices_to_remove : list Z;
  removed_counts : list (Z * nat)
}.

Section RemovalSampling.

(** State of the module-level generator of CPython's [random]. *)
Variable rng : Type.

(** The state [random.seed(a)] installs. *)
Variable seed_state : Z -> rng.

(** [random.sample(population, k)] run from a state: the sample and the
    state it leaves. *)
Variable sample_from : rng -> list Z -> nat -> list Z * rng.

(** [list(set(l))]: the distinct elements in the set's iteration order. *)
Variable list_of_set : list Z -> list Z.

(** Computations on the generator state. *)
Definition Rand (A : Type) : Type := rng -> A * rng.

Definition ret {A : Type} (a : A) : Rand A := fun s => (a, s).

Definition bind {A B : Type} (m : Rand A) (f : A -> Rand B) : Rand B :=
  fun s => let (a, s') := m s in f a s'.

Definition random_seed (a : Z) : Rand unit := fun _ => (tt, seed_state a).

Definition random_sample (population : list Z) (k : nat) : Rand (list Z) :=
  fun s => sample_from s population k.

(** Lines 72-82, one cluster: the ids chosen and their number. *)
Definition select_for_cluster (data : embeddings_data) : Rand (list Z * nat) :=
  let resume_ids := map resume_id data in
  let unique_resume_ids := list_of_set resume_ids in
  bind (random_seed 42) (fun _ =>
  let num_to_remove := (length unique_resume_ids / 2)%nat in
  bind (random_sample unique_resume_ids num_to_remove) (fun resume_ids_to_remove =>
  ret (resume_ids_to_remove, num_to_remove))).

(** Lines 71-88, the loop over [cluster_embeddings_map.items()]. *)
Fixpoint process_clusters (cluster_embeddings_map : list (Z * embeddings_data))
    (acc : selection) : Rand selection :=
  match cluster_embeddings_map with
  | [] => ret acc
  | (cluster_num, data) :: rest =>
      bind (select_for_cluster data) (fun r =>
      process_clusters rest
        {| indices_to_remove := indices_to_remove acc ++ fst r;
           removed_counts := removed_counts acc ++ [(cluster_num, snd r)] |})
  end.

(** Lines 66-91. *)
Definition select_removals (cluster_embeddings_map : list (Z * embeddings_data))
  : Rand (list Z * list (Z * nat)) :=
  bind (process_clusters cluster_embeddings_map
          {| indices_to_remove := []; removed_counts := [] |})
       (fun sel =>
  let unique_indices_to_remove := list_of_set (indices_to_remove sel) in
  ret (unique_indices_to_remove, removed_counts sel)).

End RemovalSampling.

(** A label of the [RangeIndex] of a frame with [n] rows. *)
Definition in_index (n : nat) (label : Z) : bool :=
  (0 <=? label) && (label <? Z.of_nat n).

(** [df.drop(labels)]; [None] stands for the [KeyError] raised when a label
    is not in the index. *)
Definition df_drop {A : Type} (df : list A) (labels : list Z) : option (list A) :=
  if forallb (in_index (length df)) labels then
    Some (mask_select
            (map (fun i => negb (existsb (Z.eqb (Z.of_nat i)) labels))
                 (seq 0 (length df)))
            df)
  else None.

(** [df.loc[labels]]: the rows in the order of the labels. *)
Definition df_loc {A : Type} (df : list A) (labels : list Z) : option (list A) :=
  traverse (fun label =>
              if in_index (length df) label
              then nth_error df (Z.to_nat label) else None)
           labels.

Fixpoint set_nth {A : Type} (i : nat) (v : A) (l : list A) : list A :=
  match l, i with
  | [], _ => []
  | _ :: l', O => v :: l'
  | x :: l', S i' => x :: set_nth i' v l'
  end.

(** [keep_mask[idx] = False] with numpy's indexing: a negative index counts
    from the end, an index out of bounds raises [IndexError] ([None]). *)
Definition setitem_false (keep_mask : list bool) (idx : Z) : option (list bool) :=
  let n := Z.of_nat (length keep_mask) in
  if (0 <=? idx) && (idx <? n) then
    Some (set_nth (Z.to_nat idx) false keep_mask)
  else if (- n <=? idx) && (idx <? 0) then
    Some (set_nth (Z.to_nat (n + idx)) false keep_mask)
  else None.

(** Lines 122-124. *)
Fixpoint mark_removed (keep_mask : list bool) (unique_indices_to_remove : list Z)
  : option (list bool) :=
  match unique_indices_to_remove with
  | [] => Some keep_mask
  | idx :: rest =>
      if idx <? Z.of_nat (length keep_mask) then
        match setitem_false keep_mask idx with
        | Some keep_mask' => mark_removed keep_mask' rest
        | None => None
        end
      else mark_removed keep_mask rest
  end.

(** Lines 121-124. *)
Definition build_keep_mask {A : Type} (all_embeddings : list A)
    (unique_indices_to_remove : list Z) : option (list bool) :=
  mark_removed (repeat true (length all_embeddings)) unique_indices_to_remove.

(** Lines 121-128: [(unbiased_embeddings, removed_embeddings)]. *)
Definition split_embeddings {A : Type} (all_embeddings : list A)
    (unique_indices_to_remove : list Z) : option (list A * list A) :=
  match build_keep_mask all_embeddings unique_indices_to_remove with
  | Some keep_mask =>
      Some (mask_select keep_mask all_embeddings,
            mask_select (map negb keep_mask) all_embeddings)
  | None => None
  end.

(** Lines 95-128: the record split followed by the embedding split. *)
Definition split_dataset {A B : Type} (df_full : list A) (all_embeddings : list B)
    (unique_indices_to_remove : list Z)
  : option (list A * list A * list B * list B) :=
  match df_drop df_full unique_indices_to_remove with
  | None => None
  | Some df_unbiased =>
      match df_loc df_full unique_indices_to_remove with
      | None => None
      | Some removed_df =>
          match split_embeddings all_embeddings unique_indices_to_remove with
          | None => None
          | Some (unbiased_embeddings, removed_embeddings) =>
              Some (df_unbiased, removed_df,
                    unbiased_embeddings, removed_embeddings)
          end
      end
  end.

Local Open Scope R_scope.

(** One row of the local [normalize_embeddings], lines 158-160. *)
Definition normalize_row (row : vector) : list npfloat :=
  let norm := l2_norm row in
  map (fun x => np_divide x norm) row.

Definition normalize_embeddings (emb : matrix) : list (list npfloat) :=
  map normalize_row emb.

(** Calls made on the [pca] object, in order. *)
Inductive pca_call : Type :=
| Fit (X : matrix)
| Transform (X : matrix).

(** Computations that may raise and that log the calls on [pca]. *)
Definition Logged (A : Type) : Type :=
  list pca_call -> option (A * list pca_call).

Definition lret {A : Type} (a : A) : Logged A := fun log => Some (a, log).

Definition lbind {A B : Type} (m : Logged A) (f : A -> Logged B) : Logged B :=
  fun log =>
    match m log with
    | Some (a, log') => f a log'
    | None => None
    end.

Record reduced : Type := mkReduced {
  all_6d_normalized : list (list npfloat);
  unbiased_6d_normalized : list (list npfloat);
  removed_6d_normalized : list (list npfloat)
}.

Section Projection.

Variable principal_axes : matrix -> matrix.

Definition pca_fit (X : matrix) : Logged PCA :=
  fun log =>
    match PCA_fit principal_axes X with
    | Some pca => Some (pca, log ++ [Fit X])
    | None => None
    end.

Definition pca_transform (pca : PCA) (X : matrix) : Logged matrix :=
  fun log =>
    match PCA_transform pca X with
    | Some Y => Some (Y, log ++ [Transform X])
    | None => None
    end.

(** Lines 144-164. *)
Definition project_6d (all_embeddings unbiased_embeddings removed_embeddings : matrix)
  : Logged reduced :=
  lbind (pca_fit all_embeddings) (fun pca =>
  lbind (pca_transform pca all_embeddings) (fun all_6d =>
  lbind (pca_transform pca unbiased_embeddings) (fun unbiased_6d =>
  lbind (pca_transform pca removed_embeddings) (fun removed_6d =>
  lret {| all_6d_normalized := normalize_embeddings all_6d;
          unbiased_6d_normalized := normalize_embeddings unbiased_6d;
          removed_6d_normalized := normalize_embeddings removed_6d |})))).

(** Lines 121-164: mask, split, projection. *)
Definition split_and_project (all_embeddings : matrix)
    (unique_indices_to_remove : list Z) : Logged reduced :=
  fun log =>
    match split_embeddings all_embeddings unique_indices_to_remove with
    | Some (unbiased_embeddings, removed_embeddings) =>
        project_6d all_embeddings unbiased_embeddings removed_embeddings log
    | None => None
    end.

End Projection.

End CreateUnbiasedDataset.

(* ================================================================== *)
(** * Predicates used in the statements *)
(* ================================================================== *)

Module Ranking.

(** [a] is ranked before [b]: denser, or as dense with a smaller label. *)
Definition item_before (a b : Z * Q) : Prop :=
  (snd b < snd a)%Q \/ ((snd a == snd b)%Q /\ fst a < fst b).

(** The same order on labels, for a density function. *)
Definition ranked_before (density : Z -> Q) (l1 l2 : Z) : Prop :=
  (density l2 < density l1)%Q \/ ((density l1 == density l2)%Q /\ l1 < l2).

End Ranking.

(* ================================================================== *)
(** * Concrete inputs used to exercise the model *)
(* ================================================================== *)

Module Fixtures.
Import Embeddings.

(** One-dimensional embeddings with integer coordinates: the Euclidean
    distance is the absolute difference. *)
Definition dist1 (x y : Z) : Q := inject_Z (Z.abs (x - y)).

Fixpoint insert_asc (x : Q) (l : list Q) : list Q :=
  match l with
  | [] => [x]
  | y :: l' => if Qle_bool x y then x :: l else y :: insert_asc x l'
  end.

(** Exact nearest-neighbour distances of one-dimensional points. *)
Definition kneighbors1 (n_neighbors : Z) (points : list Z) : list (list Q) :=
  map (fun p =>
         firstn (Z.to_nat n_neighbors)
                (fold_right insert_asc [] (map (dist1 p) points)))
      points.

(** A clusterer that labels by interval: negative points are noise. *)
Definition interval_labels (_ : HDBSCAN) (points : list Z) : list Z :=
  map (fun p => if p <? 0 then -1 else p / 100) points.

(** A clusterer that finds no cluster. *)
Definition all_noise (_ : HDBSCAN) (points : list Z) : list Z :=
  map (fun _ => -1) points.

Definition points1 : list Z := [0; 3; 100; 101; -5; 102; 200; 203; 6].

(** A toy generator: the state is a counter, a sample is a prefix of the
    population or of its reversal, depending on the state. *)
Definition toy_seed (a : Z) : Z := a.

Definition toy_sample (s : Z) (population : list Z) (k : nat) : list Z * Z :=
  (firstn k (if Z.even s then population else rev population), s + 1).

Definition dedup (l : list Z) : list Z := nodup Z.eq_dec l.

Definition entries_of (cluster : Z) (ids : list Z)
  : CreateUnbiasedDataset.embeddings_data :=
  map (fun rid => CreateUnbiasedDataset.mkEntry 0 rid cluster) ids.

(** Two clusters over twelve records; id 4 is listed twice in cluster 1. *)
Definition clusters12 : list (Z * CreateUnbiasedDataset.embeddings_data) :=
  [(1, entries_of 1 [4; 2; 4; 7; 9; 0]); (2, entries_of 2 [5; 11; 3])].

Definition records12 : list nat := seq 100 12.

Definition tight3 : list Z := [0; 1; 2].
Definition loose3 : list Z := [0; 10; 20].

End Fixtures.

(* ================================================================== *)
(** * Quantities named in the rebalancing properties *)
(* ================================================================== *)

Module Rebalancing.
Import CreateUnbiasedDataset.

(** The fraction of a cluster that is removed. *)
Definition removal_fraction : Q := 1 # 2.

Section PerCluster.

Variable rng : Type.
Variable seed_state : Z -> rng.
Variable sample_from : rng -> list Z -> nat -> list Z * rng.
Variable list_of_set : list Z -> list Z.

(** The deduplicated member ids of a cluster. *)
Definition members (data : embeddings_data) : list Z :=
  list_of_set (map resume_id data).

Definition member_count (data : embeddings_data) : nat :=
  length (members data).

(** [floor(member_count * removal_fraction)] *)
Definition removal_quota (data : embeddings_data) : nat :=
  Z.to_nat (Qfloor (inject_Z (Z.of_nat (member_count data)) * removal_fraction)).

(** The ids the loop removes for one cluster: the sample drawn right after
    [random.seed(42)]. *)
Definition cluster_removals (data : embeddings_data) : list Z :=
  fst (sample_from (seed_state 42) (members data) (member_count data / 2)).

End PerCluster.

(** Row positions of an array of [n] rows that a list of labels names. *)
Definition named (labels : list Z) (i : nat) : bool :=
  existsb (Z.eqb (Z.of_nat i)) labels.

End Rebalancing.

(* ================================================================== *)
(** * The reducer as section 4.3 of the specification words it *)
(* ================================================================== *)

Module SpecReducer.
Import Np.
Local Open Scope R_scope.

Record PCAProjection : Type := mkProjection {
  proj_mean : vector;
  proj_scale : vector;
  proj_axes : matrix
}.

Definition standardize_row (mean scale : vector) (row : vector) : vector :=
  vdiv (vsub row mean) scale.

Section WithSVD.

Variable principal_axes : matrix -> matrix.

(** [fit]: per-feature mean and standard deviation of the reference
    matrix, then the 6 principal axes of the standardized reference
    matrix. *)
Definition fit (referenceMatrix : matrix) : PCAProjection :=
  let mean := col_mean referenceMatrix in
  let scale := map sqrt (col_var referenceMatrix) in
  {| proj_mean := mean;
     proj_scale := scale;
     proj_axes :=
       firstn 6 (principal_axes
                   (map (standardize_row mean scale) referenceMatrix)) |}.

End WithSVD.

(** [transform], one row: standardize with the stored mean and scale,
    project onto the stored axes, then [row / max(norm(row), 1e-10)]. *)
Definition transform_row (p : PCAProjection) (row : vector) : list npfloat :=
  let standardized := standardize_row (proj_mean p) (proj_scale p) row in
  let projected := map (fun axis => dot standardized axis) (proj_axes p) in
  map (fun x => np_divide x (Rmax (l2_norm projected) (/ 10 ^ 10))) projected.

Definition transform (p : PCAProjection) (X : matrix) : list (list npfloat) :=
  map (transform_row p) X.

End SpecReducer.

(* ================================================================== *)
(** * Quantities named in the reduction properties *)
(* ================================================================== *)

Module Reducing.
Import Np Sklearn.
Local Open Scope R_scope.

(** The rebalancer's fitted reducer applied to a matrix on its own:
    [pca.transform] followed by the local [normalize_embeddings]. *)
Definition reduce_with (pca : PCA) (X : matrix) : option (list (list npfloat)) :=
  match PCA_transform pca X with
  | Some Y => Some (CreateUnbiasedDataset.normalize_embeddings Y)
  | None => None
  end.

(** The axes form an orthonormal basis of the 6-dimensional space: the
    projection onto them keeps inner products. *)
Definition orthonormal_basis (axes : matrix) : Prop :=
  forall u v : vector,
    length u = 6%nat -> length v = 6%nat ->
    dot (map (fun axis => dot u axis) axes) (map (fun axis => dot v axis) axes)
    = dot u v.

Definition rectangular (d : nat) (X : matrix) : Prop :=
  Forall (fun row => length row = d) X.

Definition is_zero_row (row : vector) : Prop := Forall (fun x => x = 0) row.

(** A row as the per-cluster path normalizes it. *)
Definition cluster_row_normalized (row : vector) (out : list npfloat) : Prop :=
  exists w,
    finite_values out = Some w /\
    (ClusterAnalysis.norm_floor <= l2_norm row -> l2_norm w = 1) /\
    (l2_norm row <= ClusterAnalysis.norm_floor ->
     w = map (fun x => x / ClusterAnalysis.norm_floor) row) /\
    (is_zero_row row -> is_zero_row w).

(** A row as the rebalancer normalizes it, when its norm is not zero. *)
Definition rebalancer_row_normalized (row : vector) (out : list npfloat) : Prop :=
  l2_norm row <> 0 ->
  exists w, finite_values out = Some w /\ l2_norm w = 1.

(** A row as the per-cluster export reduces it: standardize with the
    cluster's mean and scale, project onto the first 6 principal axes of the
    standardized cluster matrix, normalize with the floor. *)
Definition cluster_reduced_row (principal_axes : matrix -> matrix)
    (cluster_embeddings : matrix) (row : vector) : list npfloat :=
  let mean := col_mean cluster_embeddings in
  let scale :=
    map (fun v => handle_zeros_in_scale (sqrt v)) (col_var cluster_embeddings) in
  let standardized :=
    map (fun r => vdiv (vsub r mean) scale) cluster_embeddings in
  let axes := firstn 6 (principal_axes standardized) in
  ClusterAnalysis.normalize_row
    (map (fun axis => dot (vdiv (vsub row mean) scale) axis) axes).

(** A row as the rebalancer reduces it: centre with the mean of the full
    matrix, project onto the first 6 principal axes of the centred full
    matrix, divide by the norm. *)
Definition rebalancer_reduced_row (principal_axes : matrix -> matrix)
    (all_embeddings : matrix) (row : vector) : list npfloat :=
  let mean := col_mean all_embeddings in
  let centred := map (fun r => vsub r mean) all_embeddings in
  let axes := firstn 6 (principal_axes centred) in
  CreateUnbiasedDataset.normalize_row
    (map (fun axis => dot (vsub row mean) axis) axes).

(** Small tolerance on a unit norm. *)
Definition tol : R := / 10 ^ 6.

End Reducing.

Module RealFixtures.
Import Np.
Local Open Scope R_scope.

(** A row whose norm, 1e-11, is below the floor without being zero. *)
Definition tiny_row : vector := [/ 10 ^ 11; 0; 0; 0; 0; 0].

Definition zero_row : vector := [0; 0; 0; 0; 0; 0].

(** Eight samples of six features; every feature has mean 0, the first has
    standard deviation 2 and the others 1. *)
Definition X8 : matrix :=
  [ [ 2;  1;  1;  1;  1;  1];
    [ 2;  1; -1;  1; -1; -1];
    [ 2; -1;  1; -1;  1; -1];
    [ 2; -1; -1; -1; -1;  1];
    [-2;  1;  1; -1; -1;  1];
    [-2;  1; -1; -1;  1; -1];
    [-2; -1;  1;  1; -1; -1];
    [-2; -1; -1;  1;  1;  1] ].

(** [X8] standardized: every entry divided by its feature's deviation. *)
Definition Z8 : matrix :=
  [ [ 1;  1;  1;  1;  1;  1];
    [ 1;  1; -1;  1; -1; -1];
    [ 1; -1;  1; -1;  1; -1];
    [ 1; -1; -1; -1; -1;  1];
    [-1;  1;  1; -1; -1;  1];
    [-1;  1; -1; -1;  1; -1];
    [-1; -1;  1;  1; -1; -1];
    [-1; -1; -1;  1;  1;  1] ].

(** Eight identical embeddings. *)
Definition same8 : matrix := repeat [1; 1; 1; 1; 1; 1] 8.

Definition mask8 : list bool :=
  [true; false; true; true; false; true; true; false].

(** The coordinate axes, whatever the matrix. *)
Definition coordinate_axes (_ : matrix) : matrix :=
  [ [1; 0; 0; 0; 0; 0];
    [0; 1; 0; 0; 0; 0];
    [0; 0; 1; 0; 0; 0];
    [0; 0; 0; 1; 0; 0];
    [0; 0; 0; 0; 1; 0];
    [0; 0; 0; 0; 0; 1] ].

End RealFixtures.

(* ================================================================== *)
(** * [src/api/embeddings.py]: text cleaning and cluster files *)
(* ================================================================== *)

Module Text.
Local Open Scope N_scope.

(** A Python [str]: the sequence of its code points. *)
Definition pystr : Type := list N.

(** A value handed to [clean_text]: a [str], or anything else (a missing
    cell is a float NaN). *)
Inductive pyobject : Type :=
| Str (s : pystr)
| NotStr.

(** [str.isspace] on one character; the class [\s] of [re] on a [str]
    pattern is the same set. *)
Definition is_space (c : N) : bool :=
  ((9 <=? c) && (c <=? 13)) || ((28 <=? c) && (c <=? 32))
  || (c =? 133) || (c =? 160) || (c =? 5760)
  || ((8192 <=? c) && (c <=? 8202))
  || (c =? 8232) || (c =? 8233) || (c =? 8239) || (c =? 8287)
  || (c =? 12288).

(** [re.sub(r'\s+', ' ', s)]: every maximal run of whitespace becomes one
    space; [in_run] tells that the run's space has been emitted. *)
Fixpoint sub_spaces (in_run : bool) (s : pystr) : pystr :=
  match s with
  | [] => []
  | c :: s' =>
      if is_space c then
        if in_run then sub_spaces true s' else 32 :: sub_spaces true s'
      else c :: sub_spaces false s'
  end.

Fixpoint lstrip (s : pystr) : pystr :=
  match s with
  | [] => []
  | c :: s' => if is_space c then lstrip s' else s
  end.

Definition rstrip (s : pystr) : pystr :=
  fold_right (fun c acc =>
                match acc with
                | [] => if is_space c then [] else [c]
                | _ :: _ => c :: acc
                end)
             [] s.

(** [s.strip()] *)
Definition strip (s : pystr) : pystr := rstrip (lstrip s).

(** Lines 9-15. *)
Definition clean_text (text : pyobject) : pystr :=
  match text with
  | Str text => strip (sub_spaces false text)
  | NotStr => []
  end.

(** No two adjacent whitespace characters. *)
Fixpoint no_space_pair (s : pystr) : bool :=
  match s with
  | a :: (b :: _) as t => negb (is_space a && is_space b) && no_space_pair t
  | _ => true
  end.

(** The only whitespace character is the plain space. *)
Definition only_plain_spaces (s : pystr) : bool :=
  forallb (fun c => negb (is_space c) || (c =? 32)) s.

(** Single plain spaces between the words, none at either end. *)
Definition normalized (s : pystr) : bool :=
  only_plain_spaces s && no_space_pair s
  && negb (is_space (hd 0 s)) && negb (is_space (last s 0)).

(** The characters that are not whitespace, in order. *)
Definition visible (s : pystr) : pystr := filter (fun c => negb (is_space c)) s.

(** [s.split()]: the maximal runs of characters that are not whitespace;
    [word] is the run being read, last character first. *)
Fixpoint split_from (word : pystr) (s : pystr) : list pystr :=
  match s with
  | [] => match word with [] => [] | _ :: _ => [rev word] end
  | c :: s' =>
      if is_space c then
        match word with
        | [] => split_from [] s'
        | _ :: _ => rev word :: split_from [] s'
        end
      else split_from (c :: word) s'
  end.

Definition split (s : pystr) : list pystr := split_from [] s.

End Text.

Module ClusterFiles.
Import Py.

(** [df.iloc[indices]] with non-negative positions; [None] stands for the
    [IndexError] on a position out of bounds. *)
Definition iloc_rows {A : Type} (df : list A) (indices : list nat)
  : option (list A) :=
  traverse (nth_error df) indices.

Fixpoint enumerate_from {A : Type} (i : Z) (l : list A) : list (Z * A) :=
  match l with
  | [] => []
  | x :: l' => (i, x) :: enumerate_from (i + 1) l'
  end.

(** [combined_df.loc[indices, 'cluster'] = value] on a [RangeIndex];
    [None] stands for the [KeyError] on a label that is not in the index. *)
Definition loc_assign (column : list Z) (indices : list nat) (value : Z)
  : option (list Z) :=
  if forallb (fun i => Nat.ltb i (length column)) indices then
    Some (fold_left (fun col i => CreateUnbiasedDataset.set_nth i value col)
                    indices column)
  else None.

(** What [save_clusters_to_csv] writes: the rows of each
    [cluster_<n>.csv], and the [cluster] column of [all_clusters.csv]. *)
Record saved_clusters (A : Type) : Type := mkSaved {
  cluster_csvs : list (Z * list A);
  all_clusters_column : list Z
}.
Arguments mkSaved {A} _ _.
Arguments cluster_csvs {A} _.
Arguments all_clusters_column {A} _.

(** First loop, lines 107-114. *)
Fixpoint write_cluster_files {A : Type} (df : list A)
    (numbered : list (Z * list nat)) : option (list (Z * list A)) :=
  match numbered with
  | [] => Some []
  | (i, indices) :: rest =>
      match iloc_rows df indices with
      | None => None
      | Some cluster_df =>
          match write_cluster_files df rest with
          | None => None
          | Some files => Some ((i + 1, cluster_df) :: files)
          end
      end
  end.

(** Second loop, lines 120-121. *)
Fixpoint assign_clusters (column : list Z) (numbered : list (Z * list nat))
  : option (list Z) :=
  match numbered with
  | [] => Some column
  | (i, indices) :: rest =>
      match loc_assign column indices (i + 1) with
      | None => None
      | Some column' => assign_clusters column' rest
      end
  end.

(** Lines 102-125. *)
Definition save_clusters_to_csv {A : Type} (df : list A)
    (cluster_indices : list (list nat)) : option (saved_clusters A) :=
  match write_cluster_files df (enumerate_from 0 cluster_indices) with
  | None => None
  | Some files =>
      match assign_clusters (repeat (-1) (length df))
                            (enumerate_from 0 cluster_indices) with
      | None => None
      | Some column => Some (mkSaved files column)
      end
  end.

(** [max(1, min(10, cluster_count))], [main.py] line 93 and
    [flask_app.py] line 357. *)
Definition clamp_cluster_count (cluster_count : Z) : Z :=
  Z.max 1 (Z.min 10 cluster_count).

(** [flask_app.upload_file], lines 353-359; [None] is a form value that
    [int] rejects. *)
Definition upload_cluster_count (form_value : option Z) : Z :=
  match form_value with
  | Some cluster_count => clamp_cluster_count cluster_count
  | None => 6
  end.

Section ClusterStage.

Variable vec : Type.
Variable fit_predict : Embeddings.HDBSCAN -> list vec -> list Z.
Variable kneighbors : Z -> list vec -> list (list Q).

(** [embeddings.main], lines 169-180: the clustering call and the files
    it leaves.  [Some None]: no cluster, nothing written. *)
Definition cluster_stage {A : Type} (df : list A) (resume_embeddings : list vec)
    (n_clusters : Z) : option (option (saved_clusters A)) :=
  match Embeddings.find_dense_clusters vec fit_predict kneighbors
          resume_embeddings Embeddings.main_min_cluster_size
          Embeddings.main_min_samples (Some n_clusters) with
  | None => None
  | Some (_, densest_cluster_indices) =>
      match densest_cluster_indices with
      | [] => Some None
      | _ :: _ =>
          match save_clusters_to_csv df densest_cluster_indices with
          | None => None
          | Some saved => Some (Some saved)
          end
      end
  end.

(** [main.py], lines 93 and 118: the stage as the pipeline runs it. *)
Definition pipeline_cluster_stage {A : Type} (df : list A)
    (resume_embeddings : list vec) (cluster_count : Z)
  : option (option (saved_clusters A)) :=
  cluster_stage df resume_embeddings (clamp_cluster_count cluster_count).

End ClusterStage.

(** Position of a label in the ranking, counted from 1. *)
Fixpoint rank_of (label : Z) (ranking : list Z) : option Z :=
  match ranking with
  | [] => None
  | l :: rest =>
      if label =? l then Some 1
      else match rank_of label rest with
           | Some r => Some (r + 1)
           | None => None
           end
  end.

End ClusterFiles.

(* ================================================================== *)
(** * [src/api/flask_app.py]: paginated datasets *)
(* ================================================================== *)

Module FlaskApp.

(** [l[start:stop]] with Python's treatment of negative and
    out-of-range bounds; [df.iloc[start:stop]] slices rows the same way. *)
Definition py_slice {A : Type} (start stop : Z) (l : list A) : list A :=
  let n := Z.of_nat (length l) in
  let clip i := if i <? 0 then Z.max (i + n) 0 else Z.min i n in
  firstn (Z.to_nat (clip stop - clip start)) (skipn (Z.to_nat (clip start)) l).

(** The file behind an endpoint. *)
Inductive csv_file (A : Type) : Type :=
| Missing
| Unreadable
| Csv (rows : list A).
Arguments Missing {A}.
Arguments Unreadable {A}.
Arguments Csv {A} _.

Record page (A : Type) : Type := mkPage {
  total_records : Z;
  total_pages : Z;
  current_page : Z;
  page_size : Z;
  records : list A
}.
Arguments mkPage {A} _ _ _ _ _.
Arguments total_records {A} _.
Arguments total_pages {A} _.
Arguments current_page {A} _.
Arguments page_size {A} _.
Arguments records {A} _.

(** A JSON body with its status, or an error status. *)
Inductive response (A : Type) : Type :=
| Ok (body : page A)
| Error (status : Z).
Arguments Ok {A} _.
Arguments Error {A} _.

(** [request.args.get(name, default=d, type=int)]: the default when the
    argument is absent or is not an integer. *)
Definition int_arg (given : option Z) (default : Z) : Z :=
  match given with Some v => v | None => default end.

(** Lines 133-174; [None] for [df] is an exception in [pd.read_csv]. *)
Definition get_paginated_dataset {A : Type} (df : option (list A))
    (page_arg page_size_arg : option Z) : response A :=
  let page := int_arg page_arg 1 in
  let page_size := int_arg page_size_arg 100 in
  let page_size := Z.min page_size 1000 in
  match df with
  | None => Error 500
  | Some df =>
      let total_records := Z.of_nat (length df) in
      if page_size =? 0 then Error 500
      else
        let total_pages := (total_records + page_size - 1) / page_size in
        let page := if page <? 1 then 1 else page in
        let page :=
          if (total_pages <? page) && (0 <? total_pages) then total_pages
          else page in
        let start_idx := (page - 1) * page_size in
        let end_idx := Z.min (start_idx + page_size) total_records in
        Ok (mkPage total_records total_pages page page_size
                   (py_slice start_idx end_idx df))
  end.

(** The dataset endpoints, e.g. lines 47-54: 404 when the file is absent. *)
Definition dataset_endpoint {A : Type} (file : csv_file A)
    (page_arg page_size_arg : option Z) : response A :=
  match file with
  | Missing => Error 404
  | Unreadable => get_paginated_dataset None page_arg page_size_arg
  | Csv rows => get_paginated_dataset (Some rows) page_arg page_size_arg
  end.

(** The records of an answer; none for an error. *)
Definition records_of {A : Type} (r : response A) : list A :=
  match r with Ok body => records body | Error _ => [] end.

End FlaskApp.

(* ================================================================== *)
(** * [src/api/cluster_analysis.py]: cluster embeddings and the export *)
(* ================================================================== *)

Module ClusterExport.
Import Py Np.

(** A cluster's data frame as far as the code reads it: its index and,
    when the frame has one, the column ['Unnamed: 0']. *)
Record cluster_frame : Type := mkFrame {
  frame_index : list Z;
  unnamed_0 : option (list Z)
}.

(** [pd.read_csv] of a cluster file: the files are written with
    [index=False], so the index read back is [RangeIndex(n_rows)]. *)
Definition read_cluster_csv (n_rows : nat) (unnamed : option (list Z))
  : cluster_frame :=
  mkFrame (map Z.of_nat (seq 0 n_rows)) unnamed.

(** Lines 110-115 (and 219-223). *)
Definition resume_indices (cluster_df : cluster_frame) : list Z :=
  match unnamed_0 cluster_df with
  | Some values => values
  | None => frame_index cluster_df
  end.

(** One position of [a[indices]]: a negative index counts from the end,
    [None] stands for the [IndexError] out of bounds. *)
Definition np_item {B : Type} (a : list B) (idx : Z) : option B :=
  let n := Z.of_nat (length a) in
  if (0 <=? idx) && (idx <? n) then nth_error a (Z.to_nat idx)
  else if (- n <=? idx) && (idx <? 0) then nth_error a (Z.to_nat (n + idx))
  else None.

(** The row of an array of [n] rows that an index in bounds names. *)
Definition row_position (n : nat) (idx : Z) : nat :=
  Z.to_nat (if idx <? 0 then Z.of_nat n + idx else idx).

(** [a[indices]] for a list of integers. *)
Definition np_take {B : Type} (a : list B) (indices : list Z)
  : option (list B) :=
  traverse (np_item a) indices.

Record saved_entry : Type := mkSavedEntry {
  saved_id : Z;
  saved_resume_id : Z;
  saved_cluster_id : Z;
  saved_embedding : vector
}.

(** The content of [cluster_<n>_embeddings.json]. *)
Record embeddings_json : Type := mkJson {
  json_cluster_id : Z;
  total_embeddings : Z;
  json_embeddings : list saved_entry
}.

(** How a call of [save_cluster_embeddings] ends. *)
Inductive outcome : Type :=
| NoEmbeddingsFile
| NoValidIndices
| IndexingRaised
| SavedThenReductionRaised (json : embeddings_json)
| Saved (json : embeddings_json) (embeddings_6d : list (list npfloat)).

(** Lines 131-139. *)
Definition saved_entries (cluster_num : Z) (valid_indices : list Z)
    (cluster_embeddings : matrix) : list saved_entry :=
  map (fun e => mkSavedEntry (fst e) (fst (snd e)) cluster_num (snd (snd e)))
      (ClusterFiles.enumerate_from 0 (combine valid_indices cluster_embeddings)).

(** Lines 87-192; [None] for [all_embeddings] is the absence of
    [resume_embeddings.npy]. *)
Definition save_cluster_embeddings (principal_axes : matrix -> matrix)
    (all_embeddings : option matrix) (cluster_df : cluster_frame)
    (cluster_num : Z) : outcome :=
  match all_embeddings with
  | None => NoEmbeddingsFile
  | Some all_embeddings =>
      let valid_indices :=
        filter (fun idx => idx <? Z.of_nat (length all_embeddings))
               (resume_indices cluster_df) in
      match valid_indices with
      | [] => NoValidIndices
      | _ :: _ =>
          match np_take all_embeddings valid_indices with
          | None => IndexingRaised
          | Some cluster_embeddings =>
              let json :=
                mkJson cluster_num (Z.of_nat (length valid_indices))
                       (saved_entries cluster_num valid_indices
                                      cluster_embeddings) in
              match ClusterAnalysis.embeddings_6d principal_axes
                      cluster_embeddings with
              | None => SavedThenReductionRaised json
              | Some embeddings_6d => Saved json embeddings_6d
              end
          end
      end
  end.

(** The JSON file a call leaves, if any. *)
Definition json_written (o : outcome) : option embeddings_json :=
  match o with
  | SavedThenReductionRaised json | Saved json _ => Some json
  | _ => None
  end.

(** [json.load] of that file as [create_unbiased_dataset] reads it. *)
Definition load_embeddings_data (json : embeddings_json)
  : CreateUnbiasedDataset.embeddings_data :=
  map (fun e =>
         CreateUnbiasedDataset.mkEntry (saved_id e) (saved_resume_id e)
                                       (saved_cluster_id e))
      (json_embeddings json).

(** Lines 100-103 of [create_unbiased_dataset]: the entries reported as
    remaining in a cluster. *)
Definition remaining (data : CreateUnbiasedDataset.embeddings_data)
    (removed_count : nat) : Z :=
  Z.of_nat (length data) - Z.of_nat removed_count.

(** [d[k] = v] on a dictionary kept in insertion order. *)
Fixpoint dict_set (k v : Z) (d : list (Z * Z)) : list (Z * Z) :=
  match d with
  | [] => [(k, v)]
  | (k', v') :: d' =>
      if k =? k' then (k, v) :: d' else (k', v') :: dict_set k v d'
  end.

(** Lines 213-227 of [export_complete_dataset]: one file. *)
Definition map_file (cluster_mapping : list (Z * Z))
    (file : Z * cluster_frame) : list (Z * Z) :=
  fold_left (fun m idx => dict_set idx (fst file) m)
            (resume_indices (snd file)) cluster_mapping.

Definition build_cluster_mapping (cluster_files : list (Z * cluster_frame))
  : list (Z * Z) :=
  fold_left map_file cluster_files [].

(** Lines 247-253: the [cluster] column of a frame with a [RangeIndex]. *)
Definition cluster_column (cluster_mapping : list (Z * Z)) (n_rows : nat)
  : list Z :=
  map (fun i =>
         match dict_get (Z.of_nat i) cluster_mapping with
         | Some cluster_num => cluster_num
         | None => -1
         end)
      (seq 0 n_rows).

(** Cluster files without an ['Unnamed: 0'] column, given by their row
    counts. *)
Definition range_index_files (sizes : list (Z * nat))
  : list (Z * cluster_frame) :=
  map (fun cn => (fst cn, read_cluster_csv (snd cn) None)) sizes.

(** [export_complete_dataset]; [None] for [df] is a dataset that could not
    be loaded, and the function then returns without a frame. *)
Definition export_complete_dataset (cluster_files : list (Z * cluster_frame))
    (df : option nat) : option (list Z) :=
  match df with
  | None => None
  | Some n_rows =>
      Some (cluster_column (build_cluster_mapping cluster_files) n_rows)
  end.

End ClusterExport.

(* ================================================================== *)
(** * [src/api/create_unbiased_dataset.py]: the rows the split keeps *)
(* ================================================================== *)

Module Splitting.

(** The mask [df.drop(labels)] applies to a frame of [n] rows. *)
Definition kept_mask (n : nat) (labels : list Z) : list bool :=
  map (fun i => negb (Rebalancing.named labels i)) (seq 0 n).

End Splitting.

(* ================================================================== *)
(** * [src/api/main.py] and the job status of [flask_app.py] *)
(* ================================================================== *)

Module Pipeline.

(** How a call of a stage ends: with a value, or with an exception. *)
Inductive ends (A : Type) : Type :=
| Returns (a : A)
| Raises.
Arguments Returns {A} _.
Arguments Raises {A}.

Inductive marker : Type := Completed | Failed.

(** What a run of [main.main] depends on; the logging between the stages
    is taken not to raise. *)
Record run : Type := mkRun {
  (** [--job_id] was given and is not the empty string *)
  job_id_given : bool;
  (** [uploads/<job_id>] exists, so that a marker can be touched *)
  job_dir_exists : bool;
  (** [embeddings_main]: [false] stands for the pair [(None, None)] *)
  embeddings_stage : ends bool;
  cluster_analysis_stage : ends unit;
  (** [create_unbiased_dataset]: [false] stands for its bare [return] *)
  unbiasing_stage : ends bool
}.

(** [(job_dir / name).touch()] *)
Definition touch (r : run) (m : marker) : ends (list marker) :=
  if job_dir_exists r then Returns [m] else Raises.

(** The body of the [try], lines 98-177. *)
Definition try_body (r : run) : ends (list marker) :=
  match embeddings_stage r with
  | Raises => Raises
  | Returns false =>
      if job_id_given r then touch r Failed else Returns []
  | Returns true =>
      match cluster_analysis_stage r with
      | Raises => Raises
      | Returns tt =>
          match unbiasing_stage r with
          | Raises => Raises
          | Returns false => Raises
          | Returns true =>
              if job_id_given r then touch r Completed else Returns []
          end
      end
  end.

(** [main], lines 98-185: the markers it leaves, or an exception that
    leaves it. *)
Definition main (r : run) : ends (list marker) :=
  match try_body r with
  | Returns markers => Returns markers
  | Raises =>
      if job_id_given r then touch r Failed else Returns []
  end.

Inductive job_status : Type :=
| JobNotFound
| StatusCompleted
| StatusFailed
| StatusProcessing.

(** [get_job_status], lines 402-438. *)
Definition get_job_status (job_dir_exists : bool) (markers : list marker)
  : job_status :=
  if negb job_dir_exists then JobNotFound
  else
    let completed :=
      existsb (fun m => match m with Completed => true | Failed => false end)
              markers in
    let failed :=
      existsb (fun m => match m with Failed => true | Completed => false end)
              markers in
    if completed then StatusCompleted
    else if failed then StatusFailed
    else StatusProcessing.

End Pipeline.

(* ================================================================== *)
(** * Further concrete inputs *)
(* ================================================================== *)

Module ExtraFixtures.
Import ClusterExport Pipeline.

(** The nine records that go with [Fixtures.points1]. *)
Definition rows9 : list nat := seq 100 9.

Definition rows7 : list nat := [10; 11; 12; 13; 14; 15; 16]%nat.

(** A cluster file of four rows whose ['Unnamed: 0'] column names the last
    embedding row by [-1] and a row that does not exist by [9]. *)
Definition indexed_frame : cluster_frame :=
  read_cluster_csv 4 (Some [5; -1; 2; 9]).

(** Two cluster files that both list row 3. *)
Definition two_files : list (Z * cluster_frame) :=
  [(1, read_cluster_csv 2 (Some [0; 3]));
   (2, read_cluster_csv 2 (Some [3; 4]))].

(** A run whose rebalancer returns without a value. *)
Definition failing_run : run :=
  mkRun true true (Returns true) (Returns tt) (Returns false).

Definition completed_run : run :=
  mkRun true true (Returns true) (Returns tt) (Returns true).

End ExtraFixtures.

(* ================================================================== *)
(** * binary64 arithmetic on concrete values *)
(* ================================================================== *)

(** numpy's [float64] with the operations of IEEE 754 (round to nearest,
    ties to even), as [Stdlib.Floats.SpecFloat] defines them. *)
Module Binary64.
Import SpecFloat.

Definition float : Type := spec_float.

Definition prec : Z := 53.
Definition emax : Z := 1024.

Definition add : float -> float -> float := SFadd prec emax.
Definition sub : float -> float -> float := SFsub prec emax.
Definition mul : float -> float -> float := SFmul prec emax.
Definition div : float -> float -> float := SFdiv prec emax.
Definition sqrt : float -> float := SFsqrt prec emax.
Definition abs : float -> float := SFabs.
Definition ltb : float -> float -> bool := SFltb.
Definition leb : float -> float -> bool := SFleb.

Definition zero : float := S754_zero false.
Definition inf : float := S754_infinity false.
Definition nan : float := S754_nan.

(** The literals [1.0], [1e-6] and [1e-10]. *)
Definition one : float := S754_finite false 4503599627370496 (-52).
Definition epsilon : float := S754_finite false 4722366482869645 (-72).
Definition norm_floor : float := S754_finite false 7737125245533627 (-86).

(** [float(n)] for a count. *)
Definition of_count (n : nat) : float :=
  binary_normalize prec emax (Z.of_nat n) 0 false.

(** A sum of array entries.  The order of the additions is numpy's own;
    they are taken from left to right here, and the inputs evaluated
    below are ones on which every order gives the same sum. *)
Definition np_sum (l : list float) : float := fold_left add l zero.

(** [np.mean] of a flattened array. *)
Definition np_mean (l : list float) : float :=
  div (np_sum l) (of_count (length l)).

(** [distances[:, 1:]], flattened. *)
Definition drop_self_column (distances : list (list float)) : list float :=
  concat (map (@tl float) distances).

(** [1.0 / (avg_dist + 1e-6)] *)
Definition density_of_avg (avg : float) : float := div one (add avg epsilon).

Section FindDenseClusters.

Variable vec : Type.

(** [NearestNeighbors(...).fit(P).kneighbors(P)]: the distance matrix. *)
Variable kneighbors : Z -> list vec -> list (list float).

Definition cluster_avg_dist (points : list vec) : float :=
  np_mean (drop_self_column
             (kneighbors (Embeddings.neighbor_count vec points + 1) points)).

(** Body of the loop of [find_dense_clusters], lines 66-76. *)
Definition density_of_points (points : list vec) : float :=
  if 0 <? Embeddings.neighbor_count vec points
  then density_of_avg (cluster_avg_dist points)
  else zero.

End FindDenseClusters.

(** [np.maximum]: a NaN operand gives NaN. *)
Definition maximum (a b : float) : float :=
  match a, b with
  | S754_nan, _ | _, S754_nan => S754_nan
  | _, _ => if ltb a b then b else a
  end.

(** [np.sqrt(np.sum(np.square(row)))] *)
Definition computed_norm (row : list float) : float :=
  sqrt (np_sum (map (fun x => mul x x) row)).

(** One row of [cluster_analysis.normalize_embeddings], lines 194-204. *)
Definition cluster_normalize_row (row : list float) : list float :=
  let norms := computed_norm row in
  let norms := maximum norms norm_floor in
  map (fun x => div x norms) row.

(** One row of the [normalize_embeddings] local to
    [create_unbiased_dataset], lines 158-160. *)
Definition rebalancer_normalize_row (row : list float) : list float :=
  let norm := computed_norm row in
  map (fun x => div x norm) row.

End Binary64.

(* ================================================================== *)
(** * binary64 arithmetic on reals *)
(* ================================================================== *)

(** A binary64 value is the real it stands for, and an operation returns
    the rounding of its exact result.  The rounding is a parameter: the
    statements say what they need of it.  Results beyond the largest
    binary64 value are outside this model. *)
Module Rounded.
Import Np.
Local Open Scope R_scope.

(** Half the distance between 1 and the next binary64 value. *)
Definition unit_roundoff : R := / 2 ^ 53.

(** [computed] is [exact] up to a relative error of [bound]. *)
Definition accurate (bound exact computed : R) : Prop :=
  Rabs (computed - exact) <= bound * Rabs exact.

Section Arithmetic.

(** The binary64 value an exact result is rounded to. *)
Variable rnd : R -> R.

(** [x / d]: numpy's results for a zero divisor, the rounded quotient
    otherwise. *)
Definition np_true_divide (x d : R) : npfloat :=
  match np_divide x d with
  | Finite q => Finite (rnd q)
  | other => other
  end.

Section Normalization.

(** [np.sum] of one row: binary64 additions in numpy's order. *)
Variable np_sum : list R -> R.

(** [np.square(row)], and [row ** 2]. *)
Definition squares (row : vector) : list R := map (fun x => rnd (x * x)) row.

(** [np.sqrt(np.sum(np.square(row)))] *)
Definition computed_norm (row : vector) : R :=
  rnd (sqrt (np_sum (squares row))).

(** The literal [1e-10]. *)
Definition norm_floor : R := rnd (/ 10 ^ 10).

(** One row of [cluster_analysis.normalize_embeddings], lines 194-204. *)
Definition cluster_normalize_row (row : vector) : list npfloat :=
  let norms := computed_norm row in
  let norms := Rmax norms norm_floor in
  map (fun x => np_true_divide x norms) row.


(** One row of the [normalize_embeddings] local to
    [create_unbiased_dataset], lines 158-160. *)
Definition rebalancer_normalize_row (row : vector) : list npfloat :=
  let norm := computed_norm row in
  map (fun x => np_true_divide x norm) row.


(** The squares, their sum and its square root neither overflow nor
    underflow: each rounding has a relative error of at most the unit
    roundoff, and the sum of the squares, whatever the order of its
    additions, of at most six times that. *)
Definition norm_in_range (row : vector) : Prop :=
  Forall (fun x => accurate unit_roundoff (x * x) (rnd (x * x))) row /\
  accurate (6 * unit_roundoff) (Rsum (squares row)) (np_sum (squares row)) /\
  accurate unit_roundoff (sqrt (np_sum (squares row))) (computed_norm row).

(** Nor do the quotients by [d]. *)
Definition quotients_in_range (row : vector) (d : R) : Prop :=
  Forall (fun x => accurate unit_roundoff (x / d) (rnd (x / d))) row.

Definition cluster_row_in_range (row : vector) : Prop :=
  norm_in_range row /\
  accurate unit_roundoff (/ 10 ^ 10) norm_floor /\
  quotients_in_range row (Rmax (computed_norm row) norm_floor).

Definition rebalancer_row_in_range (row : vector) : Prop :=
  norm_in_range row /\
  (computed_norm row <> 0 -> quotients_in_range row (computed_norm row)).

(** The tolerance on a unit norm that the rounding leaves. *)
Definition tolerance : R := / 10 ^ 12.

(** A row as the per-cluster path normalizes it. *)
Definition cluster_row_normalized (row : vector) (out : list npfloat) : Prop :=
  exists w,
    finite_values out = Some w /\
    (norm_floor <= computed_norm row -> Rabs (l2_norm w - 1) <= tolerance) /\
    (computed_norm row <= norm_floor ->
     w = map (fun x => rnd (x / norm_floor)) row) /\
    (Reducing.is_zero_row row -> Reducing.is_zero_row w).

(** A row as the rebalancer normalizes it, when its computed norm is not
    zero. *)
Definition rebalancer_row_normalized (row : vector) (out : list npfloat)
  : Prop :=
  computed_norm row <> 0 ->
  exists w, finite_values out = Some w /\ Rabs (l2_norm w - 1) <= tolerance.

End Normalization.

Section Density.

Variable vec : Type.

(** [NearestNeighbors(...).fit(P).kneighbors(P)]: the distance matrix. *)
Variable kneighbors : Z -> list vec -> list (list R).

(** [np.mean] of a flattened array, in binary64. *)
Variable np_mean : list R -> R.

(** The literal [1e-6]. *)
Definition epsilon : R := rnd (/ 10 ^ 6).

(** [1.0 / (avg_dist + 1e-6)] *)
Definition density_of_avg (avg : R) : R := rnd (1 / rnd (avg + epsilon)).

Definition cluster_avg_dist (points : list vec) : R :=
  np_mean (concat (map (@tl R)
                       (kneighbors (Embeddings.neighbor_count vec points + 1)
                                   points))).

(** Body of the loop of [find_dense_clusters], lines 66-76. *)
Definition density_of_points (points : list vec) : R :=
  if (0 <? Embeddings.neighbor_count vec points)%Z
  then density_of_avg (cluster_avg_dist points)
  else 0.

End Density.

(** Rounding to the nearest value of a format: what IEEE 754 asks of every
    operation, whichever way ties are broken. *)
Definition rounds_to_nearest (format : R -> Prop) : Prop :=
  forall x, format (rnd x) /\
            forall f, format f -> Rabs (rnd x - x) <= Rabs (f - x).

End Arithmetic.

End Rounded.

(* ================================================================== *)
(** * Inputs for the rounded models *)
(* ================================================================== *)

Module FloatFixtures.
Import Np.

(** One-dimensional binary64 points: the distance is [|x - y|]. *)
Definition dist1 (x y : Binary64.float) : Binary64.float :=
  Binary64.abs (Binary64.sub x y).

Fixpoint insert_asc (x : Binary64.float) (l : list Binary64.float)
  : list Binary64.float :=
  match l with
  | [] => [x]
  | y :: l' => if Binary64.leb x y then x :: l else y :: insert_asc x l'
  end.

(** Nearest-neighbour distances of one-dimensional points. *)
Definition kneighbors1 (n_neighbors : Z) (points : list Binary64.float)
  : list (list Binary64.float) :=
  map (fun p =>
         firstn (Z.to_nat n_neighbors)
                (fold_right insert_asc [] (map (dist1 p) points)))
      points.

(** [2 ** -80], about 8.3e-25. *)
Definition two_pow_m80 : Binary64.float :=
  SpecFloat.S754_finite false 4503599627370496 (-132).

(** Two coincident points, and two points [2 ** -80] apart. *)
Definition coincident2 : list Binary64.float := [Binary64.zero; Binary64.zero].
Definition apart2 : list Binary64.float := [Binary64.zero; two_pow_m80].

(** The literals [1e200] and [1e-200]. *)
Definition f1e200 : Binary64.float :=
  SpecFloat.S754_finite false 5883593420661338 612.
Definition f1e_200 : Binary64.float :=
  SpecFloat.S754_finite false 6894565328877484 (-717).

Definition huge_row : list Binary64.float :=
  [f1e200; f1e200; Binary64.zero; Binary64.zero; Binary64.zero; Binary64.zero].

Definition minute_row : list Binary64.float :=
  [f1e_200; Binary64.zero; Binary64.zero; Binary64.zero; Binary64.zero;
   Binary64.zero].

Local Open Scope R_scope.

(** Clusters given by the distance rows of their points: the neighbour
    search returns them as they are. *)
Definition kneighbors_rows (_ : Z) (points : list (list R)) : list (list R) :=
  points.

(** A coarse format, the multiples of [h], with the rounding to the
    nearest of them (a tie goes upwards). *)
Definition on_grid (h x : R) : Prop := exists k : Z, x = IZR k * h.

Definition grid_round (h x : R) : R := IZR (up (x / h - / 2)) * h.

Definition coarse : R := / 2 ^ 30.



Definition near2 : list (list R) := [[0; 1]; [0; 1]].
Definition far2 : list (list R) := [[0; 2]; [0; 2]].



End FloatFixtures.

(* ================================================================== *)
(** * Facts about the helpers *)
(* ================================================================== *)

Module PyFacts.
Import Py.

Lemma insert_unique_In (x y : Z) (l : list Z) :
  In y (insert_unique x l) <-> y = x \/ In y l.
Proof.
  induction l as [|z l IH]; simpl.
  - intuition.
  - destruct (x ?= z) eqn:E; simpl.
    + apply Z.compare_eq in E; subst. intuition.
    + intuition.
    + rewrite IH. intuition.
Qed.

Lemma np_unique_In (y : Z) (l : list Z) : In y (np_unique l) <-> In y l.
Proof.
  induction l as [|x l IH]; simpl; [tauto|].
  unfold np_unique in *; simpl. rewrite insert_unique_In, IH. intuition.
Qed.

Lemma insert_unique_sorted (x : Z) (l : list Z) :
  StronglySorted Z.lt l -> StronglySorted Z.lt (insert_unique x l).
Proof.
  induction l as [|z l IH]; intros Hs; simpl.
  - repeat constructor.
  - inversion Hs as [|? ? Hl Hz]; subst.
    destruct (x ?= z) eqn:E.
    + exact Hs.
    + rewrite Z.compare_lt_iff in E. constructor; [exact Hs|].
      constructor; [exact E|].
      eapply Forall_impl; [|exact Hz]. intros a Ha; simpl in Ha. lia.
    + rewrite Z.compare_gt_iff in E. constructor; [auto|].
      rewrite Forall_forall in *. intros a Ha.
      apply insert_unique_In in Ha. destruct Ha as [->|Ha]; auto.
Qed.

Lemma np_unique_sorted (l : list Z) : StronglySorted Z.lt (np_unique l).
Proof.
  induction l as [|x l IH]; [constructor|].
  unfold np_unique in *; simpl. now apply insert_unique_sorted.
Qed.

Lemma StronglySorted_filter {A : Type} (R : A -> A -> Prop) (f : A -> bool)
    (l : list A) :
  StronglySorted R l -> StronglySorted R (filter f l).
Proof.
  induction 1 as [|a l Hl IH Ha]; simpl; [constructor|].
  destruct (f a); [|exact IH].
  constructor; [exact IH|].
  rewrite Forall_forall in *. intros b Hb.
  apply filter_In in Hb. now apply Ha.
Qed.

Lemma firstn_In {A : Type} (n : nat) (l : list A) (x : A) :
  In x (firstn n l) -> In x l.
Proof.
  revert l. induction n as [|n IH]; intros [|a l]; simpl; try tauto.
  intros [->|H]; auto.
Qed.

Lemma StronglySorted_firstn {A : Type} (R : A -> A -> Prop) (n : nat)
    (l : list A) :
  StronglySorted R l -> StronglySorted R (firstn n l).
Proof.
  intros Hs. revert n.
  induction Hs as [|a l Hl IH Ha]; intros [|n]; simpl; try constructor.
  - apply IH.
  - rewrite Forall_forall in *. intros b Hb.
    apply Ha. now apply (firstn_In n).
Qed.

Lemma StronglySorted_lt_NoDup (l : list Z) : StronglySorted Z.lt l -> NoDup l.
Proof.
  induction 1 as [|a l Hl IH Ha]; constructor; [|exact IH].
  intros Hin. rewrite Forall_forall in Ha. specialize (Ha _ Hin). lia.
Qed.

Lemma slice_to_nonneg {A : Type} (n : Z) (l : list A) :
  0 <= n -> slice_to n l = firstn (Z.to_nat n) l.
Proof.
  intros Hn. unfold slice_to.
  destruct (0 <=? n) eqn:E; [reflexivity|].
  apply Z.leb_gt in E. lia.
Qed.

Lemma dict_get_map {V : Type} (f : Z -> V) (k : Z) (keys : list Z) :
  In k keys -> dict_get k (map (fun x => (x, f x)) keys) = Some (f k).
Proof.
  induction keys as [|x keys IH]; simpl; [tauto|].
  intros [->|Hin].
  - now rewrite Z.eqb_refl.
  - destruct (k =? x) eqn:E.
    + apply Z.eqb_eq in E. now subst.
    + now apply IH.
Qed.

Lemma traverse_total {A B : Type} (f : A -> option B) (g : A -> B)
    (l : list A) :
  (forall x, In x l -> f x = Some (g x)) -> traverse f l = Some (map g l).
Proof.
  induction l as [|x l IH]; simpl; intros H; [reflexivity|].
  rewrite (H x (or_introl eq_refl)), IH; auto.
Qed.

Lemma traverse_length {A B : Type} (f : A -> option B) (l : list A)
    (r : list B) :
  traverse f l = Some r -> length r = length l.
Proof.
  revert r. induction l as [|x l IH]; simpl; intros r H.
  - now inversion H.
  - destruct (f x); [|discriminate].
    destruct (traverse f l); [|discriminate].
    inversion H; subst. simpl. now rewrite (IH l0).
Qed.

Lemma where_from_map_seq (f : nat -> bool) (n s : nat) :
  where_from s (map f (seq s n)) = filter f (seq s n).
Proof.
  revert s. induction n as [|n IH]; intros s; simpl; [reflexivity|].
  rewrite IH. reflexivity.
Qed.

Lemma where_from_In (mask : list bool) (s i : nat) :
  In i (where_from s mask) <->
  (s <= i < s + length mask)%nat /\ nth (i - s) mask false = true.
Proof.
  revert s. induction mask as [|b mask IH]; intros s; simpl.
  - split; [tauto|lia].
  - assert (Hstep : In i (where_from (S s) mask) <->
              (S s <= i < s + S (length mask))%nat /\
              nth (i - s) (b :: mask) false = true).
    { rewrite IH. split.
      - intros [Hr Hn]. split; [lia|].
        replace (i - s)%nat with (S (i - S s)) by lia. exact Hn.
      - intros [Hr Hn]. split; [lia|].
        replace (i - s)%nat with (S (i - S s)) in Hn by lia. exact Hn. }
    destruct b; simpl.
    + rewrite Hstep. split.
      * intros [<-|[Hr Hn]]; [|split; [lia|exact Hn]].
        split; [lia|]. now rewrite Nat.sub_diag.
      * intros [Hr Hn]. destruct (Nat.eq_dec s i) as [->|Hne]; [now left|].
        right. split; [lia|exact Hn].
    + rewrite Hstep. split.
      * intros [Hr Hn]. split; [lia|exact Hn].
      * intros [Hr Hn]. split; [|exact Hn].
        destruct (Nat.eq_dec s i) as [->|Hne]; [|lia].
        rewrite Nat.sub_diag in Hn. discriminate.
Qed.

Lemma where_from_sorted (mask : list bool) (s : nat) :
  StronglySorted lt (where_from s mask).
Proof.
  revert s. induction mask as [|b mask IH]; intros s; simpl; [constructor|].
  destruct b; [|apply IH].
  constructor; [apply IH|].
  rewrite Forall_forall. intros i Hi. apply where_from_In in Hi. lia.
Qed.

(** The positions selected by a mask and by its negation split the range. *)
Lemma where_from_partition (mask : list bool) (s : nat) :
  Permutation (where_from s mask ++ where_from s (map negb mask))
              (seq s (length mask)).
Proof.
  revert s. induction mask as [|b mask IH]; intros s; simpl; [constructor|].
  destruct b; simpl.
  - constructor. apply IH.
  - apply Permutation_sym, Permutation_cons_app, Permutation_sym, IH.
Qed.

Lemma mask_select_length {A : Type} (mask : list bool) (xs : list A) (s : nat) :
  length mask = length xs ->
  length (mask_select mask xs) = length (where_from s mask).
Proof.
  revert xs s. induction mask as [|b mask IH]; intros [|x xs] s H;
    simpl in *; try discriminate; [reflexivity|].
  injection H as H.
  destruct b; simpl; now rewrite (IH xs (S s) H).
Qed.

(** The rows a mask selects are the rows at the selected positions, in
    increasing position. *)
Lemma mask_select_where {A : Type} (mask : list bool) (xs pre : list A) :
  length mask = length xs ->
  map Some (mask_select mask xs)
  = map (nth_error (pre ++ xs)) (where_from (length pre) mask).
Proof.
  revert xs pre. induction mask as [|b mask IH]; intros [|x xs] pre H;
    simpl in *; try discriminate; [reflexivity|].
  injection H as H.
  specialize (IH xs (pre ++ [x]) H).
  rewrite <- app_assoc, length_app in IH; simpl in IH.
  rewrite Nat.add_1_r in IH.
  destruct b; simpl; [|exact IH].
  rewrite IH. f_equal.
  rewrite nth_error_app2 by lia. now rewrite Nat.sub_diag.
Qed.

Lemma mask_select_map {A B : Type} (f : A -> B) (mask : list bool)
    (xs : list A) :
  mask_select mask (map f xs) = map f (mask_select mask xs).
Proof.
  revert xs. induction mask as [|b mask IH]; intros [|x xs]; simpl; auto.
  destruct b; simpl; now rewrite IH.
Qed.

End PyFacts.

(* ================================================================== *)
(** * [find_dense_clusters]: ranking, defaults, empty result *)
(* ================================================================== *)

Module EmbeddingsFacts.
Import Py PyFacts Embeddings Ranking.

Lemma Qltb_true (x y : Q) : Qltb x y = true <-> (x < y)%Q.
Proof.
  unfold Qltb. rewrite negb_true_iff.
  destruct (Qle_bool y x) eqn:E.
  - apply Qle_bool_iff in E. split; [discriminate|]. intros H.
    exfalso. apply (Qlt_not_le _ _ H E).
  - split; [intros _|reflexivity].
    apply Qnot_le_lt. intros H. apply Qle_bool_iff in H. congruence.
Qed.

Lemma Qltb_false (x y : Q) : Qltb x y = false <-> (y <= x)%Q.
Proof.
  unfold Qltb. rewrite negb_false_iff. apply Qle_bool_iff.
Qed.

Lemma insert_desc_In (x y : Z * Q) (l : list (Z * Q)) :
  In y (insert_desc x l) <-> y = x \/ In y l.
Proof.
  induction l as [|z l IH]; simpl.
  - intuition.
  - destruct (Qltb (snd x) (snd z)); simpl; [rewrite IH|]; intuition.
Qed.

Lemma insert_desc_length (x : Z * Q) (l : list (Z * Q)) :
  length (insert_desc x l) = S (length l).
Proof.
  induction l as [|z l IH]; simpl; [reflexivity|].
  destruct (Qltb (snd x) (snd z)); simpl; [now rewrite IH|reflexivity].
Qed.

Lemma sorted_desc_In (y : Z * Q) (l : list (Z * Q)) :
  In y (sorted_desc l) <-> In y l.
Proof.
  induction l as [|x l IH]; simpl; [tauto|].
  unfold sorted_desc in *; simpl. rewrite insert_desc_In, IH. intuition.
Qed.

Lemma sorted_desc_length (l : list (Z * Q)) :
  length (sorted_desc l) = length l.
Proof.
  induction l as [|x l IH]; simpl; [reflexivity|].
  unfold sorted_desc in *; simpl. now rewrite insert_desc_length, IH.
Qed.

(** Inserting an item whose label is below every label of a ranked list
    keeps the list ranked. *)
Lemma insert_desc_ranked (x : Z * Q) (l : list (Z * Q)) :
  StronglySorted item_before l ->
  Forall (fun y => fst x < fst y) l ->
  StronglySorted item_before (insert_desc x l).
Proof.
  induction l as [|y l IH]; intros Hs Hx; simpl.
  - repeat constructor.
  - inversion Hs as [|? ? Hl Hy]; subst.
    inversion Hx as [|? ? Hxy Hxl]; subst.
    destruct (Qltb (snd x) (snd y)) eqn:E.
    + apply Qltb_true in E.
      constructor; [now apply IH|].
      rewrite Forall_forall in *. intros z Hz.
      apply insert_desc_In in Hz. destruct Hz as [->|Hz]; [|now apply Hy].
      now left.
    + apply Qltb_false in E.
      constructor; [exact Hs|].
      assert (Hfirst : item_before x y).
      { destruct (Qle_lt_or_eq _ _ E) as [Hlt|Heq]; [now left|].
        right. split; [now symmetry|exact Hxy]. }
      constructor; [exact Hfirst|].
      rewrite Forall_forall in *. intros z Hz.
      specialize (Hy z Hz). specialize (Hxl z Hz).
      destruct Hy as [Hlt|[Heq Hlab]].
      * left. eapply Qlt_le_trans; eauto.
      * rewrite Heq in E.
        destruct (Qle_lt_or_eq _ _ E) as [Hlt|Heq'];
          [now left|right; split; [now symmetry|exact Hxl]].
Qed.

(** Python's stable descending sort of items listed by ascending label
    ranks them by density, ties by ascending label. *)
Lemma sorted_desc_ranked (items : list (Z * Q)) :
  StronglySorted (fun a b => fst a < fst b) items ->
  StronglySorted item_before (sorted_desc items).
Proof.
  induction 1 as [|x l Hl IH Hx]; [constructor|].
  change (sorted_desc (x :: l)) with (insert_desc x (sorted_desc l)).
  apply insert_desc_ranked; [exact IH|].
  rewrite Forall_forall in *. intros y Hy.
  apply Hx. now apply sorted_desc_In.
Qed.

Lemma StronglySorted_map_graph (density : Z -> Q) (keys : list Z) :
  StronglySorted Z.lt keys ->
  StronglySorted (fun a b : Z * Q => fst a < fst b)
                 (map (fun l => (l, density l)) keys).
Proof.
  induction 1 as [|k keys Hk IH Hall]; simpl; constructor; [exact IH|].
  rewrite Forall_forall in *. intros b Hb.
  apply in_map_iff in Hb. destruct Hb as [l [<- Hl]]. simpl. now apply Hall.
Qed.

(** A ranked list of graph items projects to a ranked list of labels. *)
Lemma ranked_labels (density : Z -> Q) (items : list (Z * Q)) :
  Forall (fun it => snd it = density (fst it)) items ->
  StronglySorted item_before items ->
  StronglySorted (ranked_before density) (map fst items).
Proof.
  intros Hg Hs. induction Hs as [|a l Hl IH Ha]; simpl; constructor.
  - apply IH. now inversion Hg.
  - inversion Hg as [|? ? Hga Hgl]; subst.
    rewrite Forall_forall in *. intros b Hb.
    apply in_map_iff in Hb. destruct Hb as [it [<- Hit]].
    specialize (Ha it Hit). specialize (Hgl it Hit).
    unfold item_before in Ha. unfold ranked_before.
    now rewrite <- Hga, <- Hgl.
Qed.

Section FindDenseClusters.

Variable vec : Type.
Variable fit_predict : HDBSCAN -> list vec -> list Z.
Variable kneighbors : Z -> list vec -> list (list Q).

Lemma unique_clusters_sorted (cluster_labels : list Z) :
  StronglySorted Z.lt (unique_clusters cluster_labels).
Proof.
  apply StronglySorted_filter, np_unique_sorted.
Qed.

(** The clusters found are the distinct labels other than [-1]. *)
Lemma unique_clusters_spec (cluster_labels : list Z) :
  NoDup (unique_clusters cluster_labels) /\
  forall l, In l (unique_clusters cluster_labels) <->
            In l cluster_labels /\ l <> -1.
Proof.
  split.
  - apply StronglySorted_lt_NoDup, unique_clusters_sorted.
  - intros l. unfold unique_clusters.
    rewrite filter_In, np_unique_In, negb_true_iff, Z.eqb_neq. tauto.
Qed.

Lemma select_densest_ranked (embeddings : list vec) (cluster_labels : list Z)
    (n_clusters : Z) :
  0 <= n_clusters ->
  exists labels indices,
    select_densest vec kneighbors embeddings cluster_labels n_clusters
      = Some (labels, indices) /\
    StronglySorted
      (ranked_before (cluster_density vec kneighbors embeddings cluster_labels))
      labels /\
    length labels =
      Z.to_nat (Z.min n_clusters
                  (Z.of_nat (length (unique_clusters cluster_labels)))) /\
    indices = map (cluster_point_indices cluster_labels) labels /\
    incl labels (unique_clusters cluster_labels).
Proof.
  intros HK. unfold select_densest.
  destruct (Nat.eqb (length (unique_clusters cluster_labels)) 0) eqn:E0.
  - apply Nat.eqb_eq in E0. exists [], []. rewrite E0.
    repeat split; try constructor.
    + simpl. rewrite Z.min_r by lia. reflexivity.
    + intros x [].
  - set (density := cluster_density vec kneighbors embeddings cluster_labels).
    set (U := unique_clusters cluster_labels).
    set (items := cluster_densities vec kneighbors embeddings cluster_labels).
    assert (Hlen : length (sorted_desc items) = length U).
    { rewrite sorted_desc_length. unfold items, cluster_densities.
      now rewrite length_map. }
    rewrite Hlen.
    set (n := Z.min n_clusters (Z.of_nat (length U))).
    assert (Hn : 0 <= n) by (unfold n; lia).
    rewrite (slice_to_nonneg n _ Hn).
    set (top := firstn (Z.to_nat n) (sorted_desc items)).
    assert (Hitems : forall it, In it top ->
               In (fst it) U /\ snd it = density (fst it)).
    { intros it Hit. apply firstn_In in Hit. apply -> sorted_desc_In in Hit.
      unfold items, cluster_densities in Hit.
      apply in_map_iff in Hit. destruct Hit as [l [<- Hl]]. now split. }
    assert (Hincl : incl (map fst top) U).
    { intros l Hl. apply in_map_iff in Hl. destruct Hl as [it [<- Hit]].
      now apply Hitems. }
    rewrite (traverse_total _ (cluster_point_indices cluster_labels)).
    2:{ intros l Hl. unfold cluster_indices.
        apply (dict_get_map (cluster_point_indices cluster_labels)).
        now apply Hincl. }
    exists (map fst top), (map (cluster_point_indices cluster_labels) (map fst top)).
    repeat split; auto.
    + apply ranked_labels.
      * rewrite Forall_forall. intros it Hit. now apply Hitems.
      * apply StronglySorted_firstn, sorted_desc_ranked.
        apply StronglySorted_map_graph, unique_clusters_sorted.
    + rewrite length_map. unfold top. rewrite length_firstn, Hlen.
      unfold n. lia.
Qed.

(** C1.  Whatever labels the clusterer assigns, [find_dense_clusters] called
    with a non-negative cluster count K returns (without raising) a list of
    cluster labels that is strictly ordered by descending density score,
    equal densities by ascending label; its length is
    min(K, number of non-noise clusters); the labels are non-noise clusters
    found, and the index lists returned are those of the selected labels, in
    the same order. *)
Theorem C1_top_k_selection_sorted (embeddings : list vec)
    (min_cluster_size min_samples n_clusters : option Z) :
  0 <= kwarg n_clusters default_n_clusters ->
  exists labels indices,
    find_dense_clusters vec fit_predict kneighbors embeddings
      min_cluster_size min_samples n_clusters = Some (labels, indices) /\
    StronglySorted
      (ranked_before
         (cluster_density vec kneighbors embeddings
            (fit_predict (clusterer_of min_cluster_size min_samples) embeddings)))
      labels /\
    length labels =
      Z.to_nat
        (Z.min (kwarg n_clusters default_n_clusters)
           (Z.of_nat
              (length
                 (unique_clusters
                    (fit_predict (clusterer_of min_cluster_size min_samples)
                       embeddings))))) /\
    indices =
      map (cluster_point_indices
             (fit_predict (clusterer_of min_cluster_size min_samples) embeddings))
          labels /\
    incl labels
         (unique_clusters
            (fit_predict (clusterer_of min_cluster_size min_samples) embeddings)).
Proof.
  intros HK.
  destruct (select_densest_ranked embeddings
              (fit_predict (clusterer_of min_cluster_size min_samples) embeddings)
              _ HK)
    as [labels [indices [Hrun [Hsorted [Hlen [Hidx Hincl]]]]]].
  exists labels, indices. unfold find_dense_clusters. auto.
Qed.

Lemma Qsum_nonneg (l : list Q) :
  Forall (fun d => (0 <= d)%Q) l -> (0 <= Qsum l)%Q.
Proof.
  induction 1 as [|d l Hd Hl IH]; simpl; [apply Qle_refl|].
  change 0%Q with (0 + 0)%Q. now apply Qplus_le_compat.
Qed.

Lemma np_mean_nonneg (l : list Q) :
  Forall (fun d => (0 <= d)%Q) l -> (0 <= np_mean l)%Q.
Proof.
  intros H. unfold np_mean, Qdiv.
  apply Qmult_le_0_compat; [now apply Qsum_nonneg|].
  apply Qinv_le_0_compat.
  change 0%Q with (inject_Z 0). rewrite <- Zle_Qle. lia.
Qed.

Lemma drop_self_column_nonneg (distances : list (list Q)) :
  Forall (Forall (fun d => (0 <= d)%Q)) distances ->
  Forall (fun d => (0 <= d)%Q) (drop_self_column distances).
Proof.
  unfold drop_self_column.
  induction 1 as [|row rows Hrow Hrows IH]; simpl; [constructor|].
  apply Forall_app. split; [|exact IH].
  destruct row; simpl; [constructor|now inversion Hrow].
Qed.

(** The score is strictly decreasing in the average distance. *)
Lemma density_of_avg_decreasing (a b : Q) :
  (0 <= a)%Q -> (a < b)%Q -> (density_of_avg b < density_of_avg a)%Q.
Proof.
  intros Ha Hab. unfold density_of_avg, Qdiv. rewrite !Qmult_1_l.
  assert (He : (0 < epsilon)%Q) by reflexivity.
  assert (Hpa : (0 < a + epsilon)%Q).
  { apply Qlt_le_trans with (0 + epsilon)%Q; [now rewrite Qplus_0_l|].
    apply Qplus_le_compat; [exact Ha|apply Qle_refl]. }
  assert (Hlt : (a + epsilon < b + epsilon)%Q).
  { apply Qplus_lt_le_compat; [exact Hab|apply Qle_refl]. }
  apply -> Qinv_lt_contravar; auto.
  eapply Qlt_trans; eauto.
Qed.

Lemma density_of_points_formula (points : list vec) :
  (2 <= length points)%nat ->
  density_of_points vec kneighbors points
  = (1 / (cluster_avg_dist vec kneighbors points + (1 # 1000000)))%Q.
Proof.
  intros H. unfold density_of_points.
  destruct (0 <? neighbor_count vec points) eqn:E; [reflexivity|].
  apply Z.ltb_ge in E. unfold neighbor_count in E. lia.
Qed.

(** In exact arithmetic: for two clusters A and B with the same number of
    points, at least two each, whose nearest-neighbour distances are
    non-negative, if the average k-nearest-neighbour distance of A is
    strictly less than that of B, the score 1 / (avg_dist + 1e-6) of A is
    strictly greater than that of B. *)
Lemma exact_density_monotone (A B : list vec) :
  length A = length B ->
  (2 <= length A)%nat ->
  Forall (Forall (fun d => (0 <= d)%Q))
         (kneighbors (neighbor_count vec A + 1) A) ->
  (cluster_avg_dist vec kneighbors A < cluster_avg_dist vec kneighbors B)%Q ->
  (density_of_points vec kneighbors B < density_of_points vec kneighbors A)%Q /\
  density_of_points vec kneighbors A
    = (1 / (cluster_avg_dist vec kneighbors A + (1 # 1000000)))%Q /\
  density_of_points vec kneighbors B
    = (1 / (cluster_avg_dist vec kneighbors B + (1 # 1000000)))%Q.
Proof.
  intros Hlen HA Hpos Hlt.
  assert (HB : (2 <= length B)%nat) by lia.
  rewrite (density_of_points_formula A HA), (density_of_points_formula B HB).
  repeat split.
  apply density_of_avg_decreasing; [|exact Hlt].
  unfold cluster_avg_dist, avg_dist.
  now apply np_mean_nonneg, drop_self_column_nonneg.
Qed.

(** C8.  A call of [find_dense_clusters] that leaves out the minimum cluster
    size runs HDBSCAN with [min_cluster_size = 5], the default of the
    signature (and with [min_samples = 5] when that is left out too); the
    value 10 is only what [main] passes explicitly. *)
Theorem C8_omitted_min_cluster_size_is_5 (embeddings : list vec)
    (min_samples n_clusters : option Z) :
  find_dense_clusters vec fit_predict kneighbors embeddings
    None min_samples n_clusters
  = select_densest vec kneighbors embeddings
      (fit_predict
         {| min_cluster_size := 5;
            min_samples := kwarg min_samples 5;
            metric := "euclidean";
            cluster_selection_method := "eom" |}
         embeddings)
      (kwarg n_clusters 10) /\
  Embeddings.min_cluster_size (clusterer_of None None) = 5 /\
  Embeddings.min_samples (clusterer_of None None) = 5 /\
  Embeddings.min_cluster_size
    (clusterer_of main_min_cluster_size main_min_samples) = 10.
Proof. repeat split. Qed.

Lemma unique_clusters_all_noise (cluster_labels : list Z) :
  Forall (fun l => l = -1) cluster_labels ->
  unique_clusters cluster_labels = [].
Proof.
  intros H.
  destruct (unique_clusters cluster_labels) as [|l U] eqn:E; [reflexivity|].
  assert (Hin : In l (unique_clusters cluster_labels))
    by (rewrite E; now left).
  apply unique_clusters_spec in Hin. destruct Hin as [Hin Hne].
  rewrite Forall_forall in H. now specialize (H l Hin).
Qed.

(** C9.  When the clusterer labels every point [-1], [find_dense_clusters]
    returns the empty label list and the empty index list; it does not
    raise. *)
Theorem C9_no_cluster_empty_result (embeddings : list vec)
    (min_cluster_size min_samples n_clusters : option Z) :
  Forall (fun l => l = -1)
         (fit_predict (clusterer_of min_cluster_size min_samples) embeddings) ->
  find_dense_clusters vec fit_predict kneighbors embeddings
    min_cluster_size min_samples n_clusters = Some ([], []).
Proof.
  intros H. unfold find_dense_clusters, select_densest.
  now rewrite (unique_clusters_all_noise _ H).
Qed.

End FindDenseClusters.

End EmbeddingsFacts.

Module EmbeddingsExamples.
Import Py Embeddings Fixtures.

(** Clusters 0 = {0,3,6} and 2 = {200,203} have spacing 3, cluster
    1 = {100,101,102} has spacing 1: cluster 1 is the densest. *)
Example find_dense_clusters_points1 :
  find_dense_clusters Z interval_labels kneighbors1 points1 None None None
  = Some ([1; 2; 0], [[2; 3; 5]; [6; 7]; [0; 1; 8]]%nat).
Proof. vm_compute. reflexivity. Qed.

Example find_dense_clusters_top1 :
  find_dense_clusters Z interval_labels kneighbors1 points1 None None (Some 1)
  = Some ([1], [[2; 3; 5]]%nat).
Proof. vm_compute. reflexivity. Qed.

(** A negative count drops clusters from the end of the ranking. *)
Example find_dense_clusters_negative_count :
  find_dense_clusters Z interval_labels kneighbors1 points1 None None (Some (-1))
  = Some ([1; 2], [[2; 3; 5]; [6; 7]]%nat).
Proof. vm_compute. reflexivity. Qed.

(** Equal densities: the smaller label comes first. *)
Example find_dense_clusters_tie :
  find_dense_clusters Z interval_labels kneighbors1 [200; 0; 203; 3] None None None
  = Some ([0; 2], [[1; 3]; [0; 2]]%nat).
Proof. vm_compute. reflexivity. Qed.

(** C1 on [points1] with K = 2. *)
Lemma C1_witness :
  0 <= kwarg (Some 2) default_n_clusters /\
  exists labels indices,
    find_dense_clusters Z interval_labels kneighbors1 points1
      None None (Some 2) = Some (labels, indices) /\
    StronglySorted
      (Ranking.ranked_before
         (cluster_density Z kneighbors1 points1
            (interval_labels (clusterer_of None None) points1)))
      labels /\
    length labels =
      Z.to_nat
        (Z.min (kwarg (Some 2) default_n_clusters)
           (Z.of_nat
              (length
                 (unique_clusters
                    (interval_labels (clusterer_of None None) points1))))) /\
    indices =
      map (cluster_point_indices
             (interval_labels (clusterer_of None None) points1))
          labels /\
    incl labels
         (unique_clusters (interval_labels (clusterer_of None None) points1)).
Proof.
  split; [simpl; lia|].
  apply (EmbeddingsFacts.C1_top_k_selection_sorted
           Z interval_labels kneighbors1 points1 None None (Some 2)).
  simpl; lia.
Defined.

(** The clusters [tight3] (spacing 1) and [loose3] (spacing 10) in exact
    arithmetic. *)
Example exact_density_tight_loose :
  (density_of_points Z kneighbors1 loose3
     < density_of_points Z kneighbors1 tight3)%Q /\
  density_of_points Z kneighbors1 tight3
    = (1 / (cluster_avg_dist Z kneighbors1 tight3 + (1 # 1000000)))%Q /\
  density_of_points Z kneighbors1 loose3
    = (1 / (cluster_avg_dist Z kneighbors1 loose3 + (1 # 1000000)))%Q.
Proof.
  apply (EmbeddingsFacts.exact_density_monotone Z kneighbors1 tight3 loose3).
  - reflexivity.
  - simpl; lia.
  - vm_compute. repeat constructor; discriminate.
  - vm_compute. reflexivity.
Qed.

(** C9 on [points1] with a clusterer that finds only noise. *)
Lemma C9_witness :
  find_dense_clusters Z all_noise kneighbors1 points1 None None None
  = Some ([], []).
Proof.
  apply (EmbeddingsFacts.C9_no_cluster_empty_result Z all_noise kneighbors1 points1).
  vm_compute. repeat constructor.
Defined.

End EmbeddingsExamples.

(* ================================================================== *)
(** * [create_unbiased_dataset]: removal sampling and the record split *)
(* ================================================================== *)

Module RebalancerFacts.
Import Py PyFacts CreateUnbiasedDataset Rebalancing.

Section RemovalSampling.

Variable rng : Type.
Variable seed_state : Z -> rng.
Variable sample_from : rng -> list Z -> nat -> list Z * rng.
Variable list_of_set : list Z -> list Z.

Local Abbreviation select_for_cluster :=
  (select_for_cluster rng seed_state sample_from list_of_set).
Local Abbreviation process_clusters :=
  (process_clusters rng seed_state sample_from list_of_set).
Local Abbreviation select_removals :=
  (select_removals rng seed_state sample_from list_of_set).
Local Abbreviation members := (members list_of_set).
Local Abbreviation member_count := (member_count list_of_set).
Local Abbreviation removal_quota := (removal_quota list_of_set).
Local Abbreviation cluster_removals :=
  (cluster_removals rng seed_state sample_from list_of_set).

(** The selection for one cluster does not depend on the generator state it
    starts from: [random.seed(42)] overwrites it. *)
Lemma select_for_cluster_reseeded (data : embeddings_data) (s : rng) :
  select_for_cluster data s
  = (cluster_removals data, (member_count data / 2)%nat,
     snd (sample_from (seed_state 42) (members data)
            (member_count data / 2))).
Proof.
  unfold CreateUnbiasedDataset.select_for_cluster, bind, random_seed,
    random_sample, ret, Rebalancing.cluster_removals, Rebalancing.member_count,
    Rebalancing.members.
  now destruct (sample_from _ _ _).
Qed.

Lemma process_clusters_state_independent
    (cluster_embeddings_map : list (Z * embeddings_data)) (acc : selection)
    (s1 s2 : rng) :
  fst (process_clusters cluster_embeddings_map acc s1)
  = fst (process_clusters cluster_embeddings_map acc s2).
Proof.
  destruct cluster_embeddings_map as [|[cluster_num data] rest]; simpl.
  - reflexivity.
  - unfold bind. now rewrite (select_for_cluster_reseeded data s1),
      (select_for_cluster_reseeded data s2).
Qed.

(** C4.  Two runs of the removal sampling on the same cluster membership
    return the same removal indices (and the same per-cluster counts)
    whatever state the random generator is in when each run starts, and the
    ids selected for a cluster are the sample drawn from the state that
    [random.seed(42)] installs: they do not depend on the clusters processed
    before. *)
Theorem C4_removal_sampling_deterministic
    (cluster_embeddings_map : list (Z * embeddings_data)) (s1 s2 : rng) :
  fst (select_removals cluster_embeddings_map s1)
  = fst (select_removals cluster_embeddings_map s2) /\
  forall data s,
    fst (fst (select_for_cluster data s))
    = fst (sample_from (seed_state 42)
             (list_of_set (map resume_id data))
             (length (list_of_set (map resume_id data)) / 2)).
Proof.
  split.
  - unfold CreateUnbiasedDataset.select_removals, bind.
    pose proof (process_clusters_state_independent cluster_embeddings_map
                  {| indices_to_remove := []; removed_counts := [] |} s1 s2) as H.
    destruct (process_clusters cluster_embeddings_map _ s1) as [sel1 t1].
    destruct (process_clusters cluster_embeddings_map _ s2) as [sel2 t2].
    simpl in *. now subst.
  - intros data s. now rewrite select_for_cluster_reseeded.
Qed.

(** What the loop accumulates. *)
Lemma process_clusters_run
    (cluster_embeddings_map : list (Z * embeddings_data)) (acc : selection)
    (s : rng) :
  fst (process_clusters cluster_embeddings_map acc s)
  = {| indices_to_remove :=
         indices_to_remove acc
         ++ concat (map (fun cd => cluster_removals (snd cd))
                        cluster_embeddings_map);
       removed_counts :=
         removed_counts acc
         ++ map (fun cd => (fst cd, (member_count (snd cd) / 2)%nat))
                cluster_embeddings_map |}.
Proof.
  revert acc s.
  induction cluster_embeddings_map as [|[cluster_num data] rest IH];
    intros acc s; simpl.
  - rewrite !app_nil_r. now destruct acc.
  - unfold bind. rewrite select_for_cluster_reseeded.
    rewrite IH. simpl. now rewrite <- !app_assoc.
Qed.

Lemma select_removals_run
    (cluster_embeddings_map : list (Z * embeddings_data)) (s : rng) :
  fst (select_removals cluster_embeddings_map s)
  = (list_of_set
       (concat (map (fun cd => cluster_removals (snd cd))
                    cluster_embeddings_map)),
     map (fun cd => (fst cd, (member_count (snd cd) / 2)%nat))
         cluster_embeddings_map).
Proof.
  unfold CreateUnbiasedDataset.select_removals, bind.
  pose proof (process_clusters_run cluster_embeddings_map
                {| indices_to_remove := []; removed_counts := [] |} s) as H.
  destruct (process_clusters cluster_embeddings_map _ s) as [sel t].
  simpl in *. now subst.
Qed.

(** [len // 2] is [floor(len * 0.5)]. *)
Lemma removal_quota_half (data : embeddings_data) :
  removal_quota data = (member_count data / 2)%nat.
Proof.
  unfold Rebalancing.removal_quota, removal_fraction.
  set (n := Rebalancing.member_count list_of_set data).
  unfold Qfloor, Qmult, inject_Z; simpl.
  rewrite Z.mul_1_r.
  change 2 with (Z.of_nat 2). rewrite <- Nat2Z.inj_div.
  apply Nat2Z.id.
Qed.

End RemovalSampling.

(** ** The record split and the embedding mask *)

Lemma named_true (labels : list Z) (i : nat) :
  named labels i = true <-> In (Z.of_nat i) labels.
Proof.
  unfold named. rewrite existsb_exists. split.
  - intros [x [Hx E]]. apply Z.eqb_eq in E. now subst.
  - intros H. exists (Z.of_nat i). split; [exact H|apply Z.eqb_refl].
Qed.

Lemma in_index_true (n : nat) (label : Z) :
  in_index n label = true <-> 0 <= label < Z.of_nat n.
Proof.
  unfold in_index. rewrite andb_true_iff, Z.leb_le, Z.ltb_lt. tauto.
Qed.

(** Distinct labels of the index name as many rows as there are labels. *)
Lemma named_rows_count (n : nat) (labels : list Z) :
  NoDup labels ->
  Forall (fun label => in_index n label = true) labels ->
  length (filter (named labels) (seq 0 n)) = length labels.
Proof.
  intros Hnd Hin.
  rewrite <- (length_map Z.of_nat).
  apply Permutation_length, NoDup_Permutation; [|exact Hnd|].
  - apply Finite.Injective_map_NoDup; [exact Nat2Z.inj|].
    apply NoDup_filter, seq_NoDup.
  - intros x. rewrite in_map_iff. split.
    + intros [i [<- Hi]]. apply filter_In in Hi. now apply named_true.
    + intros Hx. rewrite Forall_forall in Hin.
      pose proof (proj1 (in_index_true n x) (Hin x Hx)) as Hr.
      exists (Z.to_nat x). split; [lia|].
      apply filter_In. split; [apply in_seq; lia|].
      apply named_true. now rewrite Z2Nat.id by lia.
Qed.

Lemma df_drop_total {A : Type} (df : list A) (labels : list Z) :
  Forall (fun label => in_index (length df) label = true) labels ->
  df_drop df labels
  = Some (mask_select
            (map (fun i => negb (named labels i)) (seq 0 (length df))) df).
Proof.
  intros H. unfold df_drop.
  now rewrite (proj2 (forallb_forall _ _) (proj1 (Forall_forall _ _) H)).
Qed.

(** [df.drop] succeeds only on labels of the index. *)
Lemma df_drop_Some_in_index {A : Type} (df : list A) (labels : list Z)
    (kept : list A) :
  df_drop df labels = Some kept ->
  Forall (fun label => 0 <= label < Z.of_nat (length df)) labels.
Proof.
  unfold df_drop. destruct (forallb _ labels) eqn:E; [|discriminate].
  intros _. rewrite forallb_forall in E. rewrite Forall_forall.
  intros x Hx. now apply in_index_true, E.
Qed.

Lemma df_drop_length {A : Type} (df : list A) (labels : list Z) :
  NoDup labels ->
  Forall (fun label => in_index (length df) label = true) labels ->
  exists kept,
    df_drop df labels = Some kept /\
    (length kept + length labels = length df)%nat.
Proof.
  intros Hnd Hin. rewrite (df_drop_total df labels Hin).
  eexists; split; [reflexivity|].
  rewrite (mask_select_length _ _ 0%nat) by now rewrite length_map, length_seq.
  rewrite where_from_map_seq.
  rewrite <- (named_rows_count (length df) labels Hnd Hin).
  pose proof (filter_length (named labels) (seq 0 (length df))) as H.
  rewrite length_seq in H. lia.
Qed.

Lemma df_loc_total {A : Type} (df : list A) (labels : list Z) :
  Forall (fun label => in_index (length df) label = true) labels ->
  exists removed,
    df_loc df labels = Some removed /\ length removed = length labels.
Proof.
  intros Hin. unfold df_loc.
  induction Hin as [|label labels Hl Hls IH]; simpl.
  - now exists [].
  - destruct IH as [removed [Hrun Hlen]]. rewrite Hl, Hrun.
    apply in_index_true in Hl.
    destruct (nth_error df (Z.to_nat label)) as [row|] eqn:E.
    + exists (row :: removed). simpl. now rewrite Hlen.
    + apply nth_error_None in E. lia.
Qed.

Lemma set_nth_length {A : Type} (i : nat) (v : A) (l : list A) :
  length (set_nth i v l) = length l.
Proof.
  revert i. induction l as [|x l IH]; intros [|i]; simpl; auto.
Qed.

Lemma set_nth_nth {A : Type} (i j : nat) (v d : A) (l : list A) :
  (i < length l)%nat ->
  nth j (set_nth i v l) d = if Nat.eqb j i then v else nth j l d.
Proof.
  revert i j. induction l as [|x l IH]; intros [|i] [|j] H; simpl in *;
    try lia; auto.
  apply IH. lia.
Qed.

(** The loop of lines 122-124 on non-negative indices: it does not raise,
    and clears exactly the positions the indices name. *)
Lemma mark_removed_spec (indices : list Z) (keep_mask : list bool) :
  Forall (fun idx => 0 <= idx) indices ->
  exists keep_mask',
    mark_removed keep_mask indices = Some keep_mask' /\
    length keep_mask' = length keep_mask /\
    forall i, (i < length keep_mask)%nat ->
      nth i keep_mask' true = nth i keep_mask true && negb (named indices i).
Proof.
  intros H. revert keep_mask.
  induction H as [|idx rest Hidx Hrest IH]; intros keep_mask; simpl.
  - exists keep_mask. repeat split. intros i _.
    now rewrite andb_true_r.
  - destruct (idx <? Z.of_nat (length keep_mask)) eqn:E.
    + apply Z.ltb_lt in E. unfold setitem_false.
      rewrite (proj2 (Z.leb_le 0 idx) Hidx), (proj2 (Z.ltb_lt _ _) E). simpl.
      destruct (IH (set_nth (Z.to_nat idx) false keep_mask))
        as [m [Hrun [Hlen Hnth]]].
      rewrite set_nth_length in *.
      exists m. repeat split; auto.
      intros i Hi. rewrite (Hnth i Hi), set_nth_nth by lia.
      unfold named at 2; simpl. fold (named rest i).
      destruct (Nat.eqb i (Z.to_nat idx)) eqn:Ei.
      * apply Nat.eqb_eq in Ei. subst i.
        rewrite Z2Nat.id, Z.eqb_refl by lia. simpl.
        now rewrite andb_false_r.
      * apply Nat.eqb_neq in Ei.
        replace (Z.of_nat i =? idx) with false
          by (symmetry; apply Z.eqb_neq; lia).
        reflexivity.
    + apply Z.ltb_ge in E.
      destruct (IH keep_mask) as [m [Hrun [Hlen Hnth]]].
      exists m. repeat split; auto.
      intros i Hi. rewrite (Hnth i Hi).
      unfold named at 2; simpl. fold (named rest i).
      replace (Z.of_nat i =? idx) with false
        by (symmetry; apply Z.eqb_neq; lia).
      reflexivity.
Qed.

Lemma build_keep_mask_spec {A : Type} (all_embeddings : list A)
    (indices : list Z) :
  Forall (fun idx => 0 <= idx) indices ->
  exists keep_mask,
    build_keep_mask all_embeddings indices = Some keep_mask /\
    length keep_mask = length all_embeddings /\
    forall i, (i < length all_embeddings)%nat ->
      nth i keep_mask true = negb (named indices i).
Proof.
  intros H. unfold build_keep_mask.
  destruct (mark_removed_spec indices (repeat true (length all_embeddings)) H)
    as [m [Hrun [Hlen Hnth]]].
  rewrite repeat_length in *.
  exists m. repeat split; auto.
  intros i Hi. rewrite (Hnth i Hi).
  now rewrite nth_repeat.
Qed.

Section Counts.

Variable rng : Type.
Variable seed_state : Z -> rng.
Variable sample_from : rng -> list Z -> nat -> list Z * rng.
Variable list_of_set : list Z -> list Z.

(** [random.sample] returns [k] elements at distinct positions of the
    population. *)
Hypothesis sample_without_replacement :
  forall s population k,
    (k <= length population)%nat -> NoDup population ->
    length (fst (sample_from s population k)) = k /\
    NoDup (fst (sample_from s population k)) /\
    incl (fst (sample_from s population k)) population.

(** [list(set(l))] lists each element of [l] once. *)
Hypothesis list_of_set_distinct :
  forall l, NoDup (list_of_set l) /\
            forall x, In x (list_of_set l) <-> In x l.

(** C5.  For every target cluster the loop selects exactly
    floor(member_count * 1/2) ids, where member_count is the number of
    distinct member ids; the ids selected are distinct and belong to the
    deduplicated member ids; that number is the count recorded for the
    cluster.  The removal set is the deduplicated union of the selections,
    and when all its ids are labels of the record table, the kept records
    and the removed records together number as many as the table. *)
Theorem C5_removal_counts {A : Type}
    (cluster_embeddings_map : list (Z * embeddings_data)) (s : rng)
    (df_full : list A) :
  Forall (fun cd =>
            length (cluster_removals rng seed_state sample_from list_of_set (snd cd))
              = removal_quota list_of_set (snd cd) /\
            NoDup (cluster_removals rng seed_state sample_from list_of_set (snd cd)) /\
            incl (cluster_removals rng seed_state sample_from list_of_set (snd cd))
                 (members list_of_set (snd cd)) /\
            fst (select_for_cluster rng seed_state sample_from list_of_set (snd cd) s)
              = (cluster_removals rng seed_state sample_from list_of_set (snd cd),
                 removal_quota list_of_set (snd cd)))
         cluster_embeddings_map /\
  snd (fst (select_removals rng seed_state sample_from list_of_set
              cluster_embeddings_map s))
    = map (fun cd => (fst cd, removal_quota list_of_set (snd cd)))
          cluster_embeddings_map /\
  (forall x,
     In x (fst (fst (select_removals rng seed_state sample_from list_of_set
                       cluster_embeddings_map s))) <->
     exists cd, In cd cluster_embeddings_map /\
                In x (cluster_removals rng seed_state sample_from list_of_set
                        (snd cd))) /\
  (Forall (fun idx => in_index (length df_full) idx = true)
          (fst (fst (select_removals rng seed_state sample_from list_of_set
                       cluster_embeddings_map s))) ->
   exists df_unbiased removed_df,
     df_drop df_full
       (fst (fst (select_removals rng seed_state sample_from list_of_set
                    cluster_embeddings_map s))) = Some df_unbiased /\
     df_loc df_full
       (fst (fst (select_removals rng seed_state sample_from list_of_set
                    cluster_embeddings_map s))) = Some removed_df /\
     (length df_unbiased + length removed_df = length df_full)%nat).
Proof.
  rewrite select_removals_run. simpl.
  repeat split.
  - rewrite Forall_forall. intros [c data] _. simpl.
    assert (Hk : (member_count list_of_set data / 2
                  <= length (members list_of_set data))%nat).
    { unfold member_count.
      apply Nat.Div0.div_le_upper_bound. lia. }
    destruct (sample_without_replacement (seed_state 42)
                (members list_of_set data) (member_count list_of_set data / 2)
                Hk (proj1 (list_of_set_distinct _)))
      as [Hlen [Hnd Hincl]].
    rewrite removal_quota_half, select_for_cluster_reseeded.
    unfold cluster_removals. auto.
  - apply map_ext. intros [c data]. simpl. now rewrite removal_quota_half.
  - intros Hx.
    apply (proj1 (proj2 (list_of_set_distinct _) x)) in Hx.
    apply in_concat in Hx. destruct Hx as [l [Hl Hx]].
    apply in_map_iff in Hl. destruct Hl as [cd [<- Hcd]]. now exists cd.
  - intros [cd [Hcd Hx]].
    apply (proj2 (proj2 (list_of_set_distinct _) x)).
    apply in_concat. eexists. split; [|exact Hx].
    apply in_map_iff. now exists cd.
  - intros Hin.
    set (labels := list_of_set _) in *.
    assert (Hnd : NoDup labels) by apply list_of_set_distinct.
    destruct (df_drop_length df_full labels Hnd Hin) as [kept [Hk Hlen]].
    destruct (df_loc_total df_full labels Hin) as [removed [Hr Hlen']].
    exists kept, removed. repeat split; auto. lia.
Qed.

End Counts.

(** When [df.drop] of line 98 has not raised, the mask construction does
    not raise either. *)
Lemma split_reached_is_total {A B : Type} (df_full : list A)
    (all_embeddings : list B) (unique_indices_to_remove : list Z)
    (df_unbiased : list A) :
  df_drop df_full unique_indices_to_remove = Some df_unbiased ->
  exists unbiased_embeddings removed_embeddings,
    split_embeddings all_embeddings unique_indices_to_remove
    = Some (unbiased_embeddings, removed_embeddings).
Proof.
  intros Hdrop. apply df_drop_Some_in_index in Hdrop.
  assert (Hnonneg : Forall (fun idx => 0 <= idx) unique_indices_to_remove).
  { eapply Forall_impl; [|exact Hdrop]. intros idx Hidx; simpl in Hidx. lia. }
  destruct (build_keep_mask_spec all_embeddings unique_indices_to_remove Hnonneg)
    as [keep_mask [Hrun _]].
  unfold split_embeddings. rewrite Hrun. eauto.
Qed.

(** C10.  For every list of non-negative removal indices over an embedding
    matrix of N rows - indices that are N or more are skipped - the mask is
    built without raising and the split is a partition: the kept rows are
    the rows at the positions no index names, the removed rows the rows at
    the positions some index names, both in increasing position; every
    position below N is in exactly one of the two; and the two row counts
    add up to N. *)
Theorem C10_embedding_split_partition {A : Type} (all_embeddings : list A)
    (unique_indices_to_remove : list Z) :
  Forall (fun idx => 0 <= idx) unique_indices_to_remove ->
  exists keep_mask unbiased_embeddings removed_embeddings,
    build_keep_mask all_embeddings unique_indices_to_remove = Some keep_mask /\
    split_embeddings all_embeddings unique_indices_to_remove
      = Some (unbiased_embeddings, removed_embeddings) /\
    map Some unbiased_embeddings
      = map (nth_error all_embeddings) (np_where keep_mask) /\
    map Some removed_embeddings
      = map (nth_error all_embeddings) (np_where (map negb keep_mask)) /\
    StronglySorted lt (np_where keep_mask) /\
    StronglySorted lt (np_where (map negb keep_mask)) /\
    Permutation (np_where keep_mask ++ np_where (map negb keep_mask))
                (seq 0 (length all_embeddings)) /\
    (forall i, In i (np_where (map negb keep_mask)) <->
               (i < length all_embeddings)%nat /\
               In (Z.of_nat i) unique_indices_to_remove) /\
    (length unbiased_embeddings + length removed_embeddings
     = length all_embeddings)%nat.
Proof.
  intros Hnonneg.
  destruct (build_keep_mask_spec all_embeddings unique_indices_to_remove Hnonneg)
    as [keep_mask [Hrun [Hlen Hnth]]].
  exists keep_mask, (mask_select keep_mask all_embeddings),
    (mask_select (map negb keep_mask) all_embeddings).
  assert (Hlen' : length (map negb keep_mask) = length all_embeddings)
    by now rewrite length_map.
  pose proof (where_from_partition keep_mask 0) as Hperm.
  rewrite Hlen in Hperm.
  unfold split_embeddings, np_where. rewrite Hrun.
  repeat split.
  - apply (mask_select_where keep_mask all_embeddings [] Hlen).
  - apply (mask_select_where (map negb keep_mask) all_embeddings [] Hlen').
  - apply where_from_sorted.
  - apply where_from_sorted.
  - exact Hperm.
  - apply where_from_In in H. rewrite Hlen' in H. lia.
  - apply where_from_In in H. destruct H as [Hr Hn].
    rewrite Hlen' in Hr. rewrite Nat.sub_0_r in Hn.
    assert (Hi : (i < length all_embeddings)%nat) by lia.
    specialize (Hnth i Hi).
    rewrite (nth_indep _ true false) in Hnth by lia.
    rewrite (nth_indep _ false (negb false)) in Hn by (rewrite Hlen'; lia).
    rewrite map_nth in Hn.
    apply negb_true_iff in Hn. rewrite Hn in Hnth.
    symmetry in Hnth. apply negb_false_iff in Hnth. now apply named_true.
  - intros [Hi Hin]. apply where_from_In. rewrite Hlen', Nat.sub_0_r.
    split; [lia|].
    rewrite (nth_indep _ false (negb false)) by (rewrite Hlen'; lia).
    rewrite map_nth.
    rewrite (nth_indep _ false true) by lia.
    rewrite (Hnth i Hi). apply named_true in Hin. now rewrite Hin.
  - rewrite (mask_select_length keep_mask _ 0%nat Hlen),
      (mask_select_length (map negb keep_mask) _ 0%nat Hlen').
    rewrite <- length_app, (Permutation_length Hperm). apply length_seq.
Qed.

End RebalancerFacts.

Module RebalancerExamples.
Import Py CreateUnbiasedDataset Rebalancing Fixtures.

Lemma NoDup_firstn {A : Type} (k : nat) (l : list A) :
  NoDup l -> NoDup (firstn k l).
Proof.
  intros H. rewrite <- (firstn_skipn k l) in H.
  now apply NoDup_app_remove_r in H.
Qed.

Lemma toy_sample_without_replacement (s : Z) (population : list Z) (k : nat) :
  (k <= length population)%nat -> NoDup population ->
  length (fst (toy_sample s population k)) = k /\
  NoDup (fst (toy_sample s population k)) /\
  incl (fst (toy_sample s population k)) population.
Proof.
  intros Hk Hnd. unfold toy_sample; simpl.
  destruct (Z.even s).
  - repeat split.
    + rewrite length_firstn. lia.
    + now apply NoDup_firstn.
    + intros x Hx. now apply (PyFacts.firstn_In k).
  - repeat split.
    + rewrite length_firstn, length_rev. lia.
    + now apply NoDup_firstn, NoDup_rev.
    + intros x Hx. apply (PyFacts.firstn_In k) in Hx. now apply in_rev.
Qed.

Lemma dedup_distinct (l : list Z) :
  NoDup (dedup l) /\ forall x, In x (dedup l) <-> In x l.
Proof.
  split; [apply NoDup_nodup|intros x; apply nodup_In].
Qed.

(** A cluster whose file is absent is skipped. *)
Example load_cluster_embeddings_skips_missing :
  load_cluster_embeddings
    (fun cluster_num =>
       if cluster_num =? 2 then None else Some (entries_of cluster_num [7; 8]))
  = [(1, entries_of 1 [7; 8]); (3, entries_of 3 [7; 8])].
Proof. reflexivity. Qed.

(** Without the reseeding the toy sample depends on the state. *)
Example toy_sample_depends_on_state :
  fst (toy_sample 0 [1; 2; 3] 1) <> fst (toy_sample 1 [1; 2; 3] 1).
Proof. vm_compute. discriminate. Qed.

Example select_removals_clusters12 :
  fst (select_removals Z toy_seed toy_sample dedup clusters12 7)
  = ([2; 4; 5], [(1, 2%nat); (2, 1%nat)]) /\
  fst (select_removals Z toy_seed toy_sample dedup clusters12 8)
  = ([2; 4; 5], [(1, 2%nat); (2, 1%nat)]).
Proof. vm_compute. split; reflexivity. Qed.

Example split_dataset_clusters12 :
  split_dataset records12 (seq 0 10) [2; 4; 5; 11]
  = Some ([100; 101; 103; 106; 107; 108; 109; 110]%nat,
          [102; 104; 105; 111]%nat,
          [0; 1; 3; 6; 7; 8; 9]%nat, [2; 4; 5]%nat).
Proof. vm_compute. reflexivity. Qed.

(** A label that is not in the index makes [df.drop] raise before the mask
    is built. *)
Example split_dataset_key_error :
  split_dataset records12 (seq 0 10) [2; -1] = None /\
  split_dataset records12 (seq 0 10) [2; 12] = None.
Proof. vm_compute. split; reflexivity. Qed.

(** numpy's indexing on the mask alone: a negative index counts from the
    end, and one below [-N] raises. *)
Example mark_removed_negative :
  mark_removed [true; true; true] [-1] = Some [true; true; false] /\
  mark_removed [true; true; true] [-4] = None.
Proof. vm_compute. split; reflexivity. Qed.

(** C5 on [clusters12] and [records12] with the toy generator. *)
Lemma C5_witness :
  Forall (fun cd =>
            length (cluster_removals Z toy_seed toy_sample dedup (snd cd))
              = removal_quota dedup (snd cd) /\
            NoDup (cluster_removals Z toy_seed toy_sample dedup (snd cd)) /\
            incl (cluster_removals Z toy_seed toy_sample dedup (snd cd))
                 (members dedup (snd cd)) /\
            fst (select_for_cluster Z toy_seed toy_sample dedup (snd cd) 7)
              = (cluster_removals Z toy_seed toy_sample dedup (snd cd),
                 removal_quota dedup (snd cd)))
         clusters12 /\
  snd (fst (select_removals Z toy_seed toy_sample dedup clusters12 7))
    = map (fun cd => (fst cd, removal_quota dedup (snd cd))) clusters12 /\
  (forall x,
     In x (fst (fst (select_removals Z toy_seed toy_sample dedup clusters12 7))) <->
     exists cd, In cd clusters12 /\
                In x (cluster_removals Z toy_seed toy_sample dedup (snd cd))) /\
  (Forall (fun idx => in_index (length records12) idx = true)
          (fst (fst (select_removals Z toy_seed toy_sample dedup clusters12 7))) ->
   exists df_unbiased removed_df,
     df_drop records12
       (fst (fst (select_removals Z toy_seed toy_sample dedup clusters12 7)))
       = Some df_unbiased /\
     df_loc records12
       (fst (fst (select_removals Z toy_seed toy_sample dedup clusters12 7)))
       = Some removed_df /\
     (length df_unbiased + length removed_df = length records12)%nat).
Proof.
  exact (RebalancerFacts.C5_removal_counts Z toy_seed toy_sample dedup
           toy_sample_without_replacement dedup_distinct clusters12 7 records12).
Defined.

(** C10 on four rows with the removal indices 2, 11 and 0. *)
Lemma C10_witness :
  Forall (fun idx => 0 <= idx) [2; 11; 0] /\
  exists keep_mask unbiased_embeddings removed_embeddings,
    build_keep_mask [60; 61; 62; 63]%nat [2; 11; 0] = Some keep_mask /\
    split_embeddings [60; 61; 62; 63]%nat [2; 11; 0]
      = Some (unbiased_embeddings, removed_embeddings) /\
    map Some unbiased_embeddings
      = map (nth_error [60; 61; 62; 63]%nat) (np_where keep_mask) /\
    map Some removed_embeddings
      = map (nth_error [60; 61; 62; 63]%nat) (np_where (map negb keep_mask)) /\
    StronglySorted lt (np_where keep_mask) /\
    StronglySorted lt (np_where (map negb keep_mask)) /\
    Permutation (np_where keep_mask ++ np_where (map negb keep_mask))
                (seq 0 (length [60; 61; 62; 63]%nat)) /\
    (forall i, In i (np_where (map negb keep_mask)) <->
               (i < length [60; 61; 62; 63]%nat)%nat /\
               In (Z.of_nat i) [2; 11; 0]) /\
    (length unbiased_embeddings + length removed_embeddings
     = length [60; 61; 62; 63]%nat)%nat.
Proof.
  assert (H : Forall (fun idx => 0 <= idx) [2; 11; 0])
    by (repeat constructor; lia).
  split; [exact H|].
  exact (RebalancerFacts.C10_embedding_split_partition
           [60; 61; 62; 63]%nat [2; 11; 0] H).
Defined.

Example split_embeddings_skips_large :
  split_embeddings [60; 61; 62; 63]%nat [2; 11; 0]
  = Some ([61; 63]%nat, [60; 62]%nat).
Proof. vm_compute. reflexivity. Qed.

End RebalancerExamples.

(* ================================================================== *)
(** * Unit normalization *)
(* ================================================================== *)

Module NormalizeFacts.
Import Np Reducing.
Local Open Scope R_scope.

Lemma sum_squares_nonneg (row : vector) : 0 <= sum_squares row.
Proof.
  unfold sum_squares, Rsum. induction row as [|x row IH]; simpl; [lra|].
  pose proof (Rle_0_sqr x) as H. unfold Rsqr in H. lra.
Qed.

Lemma l2_norm_nonneg (row : vector) : 0 <= l2_norm row.
Proof. apply sqrt_pos. Qed.

Lemma sum_squares_div (c : R) (row : vector) :
  sum_squares (map (fun x => x / c) row) = sum_squares row / (c * c).
Proof.
  unfold sum_squares, Rsum. induction row as [|x row IH]; simpl.
  - unfold Rdiv. now rewrite Rmult_0_l.
  - rewrite IH. unfold Rdiv. rewrite Rinv_mult. ring.
Qed.

Lemma l2_norm_div (c : R) (row : vector) :
  0 < c -> l2_norm (map (fun x => x / c) row) = l2_norm row / c.
Proof.
  intros Hc. unfold l2_norm. rewrite sum_squares_div.
  rewrite sqrt_div_alt by nra.
  rewrite sqrt_square by lra. reflexivity.
Qed.

Lemma sum_squares_zero (row : vector) :
  sum_squares row = 0 -> is_zero_row row.
Proof.
  unfold sum_squares, Rsum, is_zero_row.
  induction row as [|x row IH]; simpl; intros H; [constructor|].
  pose proof (Rle_0_sqr x) as Hx. unfold Rsqr in Hx.
  pose proof (sum_squares_nonneg row) as Hr. unfold sum_squares, Rsum in Hr.
  constructor; [nra|]. apply IH. nra.
Qed.

Lemma zero_row_sum_squares (row : vector) :
  is_zero_row row -> sum_squares row = 0.
Proof.
  unfold sum_squares, Rsum.
  induction 1 as [|x row Hx Hrow IH]; simpl; [reflexivity|].
  subst. rewrite IH. ring.
Qed.

Lemma l2_norm_zero_iff (row : vector) : l2_norm row = 0 <-> is_zero_row row.
Proof.
  unfold l2_norm. split.
  - intros H. apply sum_squares_zero, sqrt_eq_0; [apply sum_squares_nonneg|auto].
  - intros H. rewrite (zero_row_sum_squares row H). apply sqrt_0.
Qed.

Lemma np_divide_nonzero (x d : R) : d <> 0 -> np_divide x d = Finite (x / d).
Proof.
  intros Hd. unfold np_divide. now destruct (Req_dec_T d 0).
Qed.

Lemma np_divide_zero_zero : np_divide 0 0 = NaN.
Proof.
  unfold np_divide.
  destruct (Req_dec_T 0 0) as [_|H]; [|now contradiction H].
  reflexivity.
Qed.

Lemma finite_values_divide (d : R) (row : vector) :
  d <> 0 ->
  finite_values (map (fun x => np_divide x d) row)
  = Some (map (fun x => x / d) row).
Proof.
  intros Hd. induction row as [|x row IH]; simpl; [reflexivity|].
  now rewrite (np_divide_nonzero x d Hd), IH.
Qed.

Lemma norm_floor_pos : 0 < ClusterAnalysis.norm_floor.
Proof. unfold ClusterAnalysis.norm_floor. simpl. lra. Qed.

(** The divisor of the per-cluster path is never zero. *)
Lemma floored_norm_pos (row : vector) :
  0 < Rmax (l2_norm row) ClusterAnalysis.norm_floor.
Proof.
  pose proof norm_floor_pos.
  pose proof (Rmax_r (l2_norm row) ClusterAnalysis.norm_floor). lra.
Qed.

Lemma cluster_normalize_row_values (row : vector) :
  finite_values (ClusterAnalysis.normalize_row row)
  = Some (map (fun x => x / Rmax (l2_norm row) ClusterAnalysis.norm_floor) row).
Proof.
  unfold ClusterAnalysis.normalize_row. apply finite_values_divide.
  pose proof (floored_norm_pos row). lra.
Qed.

Lemma zero_row_div (c : R) (row : vector) :
  is_zero_row row -> is_zero_row (map (fun x => x / c) row).
Proof.
  unfold is_zero_row. induction 1 as [|x row Hx Hrow IH]; simpl; constructor; auto.
  subst. apply Rdiv_0_l.
Qed.

Lemma cluster_normalize_row_spec (row : vector) :
  cluster_row_normalized row (ClusterAnalysis.normalize_row row).
Proof.
  exists (map (fun x => x / Rmax (l2_norm row) ClusterAnalysis.norm_floor) row).
  pose proof norm_floor_pos as Hf.
  split; [apply cluster_normalize_row_values|].
  split; [|split].
  - intros H. rewrite (Rmax_left _ _ H).
    rewrite l2_norm_div by lra. field. lra.
  - intros H. now rewrite (Rmax_right _ _ H).
  - apply zero_row_div.
Qed.

Lemma rebalancer_normalize_row_spec (row : vector) :
  rebalancer_row_normalized row (CreateUnbiasedDataset.normalize_row row).
Proof.
  intros Hn. exists (map (fun x => x / l2_norm row) row).
  unfold CreateUnbiasedDataset.normalize_row.
  split; [now apply finite_values_divide|].
  pose proof (l2_norm_nonneg row).
  rewrite l2_norm_div by lra. now field.
Qed.

(** In exact arithmetic: on the per-cluster export path no output entry is
    NaN or Inf; a row whose norm is at least 1e-10 comes out with L2 norm
    1, a row whose norm is at most 1e-10 is divided by 1e-10, and a zero
    row comes out as the zero vector.  On the rebalancer path a row whose
    norm is not zero comes out finite with L2 norm 1. *)
Lemma exact_normalization (embeddings : matrix) :
  Forall2 cluster_row_normalized
          embeddings (ClusterAnalysis.normalize_embeddings embeddings) /\
  Forall2 rebalancer_row_normalized
          embeddings (CreateUnbiasedDataset.normalize_embeddings embeddings).
Proof.
  split; induction embeddings as [|row rows IH]; simpl; constructor; auto.
  - apply cluster_normalize_row_spec.
  - apply rebalancer_normalize_row_spec.
Qed.

Lemma l2_norm_first_axis (x : R) : 0 <= x -> l2_norm [x; 0; 0; 0; 0; 0] = x.
Proof.
  intros Hx. unfold l2_norm, sum_squares, Rsum; simpl.
  replace (x * x + (0 * 0 + (0 * 0 + (0 * 0 + (0 * 0 + (0 * 0 + 0))))))
    with (x * x) by ring.
  now apply sqrt_square.
Qed.

Lemma l2_norm_tiny_row : l2_norm RealFixtures.tiny_row = / 10 ^ 11.
Proof.
  apply l2_norm_first_axis. simpl. lra.
Qed.

(** On the per-cluster path the row (1e-11, 0, 0, 0, 0, 0), which is not
    the zero vector, comes out with L2 norm 1/10: its norm is below the
    floor, so it is divided by 1e-10. *)
Lemma tiny_row_floored :
  ~ is_zero_row RealFixtures.tiny_row /\
  exists w,
    finite_values (ClusterAnalysis.normalize_row RealFixtures.tiny_row) = Some w /\
    l2_norm w = 1 / 10 /\
    ~ (Rabs (l2_norm w - 1) <= tol).
Proof.
  split.
  - intros H. inversion H as [|x l Hx Hl]; subst.
    revert Hx. simpl. lra.
  - destruct (cluster_normalize_row_spec RealFixtures.tiny_row)
      as [w [Hw [_ [Hsmall _]]]].
    assert (Hle : l2_norm RealFixtures.tiny_row <= ClusterAnalysis.norm_floor).
    { rewrite l2_norm_tiny_row. unfold ClusterAnalysis.norm_floor. simpl. lra. }
    specialize (Hsmall Hle).
    assert (Hnorm : l2_norm w = 1 / 10).
    { rewrite Hsmall, l2_norm_div by apply norm_floor_pos.
      rewrite l2_norm_tiny_row. unfold ClusterAnalysis.norm_floor. simpl. lra. }
    exists w. repeat split; auto.
    rewrite Hnorm. unfold tol.
    replace (1 / 10 - 1) with (- (9 / 10)) by lra.
    rewrite Rabs_Ropp, Rabs_pos_eq by lra. simpl. lra.
Qed.

Lemma l2_norm_zero_row : l2_norm RealFixtures.zero_row = 0.
Proof.
  apply l2_norm_zero_iff. repeat constructor.
Qed.

(** The rebalancer's [normalize_embeddings] has no floor: a zero row comes
    out as NaN, where the per-cluster path returns the zero vector. *)
Lemma rebalancer_zero_row_is_nan :
  CreateUnbiasedDataset.normalize_row RealFixtures.zero_row
  = [NaN; NaN; NaN; NaN; NaN; NaN] /\
  ClusterAnalysis.normalize_row RealFixtures.zero_row
  = [Finite 0; Finite 0; Finite 0; Finite 0; Finite 0; Finite 0].
Proof.
  split.
  - unfold CreateUnbiasedDataset.normalize_row.
    rewrite l2_norm_zero_row. simpl. now rewrite np_divide_zero_zero.
  - unfold ClusterAnalysis.normalize_row.
    pose proof (floored_norm_pos RealFixtures.zero_row) as Hpos.
    simpl. rewrite np_divide_nonzero by lra.
    now rewrite Rdiv_0_l.
Qed.

End NormalizeFacts.

(* ================================================================== *)
(** * The two 6-D reductions *)
(* ================================================================== *)

Module ReductionFacts.
Import Py PyFacts Np Sklearn Reducing.
Local Open Scope R_scope.

Lemma PCA_fit_total (principal_axes : matrix -> matrix) (X : matrix) :
  (n_components <= n_rows X)%nat -> (n_components <= n_cols X)%nat ->
  PCA_fit principal_axes X
  = Some {| pca_mean_ := col_mean X;
            pca_components_ :=
              firstn n_components (principal_axes (center X)) |}.
Proof.
  intros Hr Hc. unfold PCA_fit.
  destruct (n_components <=? Nat.min (n_rows X) (n_cols X))%nat eqn:E;
    [reflexivity|].
  apply Nat.leb_gt in E. lia.
Qed.

Lemma PCA_transform_total (pca : PCA) (X : matrix) :
  X <> [] -> PCA_transform pca X = Some (map (PCA_transform_row pca) X).
Proof.
  intros H. destruct X; [contradiction|reflexivity].
Qed.

Lemma normalize_embeddings_select (f : vector -> vector) (mask : list bool)
    (X : matrix) :
  CreateUnbiasedDataset.normalize_embeddings (map f (mask_select mask X))
  = mask_select mask (CreateUnbiasedDataset.normalize_embeddings (map f X)).
Proof.
  unfold CreateUnbiasedDataset.normalize_embeddings.
  now rewrite <- !mask_select_map.
Qed.

Lemma nth_map_combine (f : R * R -> R) (u v : vector) (j : nat) :
  (j < length u)%nat -> (j < length v)%nat ->
  nth j (map f (combine u v)) 0 = f (nth j u 0, nth j v 0).
Proof.
  revert v j. induction u as [|x u IH]; intros [|y v] [|j] Hu Hv;
    simpl in *; try lia; [reflexivity|].
  apply IH; lia.
Qed.

Lemma length_vsub (u v : vector) :
  length (vsub u v) = Nat.min (length u) (length v).
Proof. unfold vsub. now rewrite length_map, length_combine. Qed.

Lemma length_vdiv (u v : vector) :
  length (vdiv u v) = Nat.min (length u) (length v).
Proof. unfold vdiv. now rewrite length_map, length_combine. Qed.

Lemma vsub_zeros (row : vector) :
  vsub row (repeat 0 (length row)) = row.
Proof.
  unfold vsub. induction row as [|x row IH]; simpl; [reflexivity|].
  rewrite IH. f_equal. ring.
Qed.

Lemma length_col_mean (X : matrix) : length (col_mean X) = n_cols X.
Proof. unfold col_mean. now rewrite length_map, length_seq. Qed.

Lemma length_col_var (X : matrix) : length (col_var X) = n_cols X.
Proof. unfold col_var. now rewrite length_map, length_seq. Qed.

Lemma n_cols_rectangular (d : nat) (X : matrix) :
  rectangular d X -> X <> [] -> n_cols X = d.
Proof.
  intros H Hne. destruct X as [|row X]; [contradiction|].
  now inversion H.
Qed.

Lemma nth_col_mean (X : matrix) (j : nat) :
  (j < n_cols X)%nat -> nth j (col_mean X) 0 = mean (column j X).
Proof.
  intros Hj. unfold col_mean.
  rewrite (nth_indep _ 0 (mean (column 0%nat X)))
    by now rewrite length_map, length_seq.
  rewrite (map_nth (fun j => mean (column j X))), seq_nth by exact Hj.
  reflexivity.
Qed.

Lemma map_seq_zero (f : nat -> R) (d : nat) :
  (forall j, (j < d)%nat -> f j = 0) -> map f (seq 0 d) = repeat 0 d.
Proof.
  intros H.
  assert (G : forall s, (forall j, (s <= j < s + d)%nat -> f j = 0) ->
                        map f (seq s d) = repeat 0 d).
  { clear H. induction d as [|d IH]; intros s H; simpl; [reflexivity|].
    rewrite (H s) by lia. f_equal. apply IH. intros j Hj. apply H. lia. }
  apply G. intros j Hj. apply H. lia.
Qed.

(** Sum of an affine image of a column. *)
Lemma Rsum_affine {A : Type} (g : A -> R) (m s : R) (l : list A) :
  Rsum (map (fun a => (g a - m) / s) l)
  = (Rsum (map g l) - INR (length l) * m) / s.
Proof.
  unfold Rsum. induction l as [|a l IH].
  - simpl. unfold Rdiv. ring.
  - cbn [map fold_right length]. rewrite IH, S_INR. unfold Rdiv. ring.
Qed.

(** Every feature of a standardized matrix has mean zero. *)
Lemma col_mean_standardized (d : nat) (X : matrix) (scale : vector) :
  rectangular d X -> X <> [] -> length scale = d ->
  col_mean (map (fun r => vdiv (vsub r (col_mean X)) scale) X) = repeat 0 d.
Proof.
  intros Hrect Hne Hscale.
  pose proof (n_cols_rectangular d X Hrect Hne) as Hd.
  assert (Hlen : forall r, In r X ->
            length (vdiv (vsub r (col_mean X)) scale) = d).
  { intros r Hr. unfold rectangular in Hrect. rewrite Forall_forall in Hrect.
    rewrite length_vdiv, length_vsub, length_col_mean, Hd, Hscale, (Hrect r Hr).
    lia. }
  unfold col_mean at 1.
  replace (n_cols (map _ X)) with d.
  2:{ destruct X as [|r X]; [contradiction|]. simpl.
      symmetry. apply Hlen. now left. }
  apply map_seq_zero. intros j Hj.
  unfold mean, column. rewrite map_map, length_map.
  rewrite (map_ext_in _
             (fun r => (nth j r 0 - nth j (col_mean X) 0) / nth j scale 0)).
  2:{ intros r Hr. unfold rectangular in Hrect. rewrite Forall_forall in Hrect.
      specialize (Hrect r Hr).
      unfold vdiv. rewrite nth_map_combine;
        [|rewrite length_vsub, length_col_mean; lia|lia].
      unfold vsub. rewrite nth_map_combine;
        [reflexivity|lia|rewrite length_col_mean; lia]. }
  rewrite Rsum_affine.
  rewrite nth_col_mean by lia. unfold mean, column.
  assert (HM : INR (length X) <> 0).
  { apply not_0_INR. destruct X; [contradiction|discriminate]. }
  rewrite length_map.
  set (total := Rsum (map (fun r => nth j r 0) X)).
  match goal with
  | |- ?e / _ / _ = 0 => replace e with 0 by (field; exact HM)
  end.
  unfold Rdiv. ring.
Qed.

Lemma center_standardized (d : nat) (X : matrix) (scale : vector) :
  rectangular d X -> X <> [] -> length scale = d ->
  center (map (fun r => vdiv (vsub r (col_mean X)) scale) X)
  = map (fun r => vdiv (vsub r (col_mean X)) scale) X.
Proof.
  intros Hrect Hne Hscale. unfold center.
  rewrite (col_mean_standardized d X scale Hrect Hne Hscale).
  match goal with
  | |- _ = ?rhs => transitivity (map (fun z : vector => z) rhs); [|apply map_id]
  end.
  apply map_ext_in. intros z Hz.
  apply in_map_iff in Hz. destruct Hz as [r [<- Hr]].
  unfold rectangular in Hrect. rewrite Forall_forall in Hrect.
  assert (Hlen : length (vdiv (vsub r (col_mean X)) scale) = d).
  { rewrite length_vdiv, length_vsub, length_col_mean,
      (n_cols_rectangular d X) by (auto; now apply Forall_forall).
    rewrite (Hrect r Hr), Hscale. lia. }
  rewrite <- Hlen at 1. apply vsub_zeros.
Qed.

Lemma project_6d_Some (principal_axes : matrix -> matrix)
    (all_embeddings unbiased removed : matrix)
    (out : CreateUnbiasedDataset.reduced)
    (log : list CreateUnbiasedDataset.pca_call) :
  CreateUnbiasedDataset.project_6d principal_axes all_embeddings
    unbiased removed [] = Some (out, log) ->
  exists pca,
    PCA_fit principal_axes all_embeddings = Some pca /\
    pca = {| pca_mean_ := col_mean all_embeddings;
             pca_components_ :=
               firstn n_components (principal_axes (center all_embeddings)) |} /\
    out = {| CreateUnbiasedDataset.all_6d_normalized :=
               CreateUnbiasedDataset.normalize_embeddings
                 (map (PCA_transform_row pca) all_embeddings);
             CreateUnbiasedDataset.unbiased_6d_normalized :=
               CreateUnbiasedDataset.normalize_embeddings
                 (map (PCA_transform_row pca) unbiased);
             CreateUnbiasedDataset.removed_6d_normalized :=
               CreateUnbiasedDataset.normalize_embeddings
                 (map (PCA_transform_row pca) removed) |}.
Proof.
  unfold CreateUnbiasedDataset.project_6d, CreateUnbiasedDataset.lbind,
    CreateUnbiasedDataset.pca_fit, CreateUnbiasedDataset.pca_transform,
    CreateUnbiasedDataset.lret.
  unfold PCA_fit.
  destruct (n_components <=? Nat.min (n_rows all_embeddings)
                                     (n_cols all_embeddings))%nat;
    [|discriminate].
  destruct all_embeddings as [|a all']; [discriminate|].
  destruct unbiased as [|u unbiased']; [discriminate|].
  destruct removed as [|r removed']; [discriminate|].
  cbn [PCA_transform]. intros H. inversion H; subst.
  eexists. repeat split.
Qed.

Section WithSVD.

Variable principal_axes : matrix -> matrix.

(** C6.  On a full matrix that PCA accepts and a mask that keeps and removes
    at least one row each, the projection step runs to completion; its only
    [fit] is on the full matrix and is followed by the three [transform]
    calls of that fitted object; each of the three outputs is what the
    fitted reducer gives on that matrix taken on its own; and the kept and
    removed 6-D rows are the rows of the full 6-D output at the kept and
    removed positions. *)
Theorem C6_single_fit_consistent (all_embeddings : matrix)
    (keep_mask : list bool) :
  (n_components <= n_rows all_embeddings)%nat ->
  (n_components <= n_cols all_embeddings)%nat ->
  mask_select keep_mask all_embeddings <> [] ->
  mask_select (map negb keep_mask) all_embeddings <> [] ->
  exists pca out,
    PCA_fit principal_axes all_embeddings = Some pca /\
    CreateUnbiasedDataset.project_6d principal_axes all_embeddings
      (mask_select keep_mask all_embeddings)
      (mask_select (map negb keep_mask) all_embeddings) []
    = Some (out,
            [CreateUnbiasedDataset.Fit all_embeddings;
             CreateUnbiasedDataset.Transform all_embeddings;
             CreateUnbiasedDataset.Transform
               (mask_select keep_mask all_embeddings);
             CreateUnbiasedDataset.Transform
               (mask_select (map negb keep_mask) all_embeddings)]) /\
    Some (CreateUnbiasedDataset.all_6d_normalized out)
      = reduce_with pca all_embeddings /\
    Some (CreateUnbiasedDataset.unbiased_6d_normalized out)
      = reduce_with pca (mask_select keep_mask all_embeddings) /\
    Some (CreateUnbiasedDataset.removed_6d_normalized out)
      = reduce_with pca (mask_select (map negb keep_mask) all_embeddings) /\
    CreateUnbiasedDataset.unbiased_6d_normalized out
      = mask_select keep_mask (CreateUnbiasedDataset.all_6d_normalized out) /\
    CreateUnbiasedDataset.removed_6d_normalized out
      = mask_select (map negb keep_mask)
          (CreateUnbiasedDataset.all_6d_normalized out).
Proof.
  intros Hr Hc Hkept Hremoved.
  assert (Hall : all_embeddings <> []).
  { intros ->. now apply Hkept; destruct keep_mask. }
  eexists. eexists.
  unfold CreateUnbiasedDataset.project_6d, CreateUnbiasedDataset.lbind,
    CreateUnbiasedDataset.pca_fit, CreateUnbiasedDataset.pca_transform,
    CreateUnbiasedDataset.lret, reduce_with.
  rewrite (PCA_fit_total principal_axes all_embeddings Hr Hc).
  rewrite !PCA_transform_total by assumption.
  simpl.
  repeat split; apply normalize_embeddings_select.
Qed.

(** C3 (amended).  The per-cluster export reduces each row of a cluster by
    standardizing it with the cluster's per-feature mean and standard
    deviation (a constant feature is scaled by 1), projecting it onto the 6
    principal axes of the standardized cluster matrix and normalizing it
    with the 1e-10 floor.  The rebalancer reduces each row of the full, kept
    and removed matrices by subtracting the per-feature mean of the full
    matrix - there is no division by the standard deviation -, projecting
    onto the 6 principal axes of the centred full matrix and dividing by the
    norm. *)
Theorem C3_reduction_pipelines (d : nat) (cluster_embeddings : matrix) :
  rectangular d cluster_embeddings ->
  (n_components <= d)%nat ->
  (n_components <= n_rows cluster_embeddings)%nat ->
  ClusterAnalysis.embeddings_6d principal_axes cluster_embeddings
  = Some (map (cluster_reduced_row principal_axes cluster_embeddings)
              cluster_embeddings) /\
  forall all_embeddings unbiased removed out log,
    CreateUnbiasedDataset.project_6d principal_axes all_embeddings
      unbiased removed [] = Some (out, log) ->
    CreateUnbiasedDataset.all_6d_normalized out
      = map (rebalancer_reduced_row principal_axes all_embeddings)
            all_embeddings /\
    CreateUnbiasedDataset.unbiased_6d_normalized out
      = map (rebalancer_reduced_row principal_axes all_embeddings) unbiased /\
    CreateUnbiasedDataset.removed_6d_normalized out
      = map (rebalancer_reduced_row principal_axes all_embeddings) removed.
Proof.
  intros Hrect Hd Hrows. split.
  - set (X := cluster_embeddings) in *.
    assert (Hne : X <> []).
    { intros E. rewrite E in Hrows. unfold n_components in Hrows.
      simpl in Hrows. lia. }
    set (scale := map (fun v => handle_zeros_in_scale (sqrt v)) (col_var X)).
    assert (Hscale : length scale = d).
    { unfold scale. rewrite length_map, length_col_var.
      now apply n_cols_rectangular. }
    set (scaled := map (fun r => vdiv (vsub r (col_mean X)) scale) X).
    assert (Hfit : StandardScaler_fit_transform X = Some scaled).
    { unfold StandardScaler_fit_transform, StandardScaler_fit.
      destruct X; [contradiction|reflexivity]. }
    unfold ClusterAnalysis.embeddings_6d. rewrite Hfit.
    assert (Hcols : n_cols scaled = d).
    { unfold scaled. destruct X as [|r X']; [contradiction|]. simpl.
      inversion Hrect as [|? ? Hr0 _].
      rewrite length_vdiv, length_vsub, length_col_mean. simpl.
      rewrite Hscale, Hr0. lia. }
    unfold PCA_fit_transform.
    rewrite PCA_fit_total;
      [|unfold scaled, n_rows; now rewrite length_map|now rewrite Hcols].
    rewrite PCA_transform_total
      by (unfold scaled; destruct X; [contradiction|discriminate]).
    f_equal. unfold ClusterAnalysis.normalize_embeddings.
    unfold scaled at 3. rewrite !map_map.
    apply map_ext_in. intros r Hr.
    unfold cluster_reduced_row, PCA_transform_row. cbn [pca_mean_ pca_components_].
    fold scale. fold scaled.
    unfold scaled at 1 2.
    rewrite (center_standardized d X scale Hrect Hne Hscale).
    rewrite (col_mean_standardized d X scale Hrect Hne Hscale).
    fold scaled.
    assert (Hlen : length (vdiv (vsub r (col_mean X)) scale) = d).
    { rewrite length_vdiv, length_vsub, length_col_mean,
        (n_cols_rectangular d X Hrect Hne), Hscale.
      rewrite (proj1 (Forall_forall _ _) Hrect r Hr). lia. }
    assert (E : vsub (vdiv (vsub r (col_mean X)) scale) (repeat 0 d)
                = vdiv (vsub r (col_mean X)) scale)
      by (rewrite <- Hlen at 1; apply vsub_zeros).
    rewrite E. reflexivity.
  - intros all_embeddings unbiased removed out log Hrun.
    destruct (project_6d_Some _ _ _ _ _ _ Hrun) as [pca [_ [-> ->]]].
    unfold CreateUnbiasedDataset.normalize_embeddings.
    cbn [CreateUnbiasedDataset.all_6d_normalized
         CreateUnbiasedDataset.unbiased_6d_normalized
         CreateUnbiasedDataset.removed_6d_normalized].
    rewrite !map_map. split; [|split]; reflexivity.
Qed.

End WithSVD.

(** ** The rebalancer does not standardize *)

Lemma dot_div (c : R) (u v : vector) :
  dot (map (fun x => x / c) u) (map (fun x => x / c) v) = dot u v / (c * c).
Proof.
  unfold dot, Rsum. revert v.
  induction u as [|x u IH]; intros [|y v]; simpl;
    try (unfold Rdiv; ring).
  rewrite IH. unfold Rdiv. rewrite Rinv_mult. ring.
Qed.

Lemma sum_squares_dot (u : vector) : sum_squares u = dot u u.
Proof.
  unfold sum_squares, dot, Rsum.
  induction u as [|x u IH]; simpl; [reflexivity|]. now rewrite IH.
Qed.

Lemma projection_norm (axes : matrix) (u : vector) :
  orthonormal_basis axes -> length u = 6%nat ->
  l2_norm (map (fun axis => dot u axis) axes) = sqrt (dot u u).
Proof.
  intros H Hu. unfold l2_norm. now rewrite sum_squares_dot, H.
Qed.

Lemma col_mean_X8 : col_mean RealFixtures.X8 = repeat 0 6.
Proof.
  unfold col_mean, column, mean, Rsum, RealFixtures.X8. simpl.
  repeat (f_equal; try lra).
Qed.

Lemma col_var_X8 : col_var RealFixtures.X8 = [4; 1; 1; 1; 1; 1].
Proof.
  unfold col_var, column, mean, Rsum, RealFixtures.X8. simpl.
  repeat (f_equal; try lra).
Qed.

Lemma sqrt_4 : sqrt 4 = 2.
Proof. replace 4 with (2 * 2) by lra. apply sqrt_square. lra. Qed.

Lemma sqrt_9 : sqrt 9 = 3.
Proof. replace 9 with (3 * 3) by lra. apply sqrt_square. lra. Qed.

Lemma scale_X8 : map sqrt (col_var RealFixtures.X8) = [2; 1; 1; 1; 1; 1].
Proof. rewrite col_var_X8. simpl. now rewrite sqrt_4, sqrt_1. Qed.

Lemma center_X8 : center RealFixtures.X8 = RealFixtures.X8.
Proof.
  unfold center. rewrite col_mean_X8.
  transitivity (map (fun r : vector => r) RealFixtures.X8); [|apply map_id].
  apply map_ext_in. intros r Hr.
  assert (Hlen : length r = 6%nat).
  { unfold RealFixtures.X8 in Hr. simpl in Hr.
    repeat (destruct Hr as [<-|Hr]; [reflexivity|]). contradiction. }
  rewrite <- Hlen. apply vsub_zeros.
Qed.

Lemma standardized_X8 :
  map (SpecReducer.standardize_row (col_mean RealFixtures.X8)
         (map sqrt (col_var RealFixtures.X8)))
      RealFixtures.X8
  = RealFixtures.Z8.
Proof.
  rewrite scale_X8, col_mean_X8.
  unfold SpecReducer.standardize_row, vdiv, vsub, RealFixtures.X8,
    RealFixtures.Z8. simpl.
  repeat (f_equal; try lra).
Qed.

(** A projected row with a non-zero norm, as the rebalancer normalizes it. *)
Lemma rebalancer_projected_row (axes : matrix) (u : vector) (c : R) :
  orthonormal_basis axes -> length u = 6%nat ->
  sqrt (dot u u) = c -> 0 < c ->
  finite_values
    (CreateUnbiasedDataset.normalize_row (map (fun axis => dot u axis) axes))
  = Some (map (fun x => x / c) (map (fun axis => dot u axis) axes)).
Proof.
  intros H Hu Hc Hpos. unfold CreateUnbiasedDataset.normalize_row.
  rewrite (projection_norm axes u H Hu), Hc.
  apply NormalizeFacts.finite_values_divide. lra.
Qed.

(** The same row as the specification's [transform] normalizes it. *)
Lemma spec_projected_row (axes : matrix) (u : vector) (c : R) :
  orthonormal_basis axes -> length u = 6%nat ->
  sqrt (dot u u) = c -> 1 <= c ->
  finite_values
    (map (fun x =>
            np_divide x
              (Rmax (l2_norm (map (fun axis => dot u axis) axes)) (/ 10 ^ 10)))
         (map (fun axis => dot u axis) axes))
  = Some (map (fun x => x / c) (map (fun axis => dot u axis) axes)).
Proof.
  intros H Hu Hc Hpos.
  rewrite (projection_norm axes u H Hu), Hc.
  rewrite Rmax_left by (simpl; lra).
  apply NormalizeFacts.finite_values_divide. lra.
Qed.

Lemma dot_zero_row (u axis : vector) : is_zero_row u -> dot u axis = 0.
Proof.
  unfold dot, Rsum. intros H. revert axis.
  induction H as [|x u Hx Hu IH]; intros [|a axis]; simpl; try reflexivity.
  subst. rewrite IH. ring.
Qed.

Lemma rebalancer_normalize_zero_row (row : vector) :
  is_zero_row row ->
  CreateUnbiasedDataset.normalize_row row = map (fun _ => NaN) row.
Proof.
  intros H. unfold CreateUnbiasedDataset.normalize_row.
  rewrite (proj2 (NormalizeFacts.l2_norm_zero_iff row) H).
  induction H as [|x row Hx Hrow IH]; simpl; [reflexivity|].
  subst. now rewrite NormalizeFacts.np_divide_zero_zero, IH.
Qed.

(** When all embeddings are equal, every row the rebalancer reduces is at
    the mean, its projection is zero whatever the axes, and the division by
    its norm leaves NaN everywhere. *)
Lemma rebalancer_identical_embeddings_nan (principal_axes : matrix -> matrix) :
  forall row, In row RealFixtures.same8 ->
    rebalancer_reduced_row principal_axes RealFixtures.same8 row
    = map (fun _ => NaN)
          (firstn 6 (principal_axes (center RealFixtures.same8))).
Proof.
  intros row Hrow.
  assert (Hr : row = [1; 1; 1; 1; 1; 1])
    by (unfold RealFixtures.same8 in Hrow; now apply repeat_spec in Hrow).
  subst row.
  assert (Hmean : col_mean RealFixtures.same8 = [1; 1; 1; 1; 1; 1]).
  { unfold col_mean, column, mean, Rsum, RealFixtures.same8. simpl.
    repeat (f_equal; try lra). }
  unfold rebalancer_reduced_row. rewrite Hmean.
  fold (center RealFixtures.same8).
  replace (map (fun r : vector => vsub r [1; 1; 1; 1; 1; 1]) RealFixtures.same8)
    with (center RealFixtures.same8) by (unfold center; now rewrite Hmean).
  set (axes := firstn 6 (principal_axes (center RealFixtures.same8))).
  assert (Hz : is_zero_row (vsub [1; 1; 1; 1; 1; 1] [1; 1; 1; 1; 1; 1])).
  { unfold vsub. simpl. repeat constructor; lra. }
  rewrite (map_ext _ (fun _ => 0)) by (intros axis; now apply dot_zero_row).
  rewrite rebalancer_normalize_zero_row, map_map; [reflexivity|].
  unfold is_zero_row. apply Forall_forall. intros x Hx.
  apply in_map_iff in Hx. now destruct Hx as [_ [<- _]].
Qed.

Lemma sqrt_6_bounds : 1 <= sqrt 6 /\ sqrt 6 * sqrt 6 = 6.
Proof.
  split; [|apply sqrt_sqrt; lra].
  rewrite <- sqrt_1 at 1. apply sqrt_le_1; lra.
Qed.

(** C3, counterexample.  On the 8 x 6 matrix [X8], whatever orthonormal
    axes the SVD returns for the centred matrix and for the standardized
    matrix, the rebalancer's 6-D output for the full matrix is not the
    standardize - project - normalize image of its rows: the first two
    output rows have inner product 1/3, those of the standardized pipeline
    have inner product 0. *)
Lemma C3_counterexample :
  ~ exists principal_axes out log,
      orthonormal_basis
        (firstn 6 (principal_axes (center RealFixtures.X8))) /\
      orthonormal_basis
        (firstn 6
           (principal_axes
              (map (SpecReducer.standardize_row
                      (col_mean RealFixtures.X8)
                      (map sqrt (col_var RealFixtures.X8)))
                   RealFixtures.X8))) /\
      CreateUnbiasedDataset.project_6d principal_axes RealFixtures.X8
        (mask_select RealFixtures.mask8 RealFixtures.X8)
        (mask_select (map negb RealFixtures.mask8) RealFixtures.X8) []
      = Some (out, log) /\
      CreateUnbiasedDataset.all_6d_normalized out
      = SpecReducer.transform
          (SpecReducer.fit principal_axes RealFixtures.X8) RealFixtures.X8.
Proof.
  intros [pa [out [log [HA [HB [Hrun Heq]]]]]].
  destruct (project_6d_Some _ _ _ _ _ _ Hrun) as [pca [_ [Hpca ->]]].
  cbn [CreateUnbiasedDataset.all_6d_normalized] in Heq.
  unfold CreateUnbiasedDataset.normalize_embeddings, SpecReducer.transform in Heq.
  rewrite map_map in Heq.
  pose proof (proj1 map_ext_in_iff Heq) as Hrow. clear Heq Hrun.
  set (A := firstn 6 (pa (center RealFixtures.X8))) in *.
  set (f := SpecReducer.standardize_row (col_mean RealFixtures.X8)
              (map sqrt (col_var RealFixtures.X8))) in *.
  set (B := firstn 6 (pa (map f RealFixtures.X8))) in *.
  set (r1 := [2; 1; 1; 1; 1; 1]).
  set (r2 := [2; 1; -1; 1; -1; -1]).
  set (z1 := [1; 1; 1; 1; 1; 1]).
  set (z2 := [1; 1; -1; 1; -1; -1]).
  assert (Hz : f r1 = z1 /\ f r2 = z2).
  { pose proof standardized_X8 as Hs. fold f in Hs.
    unfold RealFixtures.X8, RealFixtures.Z8 in Hs.
    pose proof (f_equal (fun l : matrix => nth 0 l []) Hs) as H1.
    pose proof (f_equal (fun l : matrix => nth 1 l []) Hs) as H2.
    cbn [nth map] in H1, H2. now split. }
  destruct Hz as [Hz1 Hz2].
  assert (Hreb : forall r, length r = 6%nat ->
            PCA_transform_row pca r = map (fun axis => dot r axis) A).
  { intros r Hr. rewrite Hpca. unfold PCA_transform_row.
    cbn [pca_mean_ pca_components_].
    rewrite col_mean_X8, <- Hr, vsub_zeros. reflexivity. }
  assert (Hspec : forall r,
            SpecReducer.transform_row
              (SpecReducer.fit pa RealFixtures.X8) r
            = map (fun x =>
                     np_divide x
                       (Rmax (l2_norm (map (fun axis => dot (f r) axis) B))
                             (/ 10 ^ 10)))
                  (map (fun axis => dot (f r) axis) B))
    by reflexivity.
  destruct sqrt_6_bounds as [H6 H66].
  assert (Hw : forall r z c c',
            In r RealFixtures.X8 -> length r = 6%nat -> length z = 6%nat ->
            f r = z -> sqrt (dot r r) = c -> 0 < c ->
            sqrt (dot z z) = c' -> 1 <= c' ->
            map (fun x => x / c) (map (fun axis => dot r axis) A)
            = map (fun x => x / c') (map (fun axis => dot z axis) B)).
  { intros r z c c' Hin Hr Hlz Hfz Hc Hcpos Hc' Hc'pos.
    specialize (Hrow r Hin). cbv beta in Hrow.
    rewrite (Hreb r Hr), Hspec, Hfz in Hrow.
    apply (f_equal finite_values) in Hrow.
    rewrite (rebalancer_projected_row A r c HA Hr Hc Hcpos) in Hrow.
    rewrite (spec_projected_row B z c' HB Hlz Hc' Hc'pos) in Hrow.
    now injection Hrow. }
  assert (Hd11 : dot r1 r1 = 9) by (unfold dot, Rsum, r1; simpl; lra).
  assert (Hd22 : dot r2 r2 = 9) by (unfold dot, Rsum, r2; simpl; lra).
  assert (Hd12 : dot r1 r2 = 3) by (unfold dot, Rsum, r1, r2; simpl; lra).
  assert (Hz11 : dot z1 z1 = 6) by (unfold dot, Rsum, z1; simpl; lra).
  assert (Hz22 : dot z2 z2 = 6) by (unfold dot, Rsum, z2; simpl; lra).
  assert (Hz12 : dot z1 z2 = 0) by (unfold dot, Rsum, z1, z2; simpl; lra).
  assert (H1 := Hw r1 z1 3 (sqrt 6)).
  assert (H2 := Hw r2 z2 3 (sqrt 6)).
  rewrite Hd11, Hz11, sqrt_9 in H1. rewrite Hd22, Hz22, sqrt_9 in H2.
  assert (E1 := H1 ltac:(unfold RealFixtures.X8; simpl; auto)
                  eq_refl eq_refl Hz1 eq_refl ltac:(lra) eq_refl H6).
  assert (E2 := H2 ltac:(unfold RealFixtures.X8; simpl; auto)
                  eq_refl eq_refl Hz2 eq_refl ltac:(lra) eq_refl H6).
  assert (E : dot (map (fun x => x / 3) (map (fun axis => dot r1 axis) A))
                  (map (fun x => x / 3) (map (fun axis => dot r2 axis) A))
              = dot (map (fun x => x / sqrt 6) (map (fun axis => dot z1 axis) B))
                    (map (fun x => x / sqrt 6) (map (fun axis => dot z2 axis) B)))
    by now rewrite E1, E2.
  rewrite !dot_div in E.
  rewrite (HA r1 r2 eq_refl eq_refl), (HB z1 z2 eq_refl eq_refl) in E.
  rewrite Hd12, Hz12, H66 in E. lra.
Qed.

End ReductionFacts.

Module ReductionExamples.
Import Py Np Sklearn Reducing RealFixtures.
Local Open Scope R_scope.

Lemma coordinate_axes_orthonormal (X : matrix) :
  orthonormal_basis (firstn 6 (coordinate_axes X)).
Proof.
  intros u v Hu Hv.
  destruct u as [|u1 [|u2 [|u3 [|u4 [|u5 [|u6 [|]]]]]]]; try discriminate.
  destruct v as [|v1 [|v2 [|v3 [|v4 [|v5 [|v6 [|]]]]]]]; try discriminate.
  unfold dot, Rsum, coordinate_axes. simpl. ring.
Qed.

(** The premises of the counterexample to C3 can be met: the coordinate
    axes are orthonormal, and with them the projection of [X8] runs. *)
Lemma X8_projection_runs :
  exists out log,
    orthonormal_basis (firstn 6 (coordinate_axes (center X8))) /\
    orthonormal_basis
      (firstn 6
         (coordinate_axes
            (map (SpecReducer.standardize_row
                    (col_mean X8) (map sqrt (col_var X8)))
                 X8))) /\
    CreateUnbiasedDataset.project_6d coordinate_axes X8
      (mask_select mask8 X8) (mask_select (map negb mask8) X8) []
    = Some (out, log).
Proof.
  eexists. eexists.
  split; [apply coordinate_axes_orthonormal|].
  split; [apply coordinate_axes_orthonormal|].
  reflexivity.
Qed.

(** C3 (amended) on [X8] with the coordinate axes. *)
Lemma C3_witness :
  ClusterAnalysis.embeddings_6d coordinate_axes X8
  = Some (map (cluster_reduced_row coordinate_axes X8) X8) /\
  forall all_embeddings unbiased removed out log,
    CreateUnbiasedDataset.project_6d coordinate_axes all_embeddings
      unbiased removed [] = Some (out, log) ->
    CreateUnbiasedDataset.all_6d_normalized out
      = map (rebalancer_reduced_row coordinate_axes all_embeddings)
            all_embeddings /\
    CreateUnbiasedDataset.unbiased_6d_normalized out
      = map (rebalancer_reduced_row coordinate_axes all_embeddings) unbiased /\
    CreateUnbiasedDataset.removed_6d_normalized out
      = map (rebalancer_reduced_row coordinate_axes all_embeddings) removed.
Proof.
  apply (ReductionFacts.C3_reduction_pipelines coordinate_axes 6 X8).
  - repeat constructor.
  - unfold n_components. lia.
  - unfold n_components, n_rows, X8. simpl. lia.
Defined.

(** C6 on [X8] split by [mask8], with the coordinate axes. *)
Lemma C6_witness :
  exists pca out,
    PCA_fit coordinate_axes X8 = Some pca /\
    CreateUnbiasedDataset.project_6d coordinate_axes X8
      (mask_select mask8 X8) (mask_select (map negb mask8) X8) []
    = Some (out,
            [CreateUnbiasedDataset.Fit X8;
             CreateUnbiasedDataset.Transform X8;
             CreateUnbiasedDataset.Transform (mask_select mask8 X8);
             CreateUnbiasedDataset.Transform
               (mask_select (map negb mask8) X8)]) /\
    Some (CreateUnbiasedDataset.all_6d_normalized out)
      = reduce_with pca X8 /\
    Some (CreateUnbiasedDataset.unbiased_6d_normalized out)
      = reduce_with pca (mask_select mask8 X8) /\
    Some (CreateUnbiasedDataset.removed_6d_normalized out)
      = reduce_with pca (mask_select (map negb mask8) X8) /\
    CreateUnbiasedDataset.unbiased_6d_normalized out
      = mask_select mask8 (CreateUnbiasedDataset.all_6d_normalized out) /\
    CreateUnbiasedDataset.removed_6d_normalized out
      = mask_select (map negb mask8)
          (CreateUnbiasedDataset.all_6d_normalized out).
Proof.
  apply (ReductionFacts.C6_single_fit_consistent coordinate_axes X8 mask8).
  - unfold n_components, n_rows, X8. simpl. lia.
  - unfold n_components, n_cols, X8. simpl. lia.
  - unfold mask8, X8. simpl. discriminate.
  - unfold mask8, X8. simpl. discriminate.
Defined.

End ReductionExamples.

(* ================================================================== *)
(** * Unit normalization in binary64 *)
(* ================================================================== *)

Module RoundedNormalizeFacts.
Import Np Reducing Rounded.
Local Open Scope R_scope.

Lemma unit_roundoff_bounds : 0 < unit_roundoff <= / 10 ^ 15.
Proof.
  unfold unit_roundoff. split.
  - apply Rinv_0_lt_compat, pow_lt. lra.
  - apply Rinv_le_contravar; [apply pow_lt; lra|].
    replace (2 ^ 53) with 9007199254740992 by (simpl; ring).
    replace (10 ^ 15) with 1000000000000000 by (simpl; ring).
    lra.
Qed.


(** An exact result is accurate. *)
Lemma accurate_exact (bound x : R) : 0 <= bound -> accurate bound x x.
Proof.
  intros H. unfold accurate. rewrite Rminus_diag, Rabs_R0.
  apply Rmult_le_pos; [exact H|apply Rabs_pos].
Qed.




Section WithRounding.

Variable rnd : R -> R.
Variable np_sum : list R -> R.

Local Abbreviation u := unit_roundoff.











End WithRounding.


(** ** Without rounding errors *)

(** Exact arithmetic is the instance in which nothing is rounded. *)
Lemma exact_cluster_normalize_row (row : vector) :
  cluster_normalize_row (fun x => x) Rsum row
  = ClusterAnalysis.normalize_row row.
Proof.
  unfold cluster_normalize_row, ClusterAnalysis.normalize_row.
  apply map_ext. intros x. unfold np_true_divide.
  now destruct (np_divide x _).
Qed.

Lemma exact_rebalancer_normalize_row (row : vector) :
  rebalancer_normalize_row (fun x => x) Rsum row
  = CreateUnbiasedDataset.normalize_row row.
Proof.
  unfold rebalancer_normalize_row, CreateUnbiasedDataset.normalize_row.
  apply map_ext. intros x. unfold np_true_divide.
  now destruct (np_divide x _).
Qed.

Lemma exact_in_range (row : vector) :
  cluster_row_in_range (fun x => x) Rsum row /\
  rebalancer_row_in_range (fun x => x) Rsum row.
Proof.
  pose proof unit_roundoff_bounds as [Hu _].
  assert (Hq : forall d, quotients_in_range (fun x => x) row d).
  { intros d. apply Forall_forall. intros x _. apply accurate_exact. lra. }
  assert (Hn : norm_in_range (fun x => x) Rsum row).
  { repeat split.
    - apply Forall_forall. intros x _. apply accurate_exact. lra.
    - apply accurate_exact. lra.
    - apply accurate_exact. lra. }
  split.
  - split; [exact Hn|]. split; [apply accurate_exact; lra|apply Hq].
  - split; [exact Hn|]. intros _. apply Hq.
Qed.

End RoundedNormalizeFacts.

(* ================================================================== *)
(** * A reduced row below the norm floor *)
(* ================================================================== *)

Module FlooredReductionFacts.
Import Np Sklearn Reducing RealFixtures FloatFixtures.
Local Open Scope R_scope.








End FlooredReductionFacts.

(* ================================================================== *)
(** * The density score in binary64 *)
(* ================================================================== *)

Module RoundedDensityFacts.
Import Embeddings Rounded.
Local Open Scope R_scope.

Section WithRounding.

Variable rnd : R -> R.
Variable format : R -> Prop.

Hypothesis nearest : rounds_to_nearest rnd format.

(** Rounding to nearest keeps the order. *)
Lemma rnd_monotone (x y : R) : x <= y -> rnd x <= rnd y.
Proof.
  intros Hxy. destruct (Rle_lt_dec (rnd x) (rnd y)) as [H|H]; [exact H|].
  destruct (nearest x) as [Fx Nx]. destruct (nearest y) as [Fy Ny].
  pose proof (Nx (rnd y) Fy) as H1. pose proof (Ny (rnd x) Fx) as H2.
  assert (Hx : (rnd x + rnd y) / 2 <= x).
  { unfold Rabs in H1.
    destruct (Rcase_abs (rnd x - x)), (Rcase_abs (rnd y - x)); lra. }
  assert (Hy : y <= (rnd x + rnd y) / 2).
  { unfold Rabs in H2.
    destruct (Rcase_abs (rnd y - y)), (Rcase_abs (rnd x - y)); lra. }
  assert (E : x = y) by lra.
  subst y. lra.
Qed.

(** A value of the format is its own rounding. *)
Lemma rnd_fixed (f : R) : format f -> rnd f = f.
Proof.
  intros Hf. destruct (nearest f) as [_ N]. specialize (N f Hf).
  rewrite Rminus_diag, Rabs_R0 in N.
  pose proof (Rabs_pos (rnd f - f)) as P.
  destruct (Req_dec (rnd f - f) 0) as [E|E]; [lra|].
  pose proof (Rabs_pos_lt _ E). lra.
Qed.

Lemma density_of_avg_monotone (a b : R) :
  0 < epsilon rnd -> 0 <= a -> a <= b ->
  density_of_avg rnd b <= density_of_avg rnd a.
Proof.
  intros He Ha Hab. unfold density_of_avg.
  assert (Hfix : rnd (epsilon rnd) = epsilon rnd)
    by (apply rnd_fixed; unfold epsilon; apply nearest).
  assert (Hra : epsilon rnd <= rnd (a + epsilon rnd)).
  { rewrite <- Hfix at 1. apply rnd_monotone. lra. }
  assert (Hrab : rnd (a + epsilon rnd) <= rnd (b + epsilon rnd))
    by (apply rnd_monotone; lra).
  apply rnd_monotone.
  unfold Rdiv. rewrite !Rmult_1_l.
  apply Rinv_le_contravar; lra.
Qed.

Variable vec : Type.
Variable kneighbors : Z -> list vec -> list (list R).
Variable np_mean : list R -> R.

Lemma density_of_points_score (points : list vec) :
  (2 <= length points)%nat ->
  density_of_points rnd vec kneighbors np_mean points
  = rnd (1 / rnd (cluster_avg_dist vec kneighbors np_mean points
                  + rnd (/ 10 ^ 6))).
Proof.
  intros H. unfold density_of_points.
  destruct (0 <? neighbor_count vec points)%Z eqn:E; [reflexivity|].
  apply Z.ltb_ge in E. unfold neighbor_count in E. lia.
Qed.

(** C7 (amended).  For two clusters A and B with the same number of
    points, at least two each, whose computed average k-nearest-neighbour
    distances are not negative: if the average of A is strictly less than
    that of B, the density score computed for A is greater than or equal
    to the one computed for B; the score of each is the binary64 quotient
    1.0 / (avg_dist + 1e-6), each operation rounding to nearest. *)
Theorem C7_density_monotone (A B : list vec) :
  0 < epsilon rnd ->
  length A = length B ->
  (2 <= length A)%nat ->
  0 <= cluster_avg_dist vec kneighbors np_mean A ->
  cluster_avg_dist vec kneighbors np_mean A
  < cluster_avg_dist vec kneighbors np_mean B ->
  density_of_points rnd vec kneighbors np_mean B
  <= density_of_points rnd vec kneighbors np_mean A /\
  density_of_points rnd vec kneighbors np_mean A
  = rnd (1 / rnd (cluster_avg_dist vec kneighbors np_mean A
                  + rnd (/ 10 ^ 6))) /\
  density_of_points rnd vec kneighbors np_mean B
  = rnd (1 / rnd (cluster_avg_dist vec kneighbors np_mean B
                  + rnd (/ 10 ^ 6))).
Proof.
  intros He Hlen HA Hpos Hlt.
  assert (HB : (2 <= length B)%nat) by lia.
  rewrite (density_of_points_score A HA), (density_of_points_score B HB).
  repeat split.
  apply (density_of_avg_monotone _ _ He Hpos). lra.
Qed.

End WithRounding.

(** Without rounding every real is its own nearest value. *)
Lemma identity_rounds_to_nearest :
  rounds_to_nearest (fun x => x) (fun _ => True).
Proof.
  intros x. split; [exact I|]. intros f _.
  rewrite Rminus_diag, Rabs_R0. apply Rabs_pos.
Qed.

End RoundedDensityFacts.

(* ================================================================== *)
(** * Evaluations in binary64 *)
(* ================================================================== *)

Module Binary64Examples.
Import Binary64 FloatFixtures.

(** C7, counterexample.  Two coincident points have the average
    neighbour distance 0, two points 2^-80 apart the average 2^-80, which
    is greater; in binary64 the sum 2^-80 + 1e-6 is 1e-6, and both
    clusters get the density score 1000000.0: the score of the first is
    not strictly greater. *)
Lemma C7_counterexample :
  length coincident2 = length apart2 /\
  (2 <= length coincident2)%nat /\
  cluster_avg_dist float kneighbors1 coincident2 = zero /\
  cluster_avg_dist float kneighbors1 apart2 = two_pow_m80 /\
  ltb (cluster_avg_dist float kneighbors1 coincident2)
      (cluster_avg_dist float kneighbors1 apart2) = true /\
  density_of_points float kneighbors1 coincident2
  = density_of_points float kneighbors1 apart2 /\
  ltb (density_of_points float kneighbors1 apart2)
      (density_of_points float kneighbors1 coincident2) = false.
Proof. vm_compute. repeat split; try reflexivity; lia. Qed.

Example density_of_coincident_points :
  density_of_points float kneighbors1 coincident2
  = SpecFloat.S754_finite false 8589934592000000 (-33).
Proof. vm_compute. reflexivity. Qed.

(** The squares of (1e200, 1e200, 0, 0, 0, 0) overflow: its computed norm
    is infinite and the per-cluster path returns the zero vector for it,
    though its norm is well above the floor. *)
Example huge_row_comes_out_zero :
  computed_norm huge_row = inf /\
  cluster_normalize_row huge_row = [zero; zero; zero; zero; zero; zero].
Proof. vm_compute. split; reflexivity. Qed.

(** The square of 1e-200 underflows: the computed norm of
    (1e-200, 0, 0, 0, 0, 0) is zero and the rebalancer returns Inf and
    NaN for this row, which is not the zero vector. *)
Example minute_row_comes_out_nan :
  computed_norm minute_row = zero /\
  rebalancer_normalize_row minute_row = [inf; nan; nan; nan; nan; nan].
Proof. vm_compute. split; reflexivity. Qed.

End Binary64Examples.

(* ================================================================== *)
(** * Two roundings that meet the hypotheses *)
(* ================================================================== *)

Module RoundingInstances.
Import Np Rounded FloatFixtures.
Local Open Scope R_scope.

Lemma nearest_multiple (t : R) :
  t - / 2 < IZR (up (t - / 2)) <= t + / 2.
Proof.
  destruct (archimed (t - / 2)) as [H1 H2]. lra.
Qed.

Lemma integers_apart (j k : Z) : j <> k -> 1 <= Rabs (IZR j - IZR k).
Proof.
  intros H. rewrite <- minus_IZR.
  destruct (Z_lt_le_dec j k) as [Hlt|Hge].
  - rewrite Rabs_left1 by (apply IZR_le; lia).
    rewrite <- opp_IZR. apply IZR_le. lia.
  - rewrite Rabs_pos_eq by (apply IZR_le; lia).
    apply IZR_le. lia.
Qed.

(** [grid_round h] rounds to the nearest multiple of [h]. *)
Lemma grid_rounds_to_nearest (h : R) :
  0 < h -> rounds_to_nearest (grid_round h) (on_grid h).
Proof.
  intros Hh x. unfold grid_round. set (k := up (x / h - / 2)).
  split; [now exists k|].
  intros f [j ->].
  pose proof (nearest_multiple (x / h)) as Hk. fold k in Hk.
  assert (Ex : x = x / h * h) by (field; lra).
  replace (IZR k * h - x) with ((IZR k - x / h) * h) by (rewrite Ex at 2; ring).
  replace (IZR j * h - x) with ((IZR j - x / h) * h) by (rewrite Ex at 2; ring).
  rewrite !Rabs_mult, (Rabs_pos_eq h) by lra.
  apply Rmult_le_compat_r; [lra|].
  assert (Hkx : Rabs (IZR k - x / h) <= / 2) by (apply Rabs_le; lra).
  destruct (Z.eq_dec j k) as [->|Hne]; [lra|].
  pose proof (integers_apart j k Hne) as Hjk.
  pose proof (Rabs_triang (IZR j - x / h) (- (IZR k - x / h))) as T.
  rewrite Rabs_Ropp in T.
  replace (IZR j - x / h + - (IZR k - x / h)) with (IZR j - IZR k) in T
    by ring.
  lra.
Qed.

(** A multiple of [h] absorbs what is less than half of [h]. *)
Lemma grid_round_absorbs (h : R) (k : Z) (d : R) :
  0 < h -> - (h / 2) <= d < h / 2 ->
  grid_round h (IZR k * h + d) = IZR k * h.
Proof.
  intros Hh Hd. unfold grid_round. f_equal. f_equal. symmetry.
  assert (E : (IZR k * h + d) / h = IZR k + d / h) by (field; lra).
  rewrite E.
  assert (Hq : - / 2 <= d / h < / 2).
  { split.
    - apply Rmult_le_reg_r with h; [lra|].
      unfold Rdiv. rewrite Rmult_assoc, Rinv_l by lra. lra.
    - apply Rmult_lt_reg_r with h; [lra|].
      unfold Rdiv. rewrite Rmult_assoc, Rinv_l by lra. lra. }
  apply tech_up; lra.
Qed.

Lemma coarse_pos : 0 < coarse.
Proof. unfold coarse. apply Rinv_0_lt_compat, pow_lt. lra. Qed.

Lemma coarse_epsilon_pos : 0 < epsilon (grid_round coarse).
Proof.
  pose proof coarse_pos as Hh.
  unfold epsilon, grid_round. apply Rmult_lt_0_compat; [|exact Hh].
  destruct (archimed (/ 10 ^ 6 / coarse - / 2)) as [H _].
  assert (Hq : 1 <= / 10 ^ 6 / coarse).
  { unfold coarse, Rdiv. rewrite Rinv_inv.
    apply Rmult_le_reg_l with (10 ^ 6); [apply pow_lt; lra|].
    rewrite <- Rmult_assoc, Rinv_r by (apply Rgt_not_eq, pow_lt; lra).
    simpl. lra. }
  lra.
Qed.

(** In the coarse format too a greater average distance can have the same
    score: 2^-40 is absorbed by the sum with 1e-6. *)
Example coarse_scores_tie :
  0 < / 2 ^ 40 /\
  density_of_avg (grid_round coarse) (/ 2 ^ 40)
  = density_of_avg (grid_round coarse) 0.
Proof.
  pose proof coarse_pos as Hh.
  split; [apply Rinv_0_lt_compat, pow_lt; lra|].
  unfold density_of_avg. f_equal. f_equal.
  destruct (proj1 (grid_rounds_to_nearest coarse Hh (/ 10 ^ 6))) as [k Hk].
  fold (epsilon (grid_round coarse)) in Hk. rewrite Hk.
  assert (H40 : 0 < / 2 ^ 40) by (apply Rinv_0_lt_compat, pow_lt; lra).
  assert (Hlt : / 2 ^ 40 < coarse / 2).
  { unfold coarse, Rdiv. rewrite <- Rinv_mult.
    apply Rinv_lt_contravar; simpl; lra. }
  rewrite (Rplus_comm (/ 2 ^ 40)), (Rplus_comm 0).
  rewrite (grid_round_absorbs coarse k (/ 2 ^ 40) Hh) by lra.
  rewrite (grid_round_absorbs coarse k 0 Hh) by lra.
  reflexivity.
Qed.



End RoundingInstances.

(* ================================================================== *)
(** * The rounded models on concrete inputs *)
(* ================================================================== *)

Module RoundedExamples.
Import Np Rounded FloatFixtures.
Local Open Scope R_scope.

(** C7 (amended) with the rounding to the multiples of 2^-30, on two
    clusters of two points with neighbour distances 1 and 2. *)
Lemma C7_witness :
  0 < epsilon (grid_round coarse) /\
  length near2 = length far2 /\
  (2 <= length near2)%nat /\
  0 <= cluster_avg_dist (list R) kneighbors_rows mean near2 /\
  cluster_avg_dist (list R) kneighbors_rows mean near2
  < cluster_avg_dist (list R) kneighbors_rows mean far2 /\
  density_of_points (grid_round coarse) (list R) kneighbors_rows mean far2
  <= density_of_points (grid_round coarse) (list R) kneighbors_rows mean
       near2 /\
  density_of_points (grid_round coarse) (list R) kneighbors_rows mean near2
  = grid_round coarse
      (1 / grid_round coarse
             (cluster_avg_dist (list R) kneighbors_rows mean near2
              + grid_round coarse (/ 10 ^ 6))) /\
  density_of_points (grid_round coarse) (list R) kneighbors_rows mean far2
  = grid_round coarse
      (1 / grid_round coarse
             (cluster_avg_dist (list R) kneighbors_rows mean far2
              + grid_round coarse (/ 10 ^ 6))).
Proof.
  assert (H1 : 0 < epsilon (grid_round coarse))
    by exact RoundingInstances.coarse_epsilon_pos.
  assert (H2 : length near2 = length far2) by reflexivity.
  assert (H3 : (2 <= length near2)%nat) by (simpl; lia).
  assert (H4 : 0 <= cluster_avg_dist (list R) kneighbors_rows mean near2)
    by (unfold cluster_avg_dist, mean, Rsum; simpl; lra).
  assert (H5 : cluster_avg_dist (list R) kneighbors_rows mean near2
               < cluster_avg_dist (list R) kneighbors_rows mean far2)
    by (unfold cluster_avg_dist, mean, Rsum; simpl; lra).
  split; [exact H1|]. split; [exact H2|]. split; [exact H3|].
  split; [exact H4|]. split; [exact H5|].
  exact (RoundedDensityFacts.C7_density_monotone
           (grid_round coarse) (on_grid coarse)
           (RoundingInstances.grid_rounds_to_nearest
              coarse RoundingInstances.coarse_pos)
           (list R) kneighbors_rows mean near2 far2 H1 H2 H3 H4 H5).
Defined.


End RoundedExamples.

(* ================================================================== *)
(** * [clean_text] *)
(* ================================================================== *)

Module TextFacts.
Import Text.
Local Open Scope N_scope.

Lemma space_is_space : is_space 32 = true.
Proof. reflexivity. Qed.

Lemma no_space_pair_cons (a : N) (t : pystr) :
  no_space_pair (a :: t)
  = negb (is_space a && is_space (hd 0 t)) && no_space_pair t.
Proof.
  destruct t as [|b t]; simpl; [|reflexivity].
  now rewrite andb_false_r.
Qed.

Lemma sub_spaces_plain (in_run : bool) (s : pystr) :
  only_plain_spaces (sub_spaces in_run s) = true.
Proof.
  unfold only_plain_spaces. revert in_run.
  induction s as [|c s IH]; intros in_run; simpl; [reflexivity|].
  destruct (is_space c) eqn:E.
  - destruct in_run; simpl; [apply IH|]. now rewrite IH.
  - simpl. now rewrite E, IH.
Qed.

Lemma sub_spaces_no_pair (in_run : bool) (s : pystr) :
  no_space_pair (sub_spaces in_run s) = true /\
  (in_run = true -> is_space (hd 0 (sub_spaces in_run s)) = false).
Proof.
  revert in_run. induction s as [|c s IH]; intros in_run.
  - simpl. split; reflexivity.
  - cbn [sub_spaces]. destruct (is_space c) eqn:E.
    + destruct in_run.
      * apply IH.
      * destruct (IH true) as [Hp Hh]. split; [|discriminate].
        rewrite no_space_pair_cons, Hp, (Hh eq_refl).
        now rewrite andb_false_r.
    + destruct (IH false) as [Hp _]. split.
      * rewrite no_space_pair_cons, Hp, E. reflexivity.
      * intros _. exact E.
Qed.

Lemma lstrip_hd (s : pystr) : is_space (hd 0 (lstrip s)) = false.
Proof.
  induction s as [|c s IH]; simpl; [reflexivity|].
  destruct (is_space c) eqn:E; [exact IH|exact E].
Qed.

Lemma no_space_pair_tail (a : N) (t : pystr) :
  no_space_pair (a :: t) = true -> no_space_pair t = true.
Proof.
  rewrite no_space_pair_cons. intros H. now apply andb_true_iff in H.
Qed.

Lemma lstrip_keeps (s : pystr) :
  only_plain_spaces s = true -> no_space_pair s = true ->
  only_plain_spaces (lstrip s) = true /\ no_space_pair (lstrip s) = true.
Proof.
  induction s as [|c s IH]; intros Hp Hn; [now split|].
  cbn [lstrip]. destruct (is_space c); [|now split].
  apply IH.
  - unfold only_plain_spaces in *. simpl in Hp.
    now apply andb_true_iff in Hp.
  - now apply no_space_pair_tail in Hn.
Qed.

Lemma rstrip_cons (c : N) (s : pystr) :
  rstrip (c :: s)
  = match rstrip s with
    | [] => if is_space c then [] else [c]
    | _ :: _ => c :: rstrip s
    end.
Proof. reflexivity. Qed.

Lemma rstrip_hd (s : pystr) :
  rstrip s <> [] -> hd 0 (rstrip s) = hd 0 s.
Proof.
  destruct s as [|c s]; [reflexivity|].
  rewrite rstrip_cons. destruct (rstrip s); [|reflexivity].
  destruct (is_space c); [intros H; now contradiction H|reflexivity].
Qed.

Lemma rstrip_hd_space (s : pystr) :
  is_space (hd 0 s) = false -> is_space (hd 0 (rstrip s)) = false.
Proof.
  intros H. destruct (rstrip s) as [|x l] eqn:E; [reflexivity|].
  rewrite <- E, rstrip_hd; [exact H|]. rewrite E. discriminate.
Qed.

Lemma rstrip_last (s : pystr) : is_space (last (rstrip s) 0) = false.
Proof.
  induction s as [|c s IH]; [reflexivity|].
  rewrite rstrip_cons. destruct (rstrip s) as [|x l] eqn:E.
  - destruct (is_space c) eqn:Ec; [reflexivity|exact Ec].
  - exact IH.
Qed.

Lemma rstrip_keeps (s : pystr) :
  only_plain_spaces s = true -> no_space_pair s = true ->
  only_plain_spaces (rstrip s) = true /\ no_space_pair (rstrip s) = true.
Proof.
  induction s as [|c s IH]; intros Hp Hn; [now split|].
  assert (Hp' : only_plain_spaces s = true)
    by (unfold only_plain_spaces in *; simpl in Hp;
        now apply andb_true_iff in Hp).
  assert (Hc : negb (is_space c) || (c =? 32) = true)
    by (unfold only_plain_spaces in Hp; simpl in Hp;
        now apply andb_true_iff in Hp).
  destruct (IH Hp' (no_space_pair_tail c s Hn)) as [IHp IHn].
  rewrite rstrip_cons. destruct (rstrip s) as [|x l] eqn:E.
  - destruct (is_space c) eqn:Ec; [now split|].
    split; [|reflexivity]. unfold only_plain_spaces. simpl. now rewrite Ec.
  - split.
    + change (only_plain_spaces (c :: x :: l))
        with ((negb (is_space c) || (c =? 32)) && only_plain_spaces (x :: l)).
      now rewrite Hc, IHp.
    + rewrite no_space_pair_cons, IHn, andb_true_r.
      rewrite no_space_pair_cons in Hn. apply andb_true_iff in Hn.
      destruct Hn as [Hn _].
      assert (Hh : hd 0 (x :: l) = hd 0 s)
        by (rewrite <- E; apply rstrip_hd; rewrite E; discriminate).
      now rewrite Hh.
Qed.

Lemma sub_spaces_fixed (in_run : bool) (s : pystr) :
  only_plain_spaces s = true -> no_space_pair s = true ->
  (in_run = true -> is_space (hd 0 s) = false) ->
  sub_spaces in_run s = s.
Proof.
  revert in_run. induction s as [|c s IH]; intros in_run Hp Hn Hh;
    [reflexivity|].
  assert (Hp' : only_plain_spaces s = true)
    by (unfold only_plain_spaces in *; simpl in Hp;
        now apply andb_true_iff in Hp).
  assert (Hc : negb (is_space c) || (c =? 32) = true)
    by (unfold only_plain_spaces in Hp; simpl in Hp;
        now apply andb_true_iff in Hp).
  pose proof (no_space_pair_tail c s Hn) as Hn'.
  cbn [sub_spaces]. destruct (is_space c) eqn:E.
  - destruct in_run; [specialize (Hh eq_refl); simpl in Hh; congruence|].
    simpl in Hc. apply N.eqb_eq in Hc. subst c. f_equal.
    apply IH; auto. intros _.
    rewrite no_space_pair_cons, E in Hn. simpl in Hn.
    apply andb_true_iff in Hn. destruct Hn as [Hn _].
    now apply negb_true_iff in Hn.
  - f_equal. apply IH; auto. discriminate.
Qed.

Lemma lstrip_fixed (s : pystr) : is_space (hd 0 s) = false -> lstrip s = s.
Proof.
  destruct s as [|c s]; simpl; [reflexivity|]. now intros ->.
Qed.

Lemma rstrip_fixed (s : pystr) : is_space (last s 0) = false -> rstrip s = s.
Proof.
  induction s as [|c s IH]; intros H; [reflexivity|].
  rewrite rstrip_cons. destruct s as [|x l].
  - simpl in *. now rewrite H.
  - rewrite IH by exact H. reflexivity.
Qed.

Lemma normalized_fixed (s : pystr) :
  normalized s = true -> clean_text (Str s) = s.
Proof.
  unfold normalized. rewrite !andb_true_iff, !negb_true_iff.
  intros [[[Hp Hn] Hh] Hl]. unfold clean_text, strip.
  rewrite sub_spaces_fixed, lstrip_fixed, rstrip_fixed; auto.
Qed.

Lemma clean_text_normal_form (text : pyobject) :
  normalized (clean_text text) = true.
Proof.
  destruct text as [s|]; [|reflexivity].
  unfold clean_text, strip, normalized.
  destruct (sub_spaces_no_pair false s) as [Hn _].
  destruct (lstrip_keeps _ (sub_spaces_plain false s) Hn) as [Hlp Hln].
  destruct (rstrip_keeps _ Hlp Hln) as [Hrp Hrn].
  rewrite Hrp, Hrn, rstrip_last, rstrip_hd_space by apply lstrip_hd.
  reflexivity.
Qed.

(** X1.  Whatever is passed to [clean_text], the result has no whitespace
    character other than the plain space, no two spaces in a row, and no
    space at its start or at its end; a value that is not a string gives
    the empty string. *)
Theorem X1_clean_text_normalized (text : pyobject) :
  normalized (clean_text text) = true /\ clean_text NotStr = [].
Proof.
  split; [apply clean_text_normal_form|reflexivity].
Qed.

(** X2.  [clean_text] returns unchanged every string that is already in
    that form, so cleaning an already cleaned text changes nothing. *)
Theorem X2_clean_text_idempotent :
  (forall s, normalized s = true -> clean_text (Str s) = s) /\
  (forall text, clean_text (Str (clean_text text)) = clean_text text).
Proof.
  split; [exact normalized_fixed|].
  intros text. apply normalized_fixed, clean_text_normal_form.
Qed.

Lemma split_from_space (word : pystr) (c : N) (s : pystr) :
  is_space c = true ->
  split_from word (c :: s) = split_from word [] ++ split_from [] s.
Proof.
  intros E. cbn [split_from]. rewrite E. now destruct word.
Qed.

Lemma split_sub_spaces (s : pystr) :
  (forall word, split_from word (sub_spaces false s) = split_from word s) /\
  split_from [] (sub_spaces true s) = split_from [] s.
Proof.
  induction s as [|c s [IHf IHt]]; [now split|].
  cbn [sub_spaces]. destruct (is_space c) eqn:E.
  - split.
    + intros word.
      rewrite (split_from_space word 32 _ space_is_space),
        (split_from_space word c s E).
      now rewrite IHt.
    + rewrite IHt. cbn [split_from]. now rewrite E.
  - split.
    + intros word. cbn [split_from]. rewrite E. apply IHf.
    + cbn [split_from]. rewrite E. apply IHf.
Qed.

Lemma split_lstrip (s : pystr) : split (lstrip s) = split s.
Proof.
  unfold split. induction s as [|c s IH]; [reflexivity|].
  cbn [lstrip split_from]. destruct (is_space c) eqn:E; [exact IH|].
  cbn [split_from]. now rewrite E.
Qed.

Lemma split_rstrip (s : pystr) :
  forall word, split_from word (rstrip s) = split_from word s.
Proof.
  induction s as [|c s IH]; intros word; [reflexivity|].
  rewrite rstrip_cons. destruct (rstrip s) as [|x l] eqn:E.
  - destruct (is_space c) eqn:Ec.
    + rewrite (split_from_space word c s Ec), <- (IH []).
      cbn [split_from]. now rewrite app_nil_r.
    + cbn [split_from]. rewrite Ec, <- (IH (c :: word)). reflexivity.
  - cbn [split_from]. destruct (is_space c).
    + rewrite <- (IH []). reflexivity.
    + rewrite <- (IH (c :: word)). reflexivity.
Qed.

Lemma visible_sub_spaces (in_run : bool) (s : pystr) :
  visible (sub_spaces in_run s) = visible s.
Proof.
  unfold visible. revert in_run.
  induction s as [|c s IH]; intros in_run; [reflexivity|].
  cbn [sub_spaces filter]. destruct (is_space c) eqn:E; cbn [negb].
  - destruct in_run; [apply IH|]. cbn [filter]. rewrite space_is_space.
    apply IH.
  - cbn [filter]. rewrite E. cbn [negb]. now rewrite IH.
Qed.

Lemma visible_lstrip (s : pystr) : visible (lstrip s) = visible s.
Proof.
  unfold visible. induction s as [|c s IH]; [reflexivity|].
  cbn [lstrip filter]. destruct (is_space c) eqn:E; cbn [negb]; [exact IH|].
  cbn [filter]. now rewrite E.
Qed.

Lemma visible_rstrip (s : pystr) : visible (rstrip s) = visible s.
Proof.
  unfold visible. induction s as [|c s IH]; [reflexivity|].
  rewrite rstrip_cons. cbn [filter].
  destruct (rstrip s) as [|x l] eqn:E.
  - rewrite <- IH. destruct (is_space c) eqn:Ec; cbn [negb filter];
      [reflexivity|]. now rewrite Ec.
  - cbn [filter] in *. rewrite IH. reflexivity.
Qed.

(** X3.  [clean_text] keeps the words of a string: splitting the cleaned
    text at whitespace gives the same words as splitting the original, and
    the characters that are not whitespace are the same, in the same
    order. *)
Theorem X3_clean_text_keeps_words (s : pystr) :
  split (clean_text (Str s)) = split s /\
  visible (clean_text (Str s)) = visible s.
Proof.
  unfold clean_text, strip. split.
  - unfold split at 1. rewrite split_rstrip. fold (split (lstrip (sub_spaces false s))).
    rewrite split_lstrip. unfold split.
    apply (proj1 (split_sub_spaces s)).
  - now rewrite visible_rstrip, visible_lstrip, visible_sub_spaces.
Qed.

Example clean_text_example :
  clean_text (Str [32; 72; 105; 9; 10; 116; 104; 101; 114; 101; 160; 33; 32; 32])
  = [72; 105; 32; 116; 104; 101; 114; 101; 32; 33].
Proof. reflexivity. Qed.

End TextFacts.

(* ================================================================== *)
(** * [find_dense_clusters]: members and ranking of the clusters returned *)
(* ================================================================== *)

Module SelectionFacts.
Import Py PyFacts Embeddings EmbeddingsFacts Ranking.

Lemma slice_to_prefix {A : Type} (n : Z) (l : list A) :
  exists k, slice_to n l = firstn k l.
Proof.
  unfold slice_to. destruct (0 <=? n); eauto.
Qed.

Lemma insert_desc_perm (x : Z * Q) (l : list (Z * Q)) :
  Permutation (insert_desc x l) (x :: l).
Proof.
  induction l as [|y l IH]; simpl; [reflexivity|].
  destruct (Qltb (snd x) (snd y)); [|reflexivity].
  rewrite IH. apply perm_swap.
Qed.

Lemma sorted_desc_perm (l : list (Z * Q)) : Permutation (sorted_desc l) l.
Proof.
  induction l as [|x l IH]; [reflexivity|].
  change (sorted_desc (x :: l)) with (insert_desc x (sorted_desc l)).
  rewrite insert_desc_perm. now constructor.
Qed.

Lemma prefix_NoDup {A : Type} (k : nat) (l : list A) :
  NoDup l -> NoDup (firstn k l).
Proof.
  intros H. rewrite <- (firstn_skipn k l) in H.
  now apply NoDup_app_remove_r in H.
Qed.

Lemma sorted_positions_NoDup (l : list nat) : StronglySorted lt l -> NoDup l.
Proof.
  induction 1 as [|a l Hl IH Ha]; constructor; [|exact IH].
  intros Hin. rewrite Forall_forall in Ha. specialize (Ha _ Hin). lia.
Qed.

Lemma NoDup_concat_map {A B : Type} (f : A -> list B) (ls : list A) :
  NoDup ls ->
  (forall l, NoDup (f l)) ->
  (forall l1 l2 i, In i (f l1) -> In i (f l2) -> l1 = l2) ->
  NoDup (concat (map f ls)).
Proof.
  intros Hls Hf Hdisj. induction Hls as [|l ls Hl Hls IH]; simpl;
    [constructor|].
  apply NoDup_app; [apply Hf|exact IH|].
  intros i Hi Hin. apply in_concat in Hin. destruct Hin as [m [Hm Him]].
  apply in_map_iff in Hm. destruct Hm as [l' [<- Hl']].
  rewrite (Hdisj l l' i Hi Him) in Hl. contradiction.
Qed.

Section FindDenseClusters.

Variable vec : Type.
Variable fit_predict : HDBSCAN -> list vec -> list Z.
Variable kneighbors : Z -> list vec -> list (list Q).

(** The positions listed for a label are the positions carrying it. *)
Lemma cluster_point_indices_In (cluster_labels : list Z) (label : Z) (i : nat) :
  In i (cluster_point_indices cluster_labels label) <->
  nth_error cluster_labels i = Some label.
Proof.
  unfold cluster_point_indices, np_where, label_mask.
  rewrite where_from_In, length_map, Nat.sub_0_r. split.
  - intros [Hi Hn].
    destruct (nth_error cluster_labels i) as [l|] eqn:E.
    + rewrite (nth_error_nth _ _ false
                 (map_nth_error (fun x => x =? label) _ _ E)) in Hn.
      apply Z.eqb_eq in Hn. now subst.
    + apply nth_error_None in E. lia.
  - intros E. split.
    + split; [lia|]. apply nth_error_Some. congruence.
    + rewrite (nth_error_nth _ _ false
                 (map_nth_error (fun x => x =? label) _ _ E)).
      apply Z.eqb_refl.
Qed.

Lemma cluster_point_indices_sorted (cluster_labels : list Z) (label : Z) :
  StronglySorted lt (cluster_point_indices cluster_labels label).
Proof. apply where_from_sorted. Qed.

Lemma ranking_perm (embeddings : list vec) (cluster_labels : list Z) :
  Permutation
    (map fst (sorted_desc (cluster_densities vec kneighbors embeddings
                             cluster_labels)))
    (unique_clusters cluster_labels).
Proof.
  rewrite sorted_desc_perm. unfold cluster_densities.
  rewrite map_map. simpl. now rewrite map_id.
Qed.

Lemma ranking_sorted (embeddings : list vec) (cluster_labels : list Z) :
  StronglySorted
    (ranked_before (cluster_density vec kneighbors embeddings cluster_labels))
    (map fst (sorted_desc (cluster_densities vec kneighbors embeddings
                             cluster_labels))).
Proof.
  apply ranked_labels.
  - rewrite Forall_forall. intros it Hit.
    apply -> sorted_desc_In in Hit. unfold cluster_densities in Hit.
    apply in_map_iff in Hit. now destruct Hit as [l [<- _]].
  - apply sorted_desc_ranked, StronglySorted_map_graph, unique_clusters_sorted.
Qed.

(** For any cluster count, negative ones included, the selection runs to
    completion and returns a prefix of the ranking of all clusters. *)
Lemma select_densest_prefix (embeddings : list vec) (cluster_labels : list Z)
    (n_clusters : Z) :
  exists k,
    select_densest vec kneighbors embeddings cluster_labels n_clusters
    = Some (map fst (firstn k (sorted_desc
                (cluster_densities vec kneighbors embeddings cluster_labels))),
            map (cluster_point_indices cluster_labels)
                (map fst (firstn k (sorted_desc
                   (cluster_densities vec kneighbors embeddings
                      cluster_labels))))) /\
    (0 <= n_clusters ->
     k = Z.to_nat (Z.min n_clusters
                     (Z.of_nat (length (unique_clusters cluster_labels))))).
Proof.
  unfold select_densest.
  destruct (Nat.eqb (length (unique_clusters cluster_labels)) 0) eqn:E0.
  - exists 0%nat. apply Nat.eqb_eq in E0. rewrite E0. split; [reflexivity|].
    intros H. rewrite Z.min_r by lia. reflexivity.
  - set (items := cluster_densities vec kneighbors embeddings cluster_labels).
    set (n := Z.min n_clusters (Z.of_nat (length (sorted_desc items)))).
    assert (Hk : exists k, slice_to n (sorted_desc items)
                           = firstn k (sorted_desc items) /\
                           (0 <= n_clusters ->
                            k = Z.to_nat (Z.min n_clusters
                                  (Z.of_nat (length (unique_clusters
                                                       cluster_labels)))))).
    { unfold slice_to. destruct (0 <=? n) eqn:En.
      - exists (Z.to_nat n). split; [reflexivity|]. intros _. unfold n.
        rewrite sorted_desc_length. unfold items, cluster_densities.
        now rewrite length_map.
      - eexists. split; [reflexivity|]. intros H.
        apply Z.leb_gt in En. unfold n in En. lia. }
    destruct Hk as [k [Hslice Hkn]]. exists k. rewrite Hslice.
    rewrite (traverse_total _ (cluster_point_indices cluster_labels)).
    + split; [reflexivity|exact Hkn].
    + intros l Hl. unfold cluster_indices.
      apply (dict_get_map (cluster_point_indices cluster_labels)).
      apply in_map_iff in Hl. destruct Hl as [it [<- Hit]].
      apply firstn_In in Hit. apply -> sorted_desc_In in Hit.
      unfold items, cluster_densities in Hit.
      apply in_map_iff in Hit. now destruct Hit as [l [<- Hl]].
Qed.

(** X4.  Whenever a call of [find_dense_clusters] returns, for the labels
    HDBSCAN gave the rows: each index list returned is in ascending order
    and holds exactly the positions that carry the label returned with it;
    no position occurs in two lists or twice in one; no label is returned
    twice; and the noise label -1 is never among the labels returned. *)
Theorem X4_returned_members (embeddings : list vec)
    (min_cluster_size min_samples n_clusters : option Z)
    (labels : list Z) (indices : list (list nat)) :
  find_dense_clusters vec fit_predict kneighbors embeddings
    min_cluster_size min_samples n_clusters = Some (labels, indices) ->
  Forall2
    (fun label idxs =>
       StronglySorted lt idxs /\
       forall i, In i idxs <->
                 nth_error (fit_predict
                              (clusterer_of min_cluster_size min_samples)
                              embeddings) i = Some label)
    labels indices /\
  NoDup (concat indices) /\
  NoDup labels /\
  ~ In (-1) labels.
Proof.
  unfold find_dense_clusters.
  set (L := fit_predict (clusterer_of min_cluster_size min_samples) embeddings).
  destruct (select_densest_prefix embeddings L
              (kwarg n_clusters default_n_clusters)) as [k [Hrun _]].
  rewrite Hrun. intros Hreturned. injection Hreturned as <- <-.
  set (labels := map fst (firstn k _)).
  assert (Hnd : NoDup labels).
  { unfold labels. rewrite <- firstn_map. apply prefix_NoDup.
    eapply Permutation_NoDup; [symmetry; apply ranking_perm|].
    apply (proj1 (unique_clusters_spec vec kneighbors L)). }
  assert (Hincl : forall l, In l labels -> In l (unique_clusters L)).
  { intros l Hl. unfold labels in Hl. rewrite <- firstn_map in Hl.
    apply firstn_In in Hl.
    eapply Permutation_in; [apply ranking_perm|exact Hl]. }
  repeat split.
  - clear Hnd Hincl. induction labels as [|l ls IH]; simpl; constructor; auto.
    split; [apply cluster_point_indices_sorted|].
    intros i. apply cluster_point_indices_In.
  - apply NoDup_concat_map; [exact Hnd| |].
    + intros l. apply sorted_positions_NoDup, cluster_point_indices_sorted.
    + intros l1 l2 i H1 H2.
      apply cluster_point_indices_In in H1, H2. congruence.
  - exact Hnd.
  - intros H. apply Hincl in H.
    apply (proj2 (unique_clusters_spec vec kneighbors L)) in H. now destruct H.
Qed.

(** X5.  The labels [find_dense_clusters] returns are the head of the
    ranking of all the clusters found: together with the clusters left out
    they are all the non-noise clusters, ranked by descending density (ties
    by ascending label), so no cluster left out is denser than one returned;
    when the count asked for is at least the number of clusters found,
    none is left out. *)
Theorem X5_returned_are_densest (embeddings : list vec)
    (min_cluster_size min_samples n_clusters : option Z) :
  exists labels indices left_out,
    find_dense_clusters vec fit_predict kneighbors embeddings
      min_cluster_size min_samples n_clusters = Some (labels, indices) /\
    Permutation (labels ++ left_out)
      (unique_clusters
         (fit_predict (clusterer_of min_cluster_size min_samples) embeddings)) /\
    StronglySorted
      (ranked_before
         (cluster_density vec kneighbors embeddings
            (fit_predict (clusterer_of min_cluster_size min_samples) embeddings)))
      (labels ++ left_out) /\
    (Z.of_nat
       (length
          (unique_clusters
             (fit_predict (clusterer_of min_cluster_size min_samples)
                embeddings)))
     <= kwarg n_clusters default_n_clusters ->
     left_out = []).
Proof.
  unfold find_dense_clusters.
  set (L := fit_predict (clusterer_of min_cluster_size min_samples) embeddings).
  destruct (select_densest_prefix embeddings L
              (kwarg n_clusters default_n_clusters)) as [k [Hrun Hk]].
  rewrite Hrun.
  set (S := sorted_desc (cluster_densities vec kneighbors embeddings L)) in *.
  exists (map fst (firstn k S)),
    (map (cluster_point_indices L) (map fst (firstn k S))),
    (map fst (skipn k S)).
  rewrite <- map_app, firstn_skipn.
  split; [reflexivity|]. split; [apply ranking_perm|].
  split; [apply ranking_sorted|].
  intros Hall.
  assert (Hlen : length S = length (unique_clusters L)).
  { unfold S. rewrite sorted_desc_length. unfold cluster_densities.
    now rewrite length_map. }
  rewrite Hk by lia. rewrite Z.min_r by lia. rewrite Nat2Z.id, <- Hlen.
  now rewrite skipn_all.
Qed.

(** X6.  A cluster of at least two points whose neighbour distances are
    not negative gets a density score that is positive and at most
    1000000 (the value reached when all its points coincide); a cluster of
    fewer than two points gets the score 0. *)
Theorem X6_density_bounds (points : list vec) :
  (2 <= length points)%nat ->
  Forall (Forall (fun d => (0 <= d)%Q))
         (kneighbors (neighbor_count vec points + 1) points) ->
  (0 < density_of_points vec kneighbors points)%Q /\
  (density_of_points vec kneighbors points <= 1000000)%Q /\
  (forall few : list vec,
     (length few <= 1)%nat -> density_of_points vec kneighbors few = 0%Q).
Proof.
  intros Hlen Hpos.
  assert (Havg : (0 <= cluster_avg_dist vec kneighbors points)%Q).
  { unfold cluster_avg_dist, avg_dist.
    now apply np_mean_nonneg, drop_self_column_nonneg. }
  rewrite (density_of_points_formula vec kneighbors points Hlen).
  set (a := cluster_avg_dist vec kneighbors points) in *.
  assert (Hden : (0 < a + (1 # 1000000))%Q).
  { apply Qlt_le_trans with (0 + (1 # 1000000))%Q; [reflexivity|].
    apply Qplus_le_compat; [exact Havg|apply Qle_refl]. }
  split; [|split].
  - apply Qlt_shift_div_l; [exact Hden|]. rewrite Qmult_0_l. reflexivity.
  - apply Qle_shift_div_r; [exact Hden|].
    apply Qle_trans with (1000000 * (0 + (1 # 1000000)))%Q;
      [apply Qle_lteq; right; reflexivity|].
    apply Qmult_le_l; [reflexivity|].
    apply Qplus_le_compat; [exact Havg|apply Qle_refl].
  - intros few Hfew. unfold density_of_points.
    destruct (0 <? neighbor_count vec few) eqn:E; [|reflexivity].
    apply Z.ltb_lt in E. unfold neighbor_count in E. lia.
Qed.

End FindDenseClusters.

End SelectionFacts.

(* ================================================================== *)
(** * [save_clusters_to_csv] and the clustering stage of [embeddings.main] *)
(* ================================================================== *)

Module ClusterFilesFacts.
Import Py PyFacts Embeddings EmbeddingsFacts SelectionFacts ClusterFiles.

Lemma traverse_map_Some {A B : Type} (f : A -> option B) (l : list A)
    (r : list B) :
  map f l = map Some r -> traverse f l = Some r.
Proof.
  revert r. induction l as [|x l IH]; intros [|y r] H; simpl in *;
    try discriminate; [reflexivity|].
  injection H as Hx Hl. now rewrite Hx, (IH r Hl).
Qed.

(** [df.iloc] on the positions a mask selects gives the masked rows. *)
Lemma iloc_rows_mask {A : Type} (df : list A) (mask : list bool) :
  length mask = length df ->
  iloc_rows df (np_where mask) = Some (mask_select mask df).
Proof.
  intros H. apply traverse_map_Some. symmetry.
  apply (mask_select_where mask df [] H).
Qed.

Lemma set_nth_nth_error {A : Type} (i j : nat) (v : A) (l : list A) :
  nth_error (CreateUnbiasedDataset.set_nth i v l) j
  = if Nat.eqb j i && Nat.ltb i (length l) then Some v else nth_error l j.
Proof.
  revert i j. induction l as [|x l IH]; intros i j.
  - destruct i, j; simpl; now rewrite ?andb_false_r.
  - destruct i as [|i], j as [|j]; simpl; try reflexivity.
    rewrite IH. reflexivity.
Qed.

Lemma fold_set_nth {A : Type} (v : A) (indices : list nat) (column : list A) :
  Forall (fun i => (i < length column)%nat) indices ->
  length (fold_left (fun col i => CreateUnbiasedDataset.set_nth i v col)
                    indices column) = length column /\
  forall j,
    nth_error (fold_left (fun col i => CreateUnbiasedDataset.set_nth i v col)
                         indices column) j
    = if existsb (Nat.eqb j) indices then Some v else nth_error column j.
Proof.
  revert column. induction indices as [|i indices IH]; intros column H;
    simpl; [now split|].
  inversion H as [|? ? Hi Hrest]; subst.
  destruct (IH (CreateUnbiasedDataset.set_nth i v column)) as [Hlen Hnth].
  { now rewrite RebalancerFacts.set_nth_length. }
  rewrite RebalancerFacts.set_nth_length in Hlen. split; [exact Hlen|].
  intros j. rewrite Hnth, set_nth_nth_error.
  destruct (existsb (Nat.eqb j) indices); [now rewrite orb_true_r|].
  rewrite orb_false_r.
  destruct (Nat.eqb j i); [|reflexivity].
  now rewrite (proj2 (Nat.ltb_lt _ _) Hi).
Qed.

Lemma loc_assign_spec (column : list Z) (indices : list nat) (value : Z) :
  Forall (fun i => (i < length column)%nat) indices ->
  exists column',
    loc_assign column indices value = Some column' /\
    length column' = length column /\
    forall j, nth_error column' j
              = if existsb (Nat.eqb j) indices then Some value
                else nth_error column j.
Proof.
  intros H. unfold loc_assign.
  assert (E : forallb (fun i => Nat.ltb i (length column)) indices = true).
  { apply forallb_forall. rewrite Forall_forall in H.
    intros i Hi. now apply Nat.ltb_lt, H. }
  rewrite E. eexists. split; [reflexivity|].
  now apply fold_set_nth.
Qed.

Lemma existsb_position (cluster_labels : list Z) (label : Z) (j : nat) (l : Z) :
  nth_error cluster_labels j = Some l ->
  existsb (Nat.eqb j) (cluster_point_indices cluster_labels label)
  = (l =? label).
Proof.
  intros E.
  destruct (l =? label) eqn:El.
  - apply Z.eqb_eq in El. subst. apply existsb_exists. exists j.
    split; [now apply cluster_point_indices_In|apply Nat.eqb_refl].
  - destruct (existsb _ _) eqn:Ex; [|reflexivity].
    apply existsb_exists in Ex. destruct Ex as [i [Hi Hij]].
    apply Nat.eqb_eq in Hij. subst i.
    apply cluster_point_indices_In in Hi.
    apply Z.eqb_neq in El. congruence.
Qed.

Lemma cluster_point_indices_bound (cluster_labels : list Z) (label : Z) :
  Forall (fun i => (i < length cluster_labels)%nat)
         (cluster_point_indices cluster_labels label).
Proof.
  rewrite Forall_forall. intros i Hi.
  apply cluster_point_indices_In in Hi.
  apply nth_error_Some. congruence.
Qed.

Lemma write_cluster_files_spec {A : Type} (df : list A)
    (cluster_labels : list Z) (labels : list Z) (i0 : Z) :
  length cluster_labels = length df ->
  write_cluster_files df
    (enumerate_from i0 (map (cluster_point_indices cluster_labels) labels))
  = Some (enumerate_from (i0 + 1)
            (map (fun label =>
                    mask_select (label_mask cluster_labels label) df)
                 labels)).
Proof.
  intros Hlen. revert i0.
  induction labels as [|l labels IH]; intros i0; simpl; [reflexivity|].
  unfold cluster_point_indices at 1.
  rewrite iloc_rows_mask by (unfold label_mask; now rewrite length_map).
  now rewrite IH.
Qed.

Lemma assign_clusters_spec (cluster_labels : list Z) (labels : list Z) :
  NoDup labels ->
  forall (i0 : Z) (column : list Z),
    length column = length cluster_labels ->
    exists column',
      assign_clusters column
        (enumerate_from i0 (map (cluster_point_indices cluster_labels) labels))
      = Some column' /\
      length column' = length column /\
      forall j l c,
        nth_error cluster_labels j = Some l ->
        nth_error column j = Some c ->
        nth_error column' j
        = Some (match rank_of l labels with
                | Some r => i0 + r
                | None => c
                end).
Proof.
  induction 1 as [|l0 labels Hl0 Hnd IH]; intros i0 column Hlen; simpl.
  - exists column. repeat split. intros j l c _ Hc. exact Hc.
  - destruct (loc_assign_spec column
                (cluster_point_indices cluster_labels l0) (i0 + 1))
      as [column1 [Hrun1 [Hlen1 Hnth1]]].
    { rewrite Hlen. apply cluster_point_indices_bound. }
    rewrite Hrun1.
    destruct (IH (i0 + 1) column1) as [column' [Hrun [Hlen' Hnth]]];
      [congruence|].
    exists column'. split; [exact Hrun|]. split; [congruence|].
    intros j l c Hl Hc.
    specialize (Hnth1 j). rewrite (existsb_position _ l0 j l Hl) in Hnth1.
    destruct (l =? l0) eqn:E.
    + apply Z.eqb_eq in E. subst l0.
      rewrite (Hnth j l (i0 + 1) Hl Hnth1).
      assert (Hnone : rank_of l labels = None).
      { clear -Hl0. induction labels as [|x labels IH]; [reflexivity|].
        simpl. destruct (l =? x) eqn:Ex.
        - apply Z.eqb_eq in Ex. subst. exfalso. apply Hl0. now left.
        - rewrite IH; [reflexivity|]. intros H. apply Hl0. now right. }
      rewrite Hnone. reflexivity.
    + rewrite Hc in Hnth1. rewrite (Hnth j l c Hl Hnth1).
      destruct (rank_of l labels) as [r|]; [|reflexivity].
      f_equal. lia.
Qed.

Lemma nth_error_repeat_Some {A : Type} (x : A) (n j : nat) :
  (j < n)%nat -> nth_error (repeat x n) j = Some x.
Proof.
  revert j. induction n as [|n IH]; intros [|j] H; simpl; try lia;
    [reflexivity|]. apply IH. lia.
Qed.

Section ClusterStage.

Variable vec : Type.
Variable fit_predict : HDBSCAN -> list vec -> list Z.
Variable kneighbors : Z -> list vec -> list (list Q).

(** X7.  In the clustering stage of [embeddings.main], when HDBSCAN labels
    every row of the data frame: if no cluster is returned nothing is
    written; otherwise the files are numbered 1, 2, ... in ranking order
    (file 1 is the densest cluster), file r holds exactly the rows that
    carry the r-th returned label, in their original order, and the
    [cluster] column of [all_clusters.csv] gives each row the rank of its
    label, or -1 when the row is noise or its cluster was not returned. *)
Theorem X7_cluster_files_by_rank {A : Type} (df : list A)
    (resume_embeddings : list vec) (n_clusters : Z) :
  length (fit_predict (clusterer_of main_min_cluster_size main_min_samples)
            resume_embeddings) = length df ->
  exists labels indices,
    find_dense_clusters vec fit_predict kneighbors resume_embeddings
      main_min_cluster_size main_min_samples (Some n_clusters)
    = Some (labels, indices) /\
    (labels = [] ->
     cluster_stage vec fit_predict kneighbors df resume_embeddings n_clusters
     = Some None) /\
    (labels <> [] ->
     exists saved,
       cluster_stage vec fit_predict kneighbors df resume_embeddings n_clusters
       = Some (Some saved) /\
       cluster_csvs saved
       = enumerate_from 1
           (map (fun label =>
                   mask_select
                     (label_mask
                        (fit_predict
                           (clusterer_of main_min_cluster_size main_min_samples)
                           resume_embeddings)
                        label)
                     df)
                labels) /\
       length (all_clusters_column saved) = length df /\
       forall j l,
         nth_error
           (fit_predict (clusterer_of main_min_cluster_size main_min_samples)
              resume_embeddings) j = Some l ->
         nth_error (all_clusters_column saved) j
         = Some (match rank_of l labels with Some r => r | None => -1 end)).
Proof.
  intros Hlen.
  set (L := fit_predict (clusterer_of main_min_cluster_size main_min_samples)
              resume_embeddings) in *.
  unfold cluster_stage, find_dense_clusters. fold L.
  destruct (select_densest_prefix vec kneighbors resume_embeddings L
              (kwarg (Some n_clusters) default_n_clusters)) as [k [Hrun _]].
  rewrite Hrun.
  set (labels := map fst (firstn k _)).
  exists labels, (map (cluster_point_indices L) labels).
  split; [reflexivity|]. split.
  - intros E. now rewrite E.
  - intros Hne.
    assert (Hnd : NoDup labels).
    { unfold labels. rewrite <- firstn_map. apply prefix_NoDup.
      eapply Permutation_NoDup; [symmetry; apply ranking_perm|].
      apply (proj1 (unique_clusters_spec vec kneighbors L)). }
    destruct (assign_clusters_spec L labels Hnd 0 (repeat (-1) (length df)))
      as [column [Hassign [Hcol Hnth]]];
      [now rewrite repeat_length|].
    rewrite repeat_length in Hcol.
    assert (Hmatch : forall (B : Type) (x y : B),
              match map (cluster_point_indices L) labels with
              | [] => x
              | _ :: _ => y
              end = y).
    { intros B x y. destruct labels; [now contradiction Hne|reflexivity]. }
    rewrite Hmatch. unfold save_clusters_to_csv.
    rewrite (write_cluster_files_spec df L labels 0 Hlen), Hassign.
    eexists. split; [reflexivity|]. cbn [cluster_csvs all_clusters_column].
    split; [reflexivity|]. split; [exact Hcol|].
    intros j l Hl.
    assert (Hj : (j < length df)%nat)
      by (rewrite <- Hlen; apply nth_error_Some; congruence).
    rewrite (Hnth j l (-1) Hl (nth_error_repeat_Some _ _ _ Hj)).
    now destruct (rank_of l labels).
Qed.

(** X8.  Whatever cluster count is requested, the pipeline runs the
    clustering with max(1, min(10, count)); when HDBSCAN labels every row
    of the data frame, the stage does not raise, it writes no cluster file
    exactly when no cluster was found, and otherwise it writes
    min(max(1, min(10, count)), clusters found) files, a number between 1
    and 10. *)
Theorem X8_pipeline_cluster_count {A : Type} (df : list A)
    (resume_embeddings : list vec) (cluster_count : Z) :
  length (fit_predict (clusterer_of main_min_cluster_size main_min_samples)
            resume_embeddings) = length df ->
  (unique_clusters
     (fit_predict (clusterer_of main_min_cluster_size main_min_samples)
        resume_embeddings) = [] /\
   pipeline_cluster_stage vec fit_predict kneighbors df resume_embeddings
     cluster_count = Some None) \/
  (exists saved,
     pipeline_cluster_stage vec fit_predict kneighbors df resume_embeddings
       cluster_count = Some (Some saved) /\
     Z.of_nat (length (cluster_csvs saved))
     = Z.min (Z.max 1 (Z.min 10 cluster_count))
         (Z.of_nat
            (length
               (unique_clusters
                  (fit_predict
                     (clusterer_of main_min_cluster_size main_min_samples)
                     resume_embeddings)))) /\
     (1 <= length (cluster_csvs saved) <= 10)%nat).
Proof.
  intros Hlen.
  set (L := fit_predict (clusterer_of main_min_cluster_size main_min_samples)
              resume_embeddings) in *.
  unfold pipeline_cluster_stage, cluster_stage, find_dense_clusters. fold L.
  set (n := clamp_cluster_count cluster_count).
  assert (Hn : 1 <= n <= 10) by (unfold n, clamp_cluster_count; lia).
  destruct (select_densest_prefix vec kneighbors resume_embeddings L
              (kwarg (Some n) default_n_clusters)) as [k [Hrun Hk]].
  rewrite Hrun. cbn [kwarg] in Hk. specialize (Hk ltac:(lia)).
  set (S := sorted_desc (cluster_densities vec kneighbors resume_embeddings L))
    in *.
  assert (HS : length S = length (unique_clusters L)).
  { unfold S. rewrite sorted_desc_length. unfold cluster_densities.
    now rewrite length_map. }
  set (labels := map fst (firstn k S)).
  assert (Hlabels : length labels = k).
  { unfold labels. rewrite length_map, length_firstn, HS. lia. }
  destruct (unique_clusters L) as [|u U] eqn:EU.
  - left. split; [reflexivity|].
    assert (E0 : labels = []).
    { apply length_zero_iff_nil. rewrite Hlabels, Hk. simpl length. lia. }
    now rewrite E0.
  - right.
    assert (Hkpos : (1 <= k <= 10)%nat) by (simpl length in Hk; lia).
    assert (Hnd : NoDup labels).
    { unfold labels. rewrite <- firstn_map. apply prefix_NoDup.
      eapply Permutation_NoDup; [symmetry; apply ranking_perm|].
      rewrite EU. rewrite <- EU.
      apply (proj1 (unique_clusters_spec vec kneighbors L)). }
    destruct (assign_clusters_spec L labels Hnd 0 (repeat (-1) (length df)))
      as [column [Hassign _]]; [now rewrite repeat_length|].
    assert (Hmatch : forall (B : Type) (x y : B),
              match map (cluster_point_indices L) labels with
              | [] => x
              | _ :: _ => y
              end = y).
    { intros B x y. destruct labels; [simpl in Hlabels; lia|reflexivity]. }
    rewrite Hmatch. unfold save_clusters_to_csv.
    rewrite (write_cluster_files_spec df L labels 0 Hlen), Hassign.
    eexists. split; [reflexivity|]. cbn [cluster_csvs].
    assert (Hfiles : forall (B : Type) (l : list B) i,
               length (enumerate_from i l) = length l).
    { intros B l. induction l as [|x l IH]; intros i; simpl; auto. }
    rewrite Hfiles, length_map, Hlabels.
    fold (clamp_cluster_count cluster_count). fold n.
    split; [|exact Hkpos]. rewrite Hk. simpl length. lia.
Qed.

End ClusterStage.

End ClusterFilesFacts.

(* ================================================================== *)
(** * [get_paginated_dataset] *)
(* ================================================================== *)

Module PaginationFacts.
Import FlaskApp.

Lemma firstn_min_length {A : Type} (n : nat) (l : list A) :
  firstn (Nat.min n (length l)) l = firstn n l.
Proof.
  destruct (Nat.le_gt_cases n (length l)) as [H|H].
  - now rewrite Nat.min_l.
  - rewrite Nat.min_r by lia. rewrite firstn_all, firstn_all2 by lia.
    reflexivity.
Qed.

(** The slice the endpoint takes is a window of [page_size] rows. *)
Lemma py_slice_window {A : Type} (a s : Z) (l : list A) :
  0 <= a -> 0 <= s ->
  py_slice a (Z.min (a + s) (Z.of_nat (length l))) l
  = firstn (Z.to_nat s) (skipn (Z.to_nat a) l).
Proof.
  intros Ha Hs. unfold py_slice.
  set (n := Z.of_nat (length l)).
  assert (Hn : 0 <= n) by (unfold n; lia).
  replace (Z.min (a + s) n <? 0) with false by (symmetry; apply Z.ltb_ge; lia).
  replace (a <? 0) with false by (symmetry; apply Z.ltb_ge; lia).
  rewrite (Z.min_l (Z.min (a + s) n) n) by lia.
  destruct (Z.le_gt_cases n a) as [Hbig|Hsmall].
  - rewrite (Z.min_r a n) by lia.
    rewrite (skipn_all2 l) by (unfold n in *; lia).
    rewrite (skipn_all2 l) by (unfold n in *; lia).
    now rewrite !firstn_nil.
  - rewrite (Z.min_l a n) by lia.
    rewrite <- (firstn_min_length (Z.to_nat s)).
    f_equal. rewrite length_skipn. unfold n in *. lia.
Qed.

Lemma firstn_add {A : Type} (a b : nat) (l : list A) :
  firstn (a + b) l = firstn a l ++ firstn b (skipn a l).
Proof.
  revert l. induction a as [|a IH]; intros l; [reflexivity|].
  destruct l as [|x l]; simpl; [now rewrite firstn_nil|].
  now rewrite IH.
Qed.

(** Consecutive windows of [s] rows rebuild the list. *)
Lemma windows_concat {A : Type} (s n : nat) (l : list A) :
  concat (map (fun i => firstn s (skipn (i * s) l)) (seq 0 n))
  = firstn (n * s) l.
Proof.
  induction n as [|n IH]; [reflexivity|].
  rewrite seq_S, map_app, concat_app, IH. simpl.
  rewrite app_nil_r, (Nat.add_comm s), firstn_add. reflexivity.
Qed.

Section Pagination.

Context {A : Type}.

(** What the endpoint computes for a positive page size. *)
Lemma get_paginated_positive (df : list A) (page_arg page_size_arg : option Z) :
  1 <= int_arg page_size_arg 100 ->
  get_paginated_dataset (Some df) page_arg page_size_arg
  = let s := Z.min (int_arg page_size_arg 100) 1000 in
    let T := Z.of_nat (length df) in
    let P := (T + s - 1) / s in
    let p := if 0 <? P then Z.max 1 (Z.min (int_arg page_arg 1) P)
             else Z.max 1 (int_arg page_arg 1) in
    Ok (mkPage T P p s
          (firstn (Z.to_nat s) (skipn (Z.to_nat ((p - 1) * s)) df))).
Proof.
  intros Hs. unfold get_paginated_dataset. cbv zeta.
  set (s := Z.min (int_arg page_size_arg 100) 1000).
  set (T := Z.of_nat (length df)).
  set (P := (T + s - 1) / s).
  set (page := int_arg page_arg 1).
  assert (Hs' : 1 <= s) by (unfold s; lia).
  assert (HP : 0 <= P) by (unfold P; apply Z.div_pos; unfold T; lia).
  replace (s =? 0) with false by (symmetry; apply Z.eqb_neq; lia).
  set (p1 := if page <? 1 then 1 else page).
  assert (Hp1 : p1 = Z.max 1 page).
  { unfold p1. destruct (page <? 1) eqn:E;
      [apply Z.ltb_lt in E|apply Z.ltb_ge in E]; lia. }
  set (p2 := if (P <? p1) && (0 <? P) then P else p1).
  assert (Hp2 : p2 = if 0 <? P then Z.max 1 (Z.min page P) else Z.max 1 page).
  { unfold p2. rewrite Hp1.
    destruct (0 <? P) eqn:E0; [apply Z.ltb_lt in E0|apply Z.ltb_ge in E0].
    - rewrite andb_true_r.
      destruct (P <? Z.max 1 page) eqn:E;
        [apply Z.ltb_lt in E|apply Z.ltb_ge in E]; lia.
    - now rewrite andb_false_r. }
  assert (Hp2pos : 1 <= p2).
  { rewrite Hp2. destruct (0 <? P); lia. }
  rewrite <- Hp2. subst T.
  rewrite py_slice_window by nia.
  reflexivity.
Qed.

(** X9.  For a readable dataset and a page size of at least 1, the
    endpoint answers with the page size capped at 1000, the number of
    pages ceil(rows / page size), a page number brought into 1..pages
    (left as it is, but at least 1, when the dataset is empty), and the
    rows of that page in order; a page has at most 1000 rows and, when
    the dataset is not empty, at least one. *)
Theorem X9_page_contents (df : list A) (page_arg page_size_arg : option Z) :
  1 <= int_arg page_size_arg 100 ->
  exists body,
    get_paginated_dataset (Some df) page_arg page_size_arg = Ok body /\
    total_records body = Z.of_nat (length df) /\
    page_size body = Z.min (int_arg page_size_arg 100) 1000 /\
    (total_pages body - 1) * page_size body < Z.of_nat (length df)
      <= total_pages body * page_size body /\
    current_page body
      = (if 0 <? total_pages body
         then Z.max 1 (Z.min (int_arg page_arg 1) (total_pages body))
         else Z.max 1 (int_arg page_arg 1)) /\
    records body
      = firstn (Z.to_nat (page_size body))
          (skipn (Z.to_nat ((current_page body - 1) * page_size body)) df) /\
    (length (records body) <= 1000)%nat /\
    (df <> [] -> records body <> []).
Proof.
  intros Hs. rewrite (get_paginated_positive df page_arg page_size_arg Hs).
  cbv zeta.
  set (s := Z.min (int_arg page_size_arg 100) 1000).
  set (T := Z.of_nat (length df)).
  set (P := (T + s - 1) / s).
  set (p := if 0 <? P then _ else _).
  assert (Hs' : 1 <= s <= 1000) by (unfold s; lia).
  assert (HT : 0 <= T) by (unfold T; lia).
  assert (Hceil : (P - 1) * s < T <= P * s).
  { unfold P.
    pose proof (Z.div_mod (T + s - 1) s ltac:(lia)) as Hdm.
    pose proof (Z.mod_pos_bound (T + s - 1) s ltac:(lia)) as Hmod.
    nia. }
  eexists. split; [reflexivity|]. cbn [total_records page_size total_pages
                                       current_page records].
  repeat split; try lia.
  - rewrite length_firstn. lia.
  - intros Hne.
    assert (HTpos : 0 < T).
    { unfold T. destruct df; [contradiction|simpl; lia]. }
    assert (HPpos : 0 < P) by nia.
    assert (Hp : 1 <= p <= P).
    { unfold p. rewrite (proj2 (Z.ltb_lt 0 P) HPpos). lia. }
    intros E. apply (f_equal (@length A)) in E.
    rewrite length_firstn, length_skipn in E. simpl in E.
    unfold T in *. nia.
Qed.

(** X10.  For a page size of at least 1, the pages 1, 2, ..., total_pages
    of a dataset, one after the other, are the dataset: every row is
    served on exactly one page, in order. *)
Theorem X10_pages_tile_dataset (df : list A) (page_size_arg : option Z) :
  1 <= int_arg page_size_arg 100 ->
  let s := Z.min (int_arg page_size_arg 100) 1000 in
  let pages := Z.to_nat ((Z.of_nat (length df) + s - 1) / s) in
  concat
    (map (fun p =>
            records_of
              (get_paginated_dataset (Some df) (Some (Z.of_nat p))
                 page_size_arg))
         (seq 1 pages))
  = df.
Proof.
  intros Hs s pages.
  set (T := Z.of_nat (length df)).
  set (P := (T + s - 1) / s).
  assert (Hs' : 1 <= s) by (unfold s; lia).
  assert (HT : 0 <= T) by (unfold T; lia).
  assert (HP : 0 <= P) by (unfold P; apply Z.div_pos; lia).
  assert (Hceil : (P - 1) * s < T <= P * s).
  { unfold P.
    pose proof (Z.div_mod (T + s - 1) s ltac:(lia)) as Hdm.
    pose proof (Z.mod_pos_bound (T + s - 1) s ltac:(lia)) as Hmod.
    nia. }
  transitivity (firstn (pages * Z.to_nat s) df);
    [|apply firstn_all2; unfold pages; fold T; fold P; unfold T in *; nia].
  rewrite <- windows_concat, <- seq_shift, map_map.
  f_equal. apply map_ext_in. intros i Hi. apply in_seq in Hi. cbv beta.
  rewrite (get_paginated_positive df (Some (Z.of_nat (S i))) page_size_arg Hs).
  cbv zeta. fold s. fold T. fold P. cbn [records_of records int_arg].
  assert (HiP : Z.of_nat (S i) <= P) by (unfold pages in Hi; fold T P in Hi; lia).
  replace (0 <? P) with true by (symmetry; apply Z.ltb_lt; lia).
  rewrite Z.min_l, Z.max_r by lia.
  f_equal. f_equal. nia.
Qed.

(** X11.  An endpoint over a dataset file fails in exactly three cases:
    with 404 when the file is missing, and with 500 when the file cannot
    be read or when the page size asked for is 0; in particular a negative
    page size is answered, not refused. *)
Theorem X11_endpoint_errors (file : csv_file A) (page_arg page_size_arg : option Z) :
  (file = Missing ->
   dataset_endpoint file page_arg page_size_arg = Error 404) /\
  (file = Unreadable ->
   dataset_endpoint file page_arg page_size_arg = Error 500) /\
  (forall rows, file = Csv rows ->
     (int_arg page_size_arg 100 = 0 ->
      dataset_endpoint file page_arg page_size_arg = Error 500) /\
     (int_arg page_size_arg 100 <> 0 ->
      exists body, dataset_endpoint file page_arg page_size_arg = Ok body)).
Proof.
  repeat split.
  - now intros ->.
  - now intros ->.
  - subst file. intros E. unfold dataset_endpoint, get_paginated_dataset.
    now rewrite E.
  - subst file. intros Hne. unfold dataset_endpoint, get_paginated_dataset.
    cbv zeta.
    destruct (Z.min (int_arg page_size_arg 100) 1000 =? 0) eqn:E.
    + apply Z.eqb_eq in E. lia.
    + eexists. reflexivity.
Qed.

(** X12.  The cap of 1000 rows per answer does not hold for a negative
    page size: asked for page_size = -k with 1 <= k < rows (and a page
    number of at most 1, or none), the endpoint answers with all the rows
    but the last k. *)
Theorem X12_negative_page_size (df : list A) (page_arg : option Z) (k : Z) :
  1 <= k < Z.of_nat (length df) ->
  int_arg page_arg 1 <= 1 ->
  exists body,
    get_paginated_dataset (Some df) page_arg (Some (- k)) = Ok body /\
    records body = firstn (length df - Z.to_nat k) df /\
    Z.of_nat (length (records body)) = Z.of_nat (length df) - k /\
    total_pages body <= 0.
Proof.
  intros Hk Hpage. unfold get_paginated_dataset. cbv zeta. cbn [int_arg].
  set (T := Z.of_nat (length df)) in *.
  rewrite (Z.min_l (- k) 1000) by lia.
  replace (- k =? 0) with false by (symmetry; apply Z.eqb_neq; lia).
  set (P := (T + - k - 1) / - k).
  assert (HP : P <= 0).
  { unfold P.
    pose proof (Z.div_mod (T + - k - 1) (- k) ltac:(lia)) as Hdm.
    pose proof (Z.mod_neg_bound (T + - k - 1) (- k) ltac:(lia)) as Hmod.
    nia. }
  set (p1 := if int_arg page_arg 1 <? 1 then 1 else int_arg page_arg 1).
  assert (Hp1 : p1 = 1).
  { unfold p1. destruct (int_arg page_arg 1 <? 1) eqn:E;
      [reflexivity|apply Z.ltb_ge in E; lia]. }
  rewrite Hp1.
  replace ((P <? 1) && (0 <? P)) with false
    by (symmetry; apply andb_false_iff; right; apply Z.ltb_ge; lia).
  eexists. split; [reflexivity|]. cbn [records total_pages].
  assert (Hrec : py_slice ((1 - 1) * - k) (Z.min ((1 - 1) * - k + - k) T) df
                 = firstn (length df - Z.to_nat k) df).
  { unfold py_slice. fold T. simpl Z.mul. rewrite Z.add_0_l.
    rewrite (Z.min_l (- k) T) by lia.
    replace (- k <? 0) with true by (symmetry; apply Z.ltb_lt; lia).
    replace (0 <? 0) with false by reflexivity.
    rewrite (Z.min_l 0 T), (Z.max_l (- k + T) 0) by lia.
    simpl skipn. f_equal. unfold T. lia. }
  rewrite Hrec. repeat split; [|exact HP].
  rewrite length_firstn. unfold T in *. lia.
Qed.

End Pagination.

End PaginationFacts.

(* ================================================================== *)
(** * Cluster embeddings and the exported cluster column *)
(* ================================================================== *)

Module ClusterExportFacts.
Import Py PyFacts Np CreateUnbiasedDataset Rebalancing ClusterFiles
  ClusterExport.

(** ** Indexing the embedding matrix *)

Lemma enumerate_from_fst {A : Type} (l : list A) (i : Z) :
  map fst (enumerate_from i l)
  = map (fun k => i + Z.of_nat k) (seq 0 (length l)).
Proof.
  revert i. induction l as [|x l IH]; intros i; simpl; [reflexivity|].
  f_equal; [lia|]. rewrite IH, <- seq_shift, map_map.
  apply map_ext. intros k. lia.
Qed.

Lemma enumerate_from_snd {A : Type} (l : list A) (i : Z) :
  map snd (enumerate_from i l) = l.
Proof.
  revert i. induction l as [|x l IH]; intros i; simpl; [reflexivity|].
  now rewrite IH.
Qed.

Lemma traverse_items {A B : Type} (f : A -> option B) (l : list A)
    (r : list B) :
  traverse f l = Some r -> map f l = map Some r.
Proof.
  revert r. induction l as [|x l IH]; intros r H; simpl in H.
  - now injection H as <-.
  - destruct (f x) eqn:Ex; [|discriminate].
    destruct (traverse f l) eqn:E; [|discriminate].
    injection H as <-. simpl. now rewrite Ex, (IH l0).
Qed.

Lemma traverse_raises {A B : Type} (f : A -> option B) (l : list A) :
  Exists (fun x => f x = None) l -> traverse f l = None.
Proof.
  induction 1 as [x l Hx|x l _ IH]; simpl.
  - now rewrite Hx.
  - rewrite IH. now destruct (f x).
Qed.

Lemma traverse_returns {A B : Type} (f : A -> option B) (l : list A) :
  Forall (fun x => f x <> None) l -> exists r, traverse f l = Some r.
Proof.
  induction 1 as [|x l Hx _ [r IH]]; simpl.
  - now exists [].
  - destruct (f x) as [y|] eqn:E; [|congruence].
    rewrite IH. now exists (y :: r).
Qed.

Lemma np_item_in_bounds {B : Type} (a : list B) (idx : Z) :
  - Z.of_nat (length a) <= idx < Z.of_nat (length a) ->
  np_item a idx = nth_error a (row_position (length a) idx) /\
  np_item a idx <> None.
Proof.
  intros H. unfold np_item, row_position. cbv zeta.
  destruct (idx <? 0) eqn:E.
  - apply Z.ltb_lt in E.
    replace (0 <=? idx) with false by (symmetry; apply Z.leb_gt; lia).
    replace (- Z.of_nat (length a) <=? idx) with true
      by (symmetry; apply Z.leb_le; lia).
    simpl. split; [reflexivity|]. apply nth_error_Some. lia.
  - apply Z.ltb_ge in E.
    replace (0 <=? idx) with true by (symmetry; apply Z.leb_le; lia).
    replace (idx <? Z.of_nat (length a)) with true
      by (symmetry; apply Z.ltb_lt; lia).
    simpl. split; [reflexivity|]. apply nth_error_Some. lia.
Qed.

Lemma np_item_out_of_bounds {B : Type} (a : list B) (idx : Z) :
  idx < - Z.of_nat (length a) -> np_item a idx = None.
Proof.
  intros H. unfold np_item. cbv zeta.
  replace (0 <=? idx) with false by (symmetry; apply Z.leb_gt; lia).
  replace (- Z.of_nat (length a) <=? idx) with false
    by (symmetry; apply Z.leb_gt; lia).
  reflexivity.
Qed.

Lemma saved_entries_spec (cluster_num : Z) (valid_indices : list Z)
    (cluster_embeddings : matrix) :
  length cluster_embeddings = length valid_indices ->
  let entries := saved_entries cluster_num valid_indices cluster_embeddings in
  map saved_id entries = map Z.of_nat (seq 0 (length valid_indices)) /\
  map saved_resume_id entries = valid_indices /\
  map saved_embedding entries = cluster_embeddings /\
  Forall (fun e => saved_cluster_id e = cluster_num) entries.
Proof.
  intros Hlen entries. subst entries. unfold saved_entries.
  assert (Hc : length (combine valid_indices cluster_embeddings)
               = length valid_indices)
    by (rewrite length_combine; lia).
  repeat split.
  - rewrite map_map.
    change (fun x : Z * (Z * vector) =>
              saved_id (mkSavedEntry (fst x) (fst (snd x)) cluster_num
                                     (snd (snd x))))
      with (fun x : Z * (Z * vector) => fst x).
    rewrite enumerate_from_fst, Hc. apply map_ext. intros k. lia.
  - rewrite map_map.
    change (fun x : Z * (Z * vector) =>
              saved_resume_id (mkSavedEntry (fst x) (fst (snd x)) cluster_num
                                            (snd (snd x))))
      with (fun x : Z * (Z * vector) => fst (snd x)).
    rewrite <- (map_map snd fst), enumerate_from_snd.
    clear Hc. revert cluster_embeddings Hlen.
    induction valid_indices as [|i l IH]; intros [|e es] H; simpl in *;
      try discriminate; [reflexivity|].
    f_equal. apply IH. lia.
  - rewrite map_map.
    change (fun x : Z * (Z * vector) =>
              saved_embedding (mkSavedEntry (fst x) (fst (snd x)) cluster_num
                                            (snd (snd x))))
      with (fun x : Z * (Z * vector) => snd (snd x)).
    rewrite <- (map_map snd snd), enumerate_from_snd.
    clear Hc. revert cluster_embeddings Hlen.
    induction valid_indices as [|i l IH]; intros [|e es] H; simpl in *;
      try discriminate; [reflexivity|].
    f_equal. apply IH. lia.
  - apply Forall_map. apply Forall_forall. intros x _. reflexivity.
Qed.

(** What a call that gets as far as the JSON file writes. *)
Lemma save_cluster_embeddings_written (principal_axes : matrix -> matrix)
    (all_embeddings : matrix) (cluster_df : cluster_frame) (cluster_num : Z)
    (valid_indices : list Z) :
  valid_indices
  = filter (fun idx => idx <? Z.of_nat (length all_embeddings))
           (resume_indices cluster_df) ->
  valid_indices <> [] ->
  Forall (fun idx => - Z.of_nat (length all_embeddings) <= idx)
         valid_indices ->
  exists cluster_embeddings,
    np_take all_embeddings valid_indices = Some cluster_embeddings /\
    json_written (save_cluster_embeddings principal_axes (Some all_embeddings)
                    cluster_df cluster_num)
    = Some (mkJson cluster_num (Z.of_nat (length valid_indices))
              (saved_entries cluster_num valid_indices cluster_embeddings)).
Proof.
  intros Hvalid Hne Hlow.
  assert (Hin : Forall (fun idx => - Z.of_nat (length all_embeddings) <= idx
                                   < Z.of_nat (length all_embeddings))
                       valid_indices).
  { apply Forall_forall. intros idx Hidx.
    split; [exact (proj1 (Forall_forall _ _) Hlow idx Hidx)|].
    rewrite Hvalid in Hidx. apply filter_In in Hidx.
    now apply Z.ltb_lt. }
  destruct (traverse_returns (np_item all_embeddings) valid_indices)
    as [cluster_embeddings Htake].
  { eapply Forall_impl; [|exact Hin]. intros idx H.
    exact (proj2 (np_item_in_bounds all_embeddings idx H)). }
  exists cluster_embeddings. split; [exact Htake|].
  unfold save_cluster_embeddings. cbv zeta. rewrite <- Hvalid.
  destruct valid_indices as [|i l]; [congruence|].
  unfold np_take. rewrite Htake.
  now destruct (ClusterAnalysis.embeddings_6d _ _).
Qed.

(** X13.  [save_cluster_embeddings] keeps the resume indices below the
    number N of embedding rows.  With none left it writes nothing; an
    index below -N raises before anything is written; otherwise the JSON
    file is written (whether or not the later reduction raises) with one
    entry per kept index, in order: entry i has id i, that index as resume
    id, the cluster number, and the embedding row the index names, a
    negative index counting from the last row. *)
Theorem X13_saved_cluster_entries (principal_axes : matrix -> matrix)
    (all_embeddings : matrix) (cluster_df : cluster_frame) (cluster_num : Z) :
  let N := Z.of_nat (length all_embeddings) in
  let valid_indices :=
    filter (fun idx => idx <? N) (resume_indices cluster_df) in
  let result :=
    save_cluster_embeddings principal_axes (Some all_embeddings) cluster_df
                            cluster_num in
  (valid_indices = [] -> result = NoValidIndices) /\
  (Exists (fun idx => idx < - N) valid_indices -> result = IndexingRaised) /\
  (valid_indices <> [] -> Forall (fun idx => - N <= idx) valid_indices ->
   exists json,
     json_written result = Some json /\
     json_cluster_id json = cluster_num /\
     total_embeddings json = Z.of_nat (length valid_indices) /\
     map saved_id (json_embeddings json)
       = map Z.of_nat (seq 0 (length valid_indices)) /\
     map saved_resume_id (json_embeddings json) = valid_indices /\
     Forall (fun e => saved_cluster_id e = cluster_num)
            (json_embeddings json) /\
     map Some (map saved_embedding (json_embeddings json))
       = map (fun idx =>
                nth_error all_embeddings
                          (row_position (length all_embeddings) idx))
             valid_indices).
Proof.
  intros N valid_indices result. repeat split.
  - intros E. unfold result, save_cluster_embeddings. cbv zeta.
    fold N. fold valid_indices. now rewrite E.
  - intros Hex. unfold result, save_cluster_embeddings. cbv zeta.
    fold N. fold valid_indices.
    destruct valid_indices as [|i l] eqn:E; [inversion Hex|].
    unfold np_take. rewrite traverse_raises; [reflexivity|].
    eapply Exists_impl; [|exact Hex]. intros idx H.
    now apply np_item_out_of_bounds.
  - intros Hne Hlow.
    destruct (save_cluster_embeddings_written principal_axes all_embeddings
                cluster_df cluster_num valid_indices eq_refl Hne Hlow)
      as [cluster_embeddings [Htake Hjson]].
    eexists. split; [exact Hjson|]. cbn [json_cluster_id total_embeddings
                                           json_embeddings].
    pose proof (traverse_length _ _ _ Htake) as Hlen.
    destruct (saved_entries_spec cluster_num valid_indices cluster_embeddings
                Hlen) as [Hid [Hrid [Hemb Hcl]]].
    repeat split; try assumption.
    rewrite Hemb, <- (traverse_items _ _ _ Htake).
    apply map_ext_in. intros idx Hidx.
    apply np_item_in_bounds. split.
    + exact (proj1 (Forall_forall _ _) Hlow idx Hidx).
    + apply filter_In in Hidx. now apply Z.ltb_lt.
Qed.

(** ** Cluster files without an index column *)

Lemma filter_range_index (n N : nat) :
  filter (fun idx => idx <? Z.of_nat N) (map Z.of_nat (seq 0 n))
  = map Z.of_nat (seq 0 (Nat.min n N)).
Proof.
  induction n as [|n IH]; [reflexivity|].
  rewrite seq_S, map_app, filter_app, IH, Nat.add_0_l. cbn [map filter].
  destruct (Z.of_nat n <? Z.of_nat N) eqn:E.
  - apply Z.ltb_lt in E.
    replace (Nat.min (S n) N) with (S (Nat.min n N)) by lia.
    rewrite seq_S, map_app, Nat.add_0_l. cbn [map].
    replace (Nat.min n N) with n by lia. reflexivity.
  - apply Z.ltb_ge in E. rewrite app_nil_r.
    replace (Nat.min (S n) N) with (Nat.min n N) by lia. reflexivity.
Qed.

Lemma firstn_by_position {B : Type} (l : list B) (m : nat) :
  (m <= length l)%nat ->
  map (nth_error l) (seq 0 m) = map Some (firstn m l).
Proof.
  revert m. induction l as [|x l IH]; intros [|m] H; simpl in *;
    try reflexivity; try lia.
  f_equal. rewrite <- seq_shift, map_map. simpl. apply IH. lia.
Qed.

Lemma map_Some_injective {B : Type} (a b : list B) :
  map Some a = map Some b -> a = b.
Proof.
  revert b. induction a as [|x a IH]; intros [|y b] H; simpl in H;
    try discriminate; [reflexivity|].
  injection H as -> H. f_equal. now apply IH.
Qed.

Lemma range_index_NoDup (m : nat) : NoDup (map Z.of_nat (seq 0 m)).
Proof.
  apply Finite.Injective_map_NoDup; [|apply seq_NoDup].
  intros a b. apply Nat2Z.inj.
Qed.

Lemma range_index_In (m : nat) (x : Z) :
  In x (map Z.of_nat (seq 0 m)) <-> 0 <= x < Z.of_nat m.
Proof.
  rewrite in_map_iff. split.
  - intros [k [<- Hk]]. apply in_seq in Hk. lia.
  - intros H. exists (Z.to_nat x). split; [lia|]. apply in_seq. lia.
Qed.

(** The JSON file written for a cluster file that has a [RangeIndex] only. *)
Lemma range_index_written (principal_axes : matrix -> matrix)
    (all_embeddings : matrix) (n : nat) (cluster_num : Z) :
  (1 <= n)%nat -> (1 <= length all_embeddings)%nat ->
  exists json,
    json_written (save_cluster_embeddings principal_axes (Some all_embeddings)
                    (read_cluster_csv n None) cluster_num) = Some json /\
    map saved_resume_id (json_embeddings json)
      = map Z.of_nat (seq 0 (Nat.min n (length all_embeddings))) /\
    map saved_embedding (json_embeddings json)
      = firstn (Nat.min n (length all_embeddings)) all_embeddings.
Proof.
  intros Hn HN.
  set (m := Nat.min n (length all_embeddings)).
  assert (Hvalid : map Z.of_nat (seq 0 m)
                   = filter (fun idx => idx <? Z.of_nat (length all_embeddings))
                            (resume_indices (read_cluster_csv n None)))
    by (symmetry; apply filter_range_index).
  destruct (save_cluster_embeddings_written principal_axes all_embeddings
              (read_cluster_csv n None) cluster_num (map Z.of_nat (seq 0 m))
              Hvalid)
    as [cluster_embeddings [Htake Hjson]].
  { destruct m as [|m'] eqn:E; [unfold m in E; lia|discriminate]. }
  { apply Forall_forall. intros idx Hidx. apply range_index_In in Hidx. lia. }
  eexists. split; [exact Hjson|]. cbn [json_embeddings].
  pose proof (traverse_length _ _ _ Htake) as Hlen.
  destruct (saved_entries_spec cluster_num (map Z.of_nat (seq 0 m))
              cluster_embeddings Hlen) as [_ [Hrid [Hemb _]]].
  split; [exact Hrid|]. rewrite Hemb.
  apply map_Some_injective.
  rewrite <- (traverse_items _ _ _ Htake), <- firstn_by_position
    by (unfold m; lia).
  rewrite map_map. apply map_ext_in. intros k Hk. apply in_seq in Hk.
  destruct (np_item_in_bounds all_embeddings (Z.of_nat k)) as [E _];
    [unfold m in Hk; lia|].
  rewrite E. unfold row_position.
  replace (Z.of_nat k <? 0) with false by (symmetry; apply Z.ltb_ge; lia).
  now rewrite Nat2Z.id.
Qed.

Section Rebalancer.

Variable rng : Type.
Variable seed_state : Z -> rng.
Variable sample_from : rng -> list Z -> nat -> list Z * rng.
Variable list_of_set : list Z -> list Z.

(** [random.sample] draws [k] distinct elements of the population. *)
Hypothesis sample_without_replacement :
  forall s population k,
    (k <= length population)%nat -> NoDup population ->
    length (fst (sample_from s population k)) = k /\
    NoDup (fst (sample_from s population k)) /\
    incl (fst (sample_from s population k)) population.

(** [list(set(l))] lists each element of [l] once. *)
Hypothesis list_of_set_distinct :
  forall l, NoDup (list_of_set l) /\
            forall x, In x (list_of_set l) <-> In x l.

Lemma list_of_set_length_le (l : list Z) :
  (length (list_of_set l) <= length l)%nat.
Proof.
  destruct (list_of_set_distinct l) as [Hnd Hin].
  apply NoDup_incl_length; [exact Hnd|]. intros x. apply Hin.
Qed.

Lemma list_of_set_length_distinct (l : list Z) :
  NoDup l -> length (list_of_set l) = length l.
Proof.
  intros Hl. destruct (list_of_set_distinct l) as [Hnd Hin].
  apply Permutation_length, NoDup_Permutation; assumption.
Qed.

Lemma cluster_removals_drawn (data : embeddings_data) :
  length (cluster_removals rng seed_state sample_from list_of_set data)
    = (member_count list_of_set data / 2)%nat /\
  NoDup (cluster_removals rng seed_state sample_from list_of_set data) /\
  incl (cluster_removals rng seed_state sample_from list_of_set data)
       (map resume_id data).
Proof.
  unfold cluster_removals, member_count, members.
  destruct (list_of_set_distinct (map resume_id data)) as [Hnd Hin].
  destruct (sample_without_replacement (seed_state 42)
              (list_of_set (map resume_id data))
              (length (list_of_set (map resume_id data)) / 2))
    as [Hlen [Hnd' Hincl]]; [|exact Hnd|].
  { apply Nat.Div0.div_le_upper_bound. lia. }
  repeat split; try assumption.
  intros x Hx. apply Hin, Hincl, Hx.
Qed.

(** X14.  A cluster file without an ['Unnamed: 0'] column carries no trace
    of the rows its members had in the dataset: for such a file of n >= 1
    rows and N >= 1 embedding rows, with m = min(n, N),
    [save_cluster_embeddings] writes the resume ids 0 .. m-1 with the first
    m rows of the embedding matrix, and from that file the rebalancer
    selects floor(m / 2) distinct ids, all among 0 .. m-1. *)
Theorem X14_range_index_cluster (principal_axes : matrix -> matrix)
    (all_embeddings : matrix) (n : nat) (cluster_num : Z) (s : rng) :
  (1 <= n)%nat -> (1 <= length all_embeddings)%nat ->
  let m := Nat.min n (length all_embeddings) in
  exists json,
    json_written (save_cluster_embeddings principal_axes (Some all_embeddings)
                    (read_cluster_csv n None) cluster_num) = Some json /\
    map saved_resume_id (json_embeddings json) = map Z.of_nat (seq 0 m) /\
    map saved_embedding (json_embeddings json) = firstn m all_embeddings /\
    exists resume_ids_to_remove,
      fst (select_for_cluster rng seed_state sample_from list_of_set
             (load_embeddings_data json) s)
        = (resume_ids_to_remove, (m / 2)%nat) /\
      length resume_ids_to_remove = (m / 2)%nat /\
      NoDup resume_ids_to_remove /\
      Forall (fun idx => 0 <= idx < Z.of_nat m) resume_ids_to_remove.
Proof.
  intros Hn HN m.
  destruct (range_index_written principal_axes all_embeddings n cluster_num
              Hn HN) as [json [Hjson [Hrid Hemb]]].
  fold m in Hrid, Hemb.
  exists json. repeat split; try assumption.
  assert (Hids : map resume_id (load_embeddings_data json)
                 = map Z.of_nat (seq 0 m)).
  { unfold load_embeddings_data. rewrite map_map. exact Hrid. }
  assert (Hcount : member_count list_of_set (load_embeddings_data json) = m).
  { unfold member_count, members. rewrite Hids.
    rewrite list_of_set_length_distinct by apply range_index_NoDup.
    now rewrite length_map, length_seq. }
  destruct (cluster_removals_drawn (load_embeddings_data json))
    as [Hlen [Hnd Hincl]].
  rewrite Hcount in Hlen. rewrite Hids in Hincl.
  exists (cluster_removals rng seed_state sample_from list_of_set
            (load_embeddings_data json)).
  repeat split; try assumption.
  - rewrite RebalancerFacts.select_for_cluster_reseeded. simpl.
    now rewrite Hcount.
  - apply Forall_forall. intros idx Hidx.
    apply range_index_In, Hincl, Hidx.
Qed.

(** X17.  Whatever the cluster files hold, the rebalancer never counts
    more than half of a cluster's entries as removed, so the number it
    reports as remaining is at least the number removed; and the removal
    set is no larger than the sum of the per-cluster counts. *)
Theorem X17_at_most_half_removed
    (cluster_embeddings_map : list (Z * embeddings_data)) (s : rng) :
  let result :=
    fst (select_removals rng seed_state sample_from list_of_set
           cluster_embeddings_map s) in
  Forall2 (fun cd count =>
             fst count = fst cd /\
             (2 * snd count <= length (snd cd))%nat /\
             Z.of_nat (snd count) <= remaining (snd cd) (snd count))
          cluster_embeddings_map (snd result) /\
  (length (fst result) <= list_sum (map snd (snd result)))%nat.
Proof.
  intros result. unfold result.
  rewrite RebalancerFacts.select_removals_run. cbn [fst snd]. split.
  - induction cluster_embeddings_map as [|[c data] rest IH]; cbn [map];
      constructor; [|exact IH].
    cbn [fst snd]. unfold remaining.
    assert (H : (member_count list_of_set data <= length data)%nat).
    { unfold member_count, members.
      etransitivity; [apply list_of_set_length_le|]. now rewrite length_map. }
    pose proof (Nat.Div0.mul_div_le (member_count list_of_set data) 2) as Hq.
    generalize dependent (member_count list_of_set data / 2)%nat.
    intros q Hq. repeat split; lia.
  - etransitivity; [apply list_of_set_length_le|].
    induction cluster_embeddings_map as [|[c data] rest IH];
      cbn [map concat list_sum fold_right fst snd length]; [lia|].
    rewrite length_app.
    destruct (cluster_removals_drawn data) as [Hlen _].
    rewrite Hlen.
    generalize dependent (member_count list_of_set data / 2)%nat.
    intros q _. unfold list_sum in IH. lia.
Qed.

End Rebalancer.

(** ** The exported cluster column *)

Lemma dict_set_get (k v i : Z) (d : list (Z * Z)) :
  dict_get i (dict_set k v d) = if i =? k then Some v else dict_get i d.
Proof.
  induction d as [|[k' v'] d IH]; simpl.
  - reflexivity.
  - destruct (k =? k') eqn:E; simpl.
    + apply Z.eqb_eq in E. subst k'. now destruct (i =? k).
    + rewrite IH. destruct (i =? k') eqn:E'; [|reflexivity].
      apply Z.eqb_eq in E'. subst k'.
      replace (i =? k) with false; [reflexivity|].
      symmetry. apply Z.eqb_neq. apply Z.eqb_neq in E. congruence.
Qed.

Lemma map_indices_get (c i : Z) (indices : list Z) (m : list (Z * Z)) :
  dict_get i (fold_left (fun m idx => dict_set idx c m) indices m)
  = if existsb (Z.eqb i) indices then Some c else dict_get i m.
Proof.
  revert m. induction indices as [|x l IH]; intros m; simpl; [reflexivity|].
  rewrite IH, dict_set_get.
  destruct (i =? x); simpl; [now destruct (existsb _ l)|reflexivity].
Qed.

Lemma existsb_eqb_In (i : Z) (l : list Z) :
  existsb (Z.eqb i) l = true <-> In i l.
Proof.
  rewrite existsb_exists. split.
  - intros [x [Hx E]]. apply Z.eqb_eq in E. now subst.
  - intros H. exists i. split; [exact H|apply Z.eqb_refl].
Qed.

Lemma map_file_get (i : Z) (file : Z * cluster_frame) (m : list (Z * Z)) :
  (In i (resume_indices (snd file)) ->
   dict_get i (map_file m file) = Some (fst file)) /\
  (~ In i (resume_indices (snd file)) ->
   dict_get i (map_file m file) = dict_get i m).
Proof.
  unfold map_file. rewrite map_indices_get.
  destruct (existsb (Z.eqb i) (resume_indices (snd file))) eqn:E.
  - apply existsb_eqb_In in E. split; [reflexivity|tauto].
  - split; [|reflexivity]. intros H. apply existsb_eqb_In in H. congruence.
Qed.

Lemma map_files_untouched (i : Z) (files : list (Z * cluster_frame))
    (m : list (Z * Z)) :
  (forall file, In file files -> ~ In i (resume_indices (snd file))) ->
  dict_get i (fold_left map_file files m) = dict_get i m.
Proof.
  revert m. induction files as [|file files IH]; intros m H; simpl;
    [reflexivity|].
  rewrite IH by (intros g Hg; apply H; now right).
  apply map_file_get, H. now left.
Qed.

Lemma map_files_last (i c : Z) (f : cluster_frame)
    (pre post : list (Z * cluster_frame)) :
  In i (resume_indices f) ->
  (forall file, In file post -> ~ In i (resume_indices (snd file))) ->
  dict_get i (build_cluster_mapping (pre ++ (c, f) :: post)) = Some c.
Proof.
  intros Hin Hpost. unfold build_cluster_mapping.
  rewrite fold_left_app. simpl.
  rewrite map_files_untouched by exact Hpost.
  now apply (map_file_get i (c, f)).
Qed.

Lemma cluster_column_row (m : list (Z * Z)) (n_rows i : nat) :
  (i < n_rows)%nat ->
  nth_error (cluster_column m n_rows) i
  = Some match dict_get (Z.of_nat i) m with
         | Some cluster_num => cluster_num
         | None => -1
         end.
Proof.
  intros H. unfold cluster_column.
  rewrite nth_error_map, nth_error_seq.
  replace (i <? n_rows)%nat with true by (symmetry; now apply Nat.ltb_lt).
  reflexivity.
Qed.

(** X15.  In the frame [export_complete_dataset] returns for a dataset of
    n rows, the cluster column has n entries; row i carries the number of
    the last cluster file, in the order the files are processed, whose
    index list contains i, and -1 when no file's list contains it. *)
Theorem X15_export_last_file_wins (cluster_files : list (Z * cluster_frame))
    (n_rows i : nat) :
  (i < n_rows)%nat ->
  exists column,
    export_complete_dataset cluster_files (Some n_rows) = Some column /\
    length column = n_rows /\
    ((forall file, In file cluster_files ->
                   ~ In (Z.of_nat i) (resume_indices (snd file))) ->
     nth_error column i = Some (-1)) /\
    (forall pre c f post,
       cluster_files = pre ++ (c, f) :: post ->
       In (Z.of_nat i) (resume_indices f) ->
       (forall file, In file post ->
                     ~ In (Z.of_nat i) (resume_indices (snd file))) ->
       nth_error column i = Some c).
Proof.
  intros Hi. eexists. split; [reflexivity|]. repeat split.
  - unfold cluster_column. now rewrite length_map, length_seq.
  - intros Hnone. rewrite cluster_column_row by exact Hi.
    unfold build_cluster_mapping.
    now rewrite map_files_untouched by exact Hnone.
  - intros pre c f post -> Hin Hpost.
    rewrite cluster_column_row by exact Hi.
    now rewrite (map_files_last _ c f pre post Hin Hpost).
Qed.

Lemma range_index_files_In (sizes : list (Z * nat))
    (file : Z * cluster_frame) (i : nat) :
  In file (range_index_files sizes) ->
  In (Z.of_nat i) (resume_indices (snd file)) ->
  exists cn, In cn sizes /\ (i < snd cn)%nat.
Proof.
  unfold range_index_files. intros Hfile Hin.
  apply in_map_iff in Hfile. destruct Hfile as [cn [<- Hcn]].
  exists cn. split; [exact Hcn|].
  simpl in Hin. apply range_index_In in Hin. lia.
Qed.

(** X16.  When the cluster files have no ['Unnamed: 0'] column, the
    exported cluster column depends on the files' row counts only: row i
    carries the number of the last file with more than i rows, and -1 from
    the largest row count on. *)
Theorem X16_export_by_row_count (sizes : list (Z * nat)) (n_rows i : nat) :
  (i < n_rows)%nat ->
  exists column,
    export_complete_dataset (range_index_files sizes) (Some n_rows)
      = Some column /\
    ((forall cn, In cn sizes -> (snd cn <= i)%nat) ->
     nth_error column i = Some (-1)) /\
    (forall pre c n post,
       sizes = pre ++ (c, n) :: post ->
       (i < n)%nat ->
       (forall cn, In cn post -> (snd cn <= i)%nat) ->
       nth_error column i = Some c).
Proof.
  intros Hi. eexists. split; [reflexivity|]. split.
  - intros Hsmall. rewrite cluster_column_row by exact Hi.
    unfold build_cluster_mapping. rewrite map_files_untouched; [reflexivity|].
    intros file Hfile Hin.
    destruct (range_index_files_In sizes file i Hfile Hin) as [cn [Hcn Hlt]].
    specialize (Hsmall cn Hcn). lia.
  - intros pre c n post -> Hlt Hpost.
    rewrite cluster_column_row by exact Hi.
    unfold range_index_files. rewrite map_app. simpl.
    rewrite (map_files_last (Z.of_nat i) c (read_cluster_csv n None));
      [reflexivity| |].
    + simpl. apply range_index_In. lia.
    + intros file Hfile Hin.
      destruct (range_index_files_In post file i Hfile Hin) as [cn [Hcn Hlt']].
      specialize (Hpost cn Hcn). lia.
Qed.

End ClusterExportFacts.

(* ================================================================== *)
(** * The markers of a pipeline run and the job status *)
(* ================================================================== *)

Module PipelineFacts.
Import Pipeline.

(** X18.  For a job whose upload directory exists, [main] always returns
    and leaves exactly one marker, so the status endpoint never reports a
    finished run as processing (as it does before the run, when there is
    no marker); the status is completed exactly when the three stages
    returned and neither the embeddings stage nor the rebalancer returned
    without a value, and failed otherwise.  Without the directory a run
    that has to touch a marker ends with the exception. *)
Theorem X18_job_status_after_run (r : run) :
  job_id_given r = true ->
  get_job_status (job_dir_exists r) [] <> StatusCompleted /\
  get_job_status (job_dir_exists r) [] <> StatusFailed /\
  (job_dir_exists r = false -> main r = Raises) /\
  (job_dir_exists r = true ->
   exists m,
     main r = Returns [m] /\
     get_job_status true [m]
       = match m with Completed => StatusCompleted | Failed => StatusFailed end /\
     (m = Completed <->
      embeddings_stage r = Returns true /\
      cluster_analysis_stage r = Returns tt /\
      unbiasing_stage r = Returns true)).
Proof.
  intros Hjob. repeat split.
  - unfold get_job_status. destruct (job_dir_exists r); discriminate.
  - unfold get_job_status. destruct (job_dir_exists r); discriminate.
  - intros Hdir. unfold main, try_body, touch. rewrite Hjob, Hdir.
    destruct (embeddings_stage r) as [[|]|]; try reflexivity.
    destruct (cluster_analysis_stage r) as [[]|]; try reflexivity.
    destruct (unbiasing_stage r) as [[|]|]; reflexivity.
  - intros Hdir. unfold main, try_body, touch. rewrite Hjob, Hdir.
    destruct (embeddings_stage r) as [[|]|];
      [|exists Failed; repeat split; try reflexivity;
        try discriminate; intros [H _]; discriminate..].
    destruct (cluster_analysis_stage r) as [[]|];
      [|exists Failed; repeat split; try reflexivity;
        try discriminate; intros [_ [H _]]; discriminate].
    destruct (unbiasing_stage r) as [[|]|];
      [exists Completed; repeat split; reflexivity
      |exists Failed; repeat split; try reflexivity;
       try discriminate; intros [_ [_ H]]; discriminate..].
Qed.

End PipelineFacts.

(* ================================================================== *)
(** * Records and embeddings after the split *)
(* ================================================================== *)

Module AlignmentFacts.
Import Py PyFacts CreateUnbiasedDataset Rebalancing Splitting.

Lemma combine_nil_r {A B : Type} (l : list A) : combine l (@nil B) = [].
Proof. now destruct l. Qed.

Lemma mask_select_combine {A B : Type} (mask : list bool) (a : list A)
    (b : list B) :
  mask_select mask (combine a b)
  = combine (mask_select mask a) (mask_select mask b).
Proof.
  revert a b. induction mask as [|m mask IH]; intros [|x a] [|y b]; simpl;
    try reflexivity.
  - now rewrite combine_nil_r.
  - destruct m; simpl; now rewrite IH.
Qed.

Lemma sorted_same_elements (l1 l2 : list nat) :
  StronglySorted lt l1 -> StronglySorted lt l2 ->
  (forall x, In x l1 <-> In x l2) -> l1 = l2.
Proof.
  intros H1. revert l2. induction H1 as [|x l1 Hs1 IH Hx]; intros l2 H2 Hsame.
  - destruct l2 as [|y l2]; [reflexivity|].
    destruct (proj2 (Hsame y) (or_introl eq_refl)).
  - destruct H2 as [|y l2 Hs2 Hy].
    { destruct (proj1 (Hsame x) (or_introl eq_refl)). }
    rewrite Forall_forall in Hx, Hy.
    assert (E : x = y).
    { destruct (proj1 (Hsame x) (or_introl eq_refl)) as [E|Hin];
        [now symmetry|].
      destruct (proj2 (Hsame y) (or_introl eq_refl)) as [E|Hin'];
        [exact E|].
      specialize (Hx _ Hin'). specialize (Hy _ Hin). lia. }
    subst y. f_equal. apply IH; [exact Hs2|].
    intros z. split; intros Hz.
    + destruct (proj1 (Hsame z) (or_intror Hz)) as [E|Hin]; [|exact Hin].
      specialize (Hx _ Hz). lia.
    + destruct (proj2 (Hsame z) (or_intror Hz)) as [E|Hin]; [|exact Hin].
      specialize (Hy _ Hz). lia.
Qed.

Lemma sorted_labels_positions (labels : list Z) :
  Forall (fun idx => 0 <= idx) labels ->
  StronglySorted Z.lt labels ->
  StronglySorted lt (map Z.to_nat labels).
Proof.
  intros Hpos Hs. induction Hs as [|x l Hs IH Hx]; simpl; constructor.
  - apply IH. now inversion Hpos.
  - inversion Hpos as [|? ? Hx0 Hl0]; subst.
    rewrite Forall_forall in *. intros k Hk.
    apply in_map_iff in Hk. destruct Hk as [z [<- Hz]].
    specialize (Hx _ Hz). specialize (Hl0 _ Hz). lia.
Qed.

Lemma seq_sorted (s n : nat) : StronglySorted lt (seq s n).
Proof.
  revert s. induction n as [|n IH]; intros s; simpl; constructor; [apply IH|].
  apply Forall_forall. intros k Hk. apply in_seq in Hk. lia.
Qed.

Lemma build_keep_mask_kept {B : Type} (all_embeddings : list B)
    (labels : list Z) :
  Forall (fun idx => 0 <= idx) labels ->
  build_keep_mask all_embeddings labels
  = Some (kept_mask (length all_embeddings) labels).
Proof.
  intros Hpos.
  destruct (RebalancerFacts.build_keep_mask_spec all_embeddings labels Hpos)
    as [keep_mask [Hrun [Hlen Hnth]]].
  rewrite Hrun. f_equal.
  apply (nth_ext _ _ true true).
  - unfold kept_mask. now rewrite length_map, length_seq.
  - intros i Hi. rewrite Hlen in Hi. rewrite (Hnth i Hi).
    symmetry. apply nth_error_nth. unfold kept_mask.
    rewrite nth_error_map, nth_error_seq.
    replace (i <? length all_embeddings)%nat with true
      by (symmetry; now apply Nat.ltb_lt).
    reflexivity.
Qed.

Lemma removed_positions (n : nat) (labels : list Z) :
  Forall (fun idx => in_index n idx = true) labels ->
  StronglySorted Z.lt labels ->
  np_where (map negb (kept_mask n labels)) = map Z.to_nat labels.
Proof.
  intros Hin Hs. unfold np_where, kept_mask. rewrite map_map.
  rewrite where_from_map_seq.
  apply sorted_same_elements.
  - apply StronglySorted_filter, seq_sorted.
  - apply sorted_labels_positions; [|exact Hs].
    eapply Forall_impl; [|exact Hin]. intros idx H.
    apply RebalancerFacts.in_index_true in H. lia.
  - intros k. rewrite filter_In, in_seq, negb_involutive, in_map_iff.
    rewrite RebalancerFacts.named_true. split.
    + intros [_ H]. exists (Z.of_nat k). split; [lia|exact H].
    + intros [z [<- Hz]].
      pose proof (proj1 (Forall_forall _ _) Hin z Hz) as Hz'.
      apply RebalancerFacts.in_index_true in Hz'.
      split; [lia|]. now rewrite Z2Nat.id by lia.
Qed.

Lemma df_loc_rows {A : Type} (df : list A) (labels : list Z)
    (rows : list A) :
  Forall (fun idx => in_index (length df) idx = true) labels ->
  (df_loc df labels = Some rows <->
   map Some rows = map (fun idx => nth_error df (Z.to_nat idx)) labels).
Proof.
  intros Hin.
  assert (E : map (fun label => if in_index (length df) label
                                then nth_error df (Z.to_nat label) else None)
                  labels
              = map (fun idx => nth_error df (Z.to_nat idx)) labels).
  { apply map_ext_in. intros idx Hidx.
    now rewrite (proj1 (Forall_forall _ _) Hin idx Hidx). }
  unfold df_loc. split.
  - intros H. apply ClusterExportFacts.traverse_items in H.
    now rewrite <- H, E.
  - intros H. apply ClusterFilesFacts.traverse_map_Some.
    now rewrite E.
Qed.

Lemma nth_error_combine {A B : Type} (a : list A) (b : list B) (i : nat) :
  nth_error (combine a b) i
  = match nth_error a i, nth_error b i with
    | Some x, Some y => Some (x, y)
    | _, _ => None
    end.
Proof.
  revert b i. induction a as [|x a IH]; intros [|y b] [|i]; simpl;
    try reflexivity.
  - now destruct (nth_error a i).
  - apply IH.
Qed.

Lemma rows_combine {A B : Type} (df : list A) (emb : list B)
    (positions : list nat) (ra : list A) (rb : list B) :
  map Some ra = map (nth_error df) positions ->
  map Some rb = map (nth_error emb) positions ->
  map Some (combine ra rb) = map (nth_error (combine df emb)) positions.
Proof.
  revert ra rb. induction positions as [|p ps IH]; intros [|x ra] [|y rb] Ha Hb;
    simpl in *; try discriminate; [reflexivity|].
  injection Ha as Hx Ha. injection Hb as Hy Hb.
  rewrite nth_error_combine, <- Hx, <- Hy. f_equal. now apply IH.
Qed.

(** X19.  When the record table and the embedding matrix have the same
    number of rows and every removal index is a row label, the split
    returns and the kept records stay aligned with the kept embeddings:
    row i of both comes from the same row of the dataset.  The removed
    records come in the order of the removal list and the removed
    embeddings in row order: they are aligned when the list is
    increasing. *)
Theorem X19_kept_rows_aligned {A B : Type} (df_full : list A)
    (all_embeddings : list B) (unique_indices_to_remove : list Z) :
  length df_full = length all_embeddings ->
  Forall (fun idx => in_index (length df_full) idx = true)
         unique_indices_to_remove ->
  exists df_unbiased removed_df unbiased_embeddings removed_embeddings,
    split_dataset df_full all_embeddings unique_indices_to_remove
      = Some (df_unbiased, removed_df, unbiased_embeddings,
              removed_embeddings) /\
    length df_unbiased = length unbiased_embeddings /\
    df_drop (combine df_full all_embeddings) unique_indices_to_remove
      = Some (combine df_unbiased unbiased_embeddings) /\
    (StronglySorted Z.lt unique_indices_to_remove ->
     length removed_df = length removed_embeddings /\
     df_loc (combine df_full all_embeddings) unique_indices_to_remove
       = Some (combine removed_df removed_embeddings)).
Proof.
  intros Hlen Hin.
  set (labels := unique_indices_to_remove) in *.
  set (N := length df_full) in *.
  assert (Hpos : Forall (fun idx => 0 <= idx) labels).
  { eapply Forall_impl; [|exact Hin]. intros idx H.
    apply RebalancerFacts.in_index_true in H. lia. }
  assert (Hmask : length (kept_mask N labels) = N)
    by (unfold kept_mask; now rewrite length_map, length_seq).
  destruct (RebalancerFacts.df_loc_total df_full labels Hin)
    as [removed_df [Hloc Hloclen]].
  exists (mask_select (kept_mask N labels) df_full), removed_df,
    (mask_select (kept_mask N labels) all_embeddings),
    (mask_select (map negb (kept_mask N labels)) all_embeddings).
  assert (Hc : length (combine df_full all_embeddings) = N)
    by (rewrite length_combine; fold N; lia).
  split; [|split; [|split]].
  - unfold split_dataset, split_embeddings.
    rewrite (RebalancerFacts.df_drop_total df_full labels Hin), Hloc.
    rewrite (build_keep_mask_kept all_embeddings labels Hpos).
    fold N. now rewrite <- Hlen.
  - rewrite (mask_select_length _ df_full 0) by (fold N; lia).
    now rewrite (mask_select_length _ all_embeddings 0) by lia.
  - rewrite RebalancerFacts.df_drop_total by (now rewrite Hc).
    rewrite Hc. fold (kept_mask N labels).
    now rewrite mask_select_combine.
  - intros Hs.
    assert (Hrem : map Some (mask_select (map negb (kept_mask N labels))
                                         all_embeddings)
                   = map (nth_error all_embeddings) (map Z.to_nat labels)).
    { rewrite (mask_select_where _ all_embeddings [])
        by (rewrite length_map; lia).
      simpl. fold (np_where (map negb (kept_mask N labels))).
      now rewrite (removed_positions N labels Hin Hs). }
    split.
    + apply (f_equal (@length _)) in Hrem.
      rewrite !length_map in Hrem. lia.
    + apply df_loc_rows; [now rewrite Hc|].
      rewrite <- (map_map Z.to_nat (nth_error (combine df_full all_embeddings))).
      apply rows_combine; [|exact Hrem].
      rewrite map_map. now apply df_loc_rows.
Qed.

End AlignmentFacts.

(* ================================================================== *)
(** * The properties above on concrete inputs *)
(* ================================================================== *)

Module TextExamples.
Import Text.
Local Open Scope N_scope.

(** X2 on the text "Hi". *)
Lemma X2_witness :
  normalized [72; 105] = true /\ clean_text (Str [72; 105]) = [72; 105].
Proof.
  assert (H1 : normalized [72; 105] = true) by reflexivity.
  split; [exact H1|].
  exact (proj1 TextFacts.X2_clean_text_idempotent [72; 105] H1).
Defined.

End TextExamples.

Module SelectionExamples.
Import Py Embeddings Fixtures Ranking.

(** X4 on [points1] with two clusters asked for. *)
Lemma X4_witness :
  find_dense_clusters Z interval_labels kneighbors1 points1 None None (Some 2)
  = Some ([1; 2], [[2; 3; 5]; [6; 7]]%nat) /\
  Forall2
    (fun label idxs =>
       StronglySorted lt idxs /\
       forall i, In i idxs <->
                 nth_error (interval_labels (clusterer_of None None) points1) i
                 = Some label)
    [1; 2] [[2; 3; 5]; [6; 7]]%nat /\
  NoDup (concat [[2; 3; 5]; [6; 7]]%nat) /\
  NoDup [1; 2] /\
  ~ In (-1) [1; 2].
Proof.
  assert (H1 : find_dense_clusters Z interval_labels kneighbors1 points1
                 None None (Some 2)
               = Some ([1; 2], [[2; 3; 5]; [6; 7]]%nat))
    by (vm_compute; reflexivity).
  split; [exact H1|].
  exact (SelectionFacts.X4_returned_members
           Z interval_labels kneighbors1 points1 None None (Some 2)
           [1; 2] [[2; 3; 5]; [6; 7]]%nat H1).
Defined.

(** X5 on [points1] with the default number of clusters. *)
Lemma X5_witness :
  exists labels indices left_out,
    find_dense_clusters Z interval_labels kneighbors1 points1
      None None None = Some (labels, indices) /\
    Permutation (labels ++ left_out)
      (unique_clusters
         (interval_labels (clusterer_of None None) points1)) /\
    StronglySorted
      (ranked_before
         (cluster_density Z kneighbors1 points1
            (interval_labels (clusterer_of None None) points1)))
      (labels ++ left_out) /\
    (Z.of_nat
       (length
          (unique_clusters
             (interval_labels (clusterer_of None None)
                points1)))
     <= kwarg None default_n_clusters ->
     left_out = []).
Proof.
  exact (SelectionFacts.X5_returned_are_densest
           Z interval_labels kneighbors1 points1 None None None).
Defined.

(** X6 on the cluster [tight3]. *)
Lemma X6_witness :
  (2 <= length tight3)%nat /\
  Forall (Forall (fun d => (0 <= d)%Q))
         (kneighbors1 (neighbor_count Z tight3 + 1) tight3) /\
  (0 < density_of_points Z kneighbors1 tight3)%Q /\
  (density_of_points Z kneighbors1 tight3 <= 1000000)%Q /\
  (forall few : list Z,
     (length few <= 1)%nat -> density_of_points Z kneighbors1 few = 0%Q).
Proof.
  assert (H1 : (2 <= length tight3)%nat)
    by (simpl; lia).
  assert (H2 : Forall (Forall (fun d => (0 <= d)%Q))
         (kneighbors1 (neighbor_count Z tight3 + 1) tight3))
    by (vm_compute; repeat constructor; discriminate).
  split; [exact H1|].
  split; [exact H2|].
  exact (SelectionFacts.X6_density_bounds
           Z kneighbors1 tight3 H1 H2).
Defined.

End SelectionExamples.

Module ClusterFilesExamples.
Import Py Embeddings ClusterFiles Fixtures ExtraFixtures.

(** X7 on [points1] and its nine records, with two clusters asked for. *)
Lemma X7_witness :
  length (interval_labels (clusterer_of main_min_cluster_size main_min_samples)
            points1) = length rows9 /\
  exists labels indices,
    find_dense_clusters Z interval_labels kneighbors1 points1
      main_min_cluster_size main_min_samples (Some 2)
    = Some (labels, indices) /\
    (labels = [] ->
     cluster_stage Z interval_labels kneighbors1 rows9 points1 2
     = Some None) /\
    (labels <> [] ->
     exists saved,
       cluster_stage Z interval_labels kneighbors1 rows9 points1 2
       = Some (Some saved) /\
       cluster_csvs saved
       = enumerate_from 1
           (map (fun label =>
                   mask_select
                     (label_mask
                        (interval_labels
                           (clusterer_of main_min_cluster_size main_min_samples)
                           points1)
                        label)
                     rows9)
                labels) /\
       length (all_clusters_column saved) = length rows9 /\
       forall j l,
         nth_error
           (interval_labels (clusterer_of main_min_cluster_size main_min_samples)
              points1) j = Some l ->
         nth_error (all_clusters_column saved) j
         = Some (match rank_of l labels with Some r => r | None => -1 end)).
Proof.
  assert (H1 : length (interval_labels (clusterer_of main_min_cluster_size main_min_samples)
            points1) = length rows9)
    by (reflexivity).
  split; [exact H1|].
  exact (@ClusterFilesFacts.X7_cluster_files_by_rank
           Z interval_labels kneighbors1 nat rows9 points1 2 H1).
Defined.

(** X8 on [points1] with 25 clusters asked for. *)
Lemma X8_witness :
  length (interval_labels (clusterer_of main_min_cluster_size main_min_samples)
            points1) = length rows9 /\
  ((unique_clusters
      (interval_labels (clusterer_of main_min_cluster_size main_min_samples)
         points1) = [] /\
    pipeline_cluster_stage Z interval_labels kneighbors1 rows9 points1
      25 = Some None) \/
   (exists saved,
      pipeline_cluster_stage Z interval_labels kneighbors1 rows9 points1
        25 = Some (Some saved) /\
      Z.of_nat (length (cluster_csvs saved))
      = Z.min (Z.max 1 (Z.min 10 25))
          (Z.of_nat
             (length
                (unique_clusters
                   (interval_labels
                      (clusterer_of main_min_cluster_size main_min_samples)
                      points1)))) /\
      (1 <= length (cluster_csvs saved) <= 10)%nat)).
Proof.
  assert (H1 : length (interval_labels (clusterer_of main_min_cluster_size main_min_samples)
            points1) = length rows9)
    by (reflexivity).
  split; [exact H1|].
  exact (@ClusterFilesFacts.X8_pipeline_cluster_count
           Z interval_labels kneighbors1 nat rows9 points1 25 H1).
Defined.

Example cluster_stage_points1 :
  cluster_stage Z interval_labels kneighbors1 rows9 points1 2
  = Some (Some (mkSaved
                  [(1, [102; 103; 105]%nat); (2, [106; 107]%nat)]
                  [-1; -1; 1; 1; -1; 1; 2; 2; -1])).
Proof. vm_compute. reflexivity. Qed.

End ClusterFilesExamples.

Module PaginationExamples.
Import FlaskApp ExtraFixtures.

(** X9 on seven rows: page 2 of pages of three rows. *)
Lemma X9_witness :
  1 <= int_arg (Some 3) 100 /\
  exists body,
    get_paginated_dataset (Some rows7) (Some 2) (Some 3) = Ok body /\
    total_records body = Z.of_nat (length rows7) /\
    page_size body = Z.min (int_arg (Some 3) 100) 1000 /\
    (total_pages body - 1) * page_size body < Z.of_nat (length rows7)
      <= total_pages body * page_size body /\
    current_page body
      = (if 0 <? total_pages body
         then Z.max 1 (Z.min (int_arg (Some 2) 1) (total_pages body))
         else Z.max 1 (int_arg (Some 2) 1)) /\
    records body
      = firstn (Z.to_nat (page_size body))
          (skipn (Z.to_nat ((current_page body - 1) * page_size body)) rows7) /\
    (length (records body) <= 1000)%nat /\
    (rows7 <> [] -> records body <> []).
Proof.
  assert (H1 : 1 <= int_arg (Some 3) 100)
    by (simpl; lia).
  split; [exact H1|].
  exact (@PaginationFacts.X9_page_contents
           nat rows7 (Some 2) (Some 3) H1).
Defined.

(** X10 on seven rows in pages of three rows. *)
Lemma X10_witness :
  1 <= int_arg (Some 3) 100 /\
  let s := Z.min (int_arg (Some 3) 100) 1000 in
  let pages := Z.to_nat ((Z.of_nat (length rows7) + s - 1) / s) in
  concat
    (map (fun p =>
            records_of
              (get_paginated_dataset (Some rows7) (Some (Z.of_nat p))
                 (Some 3)))
         (seq 1 pages))
  = rows7.
Proof.
  assert (H1 : 1 <= int_arg (Some 3) 100)
    by (simpl; lia).
  split; [exact H1|].
  exact (@PaginationFacts.X10_pages_tile_dataset
           nat rows7 (Some 3) H1).
Defined.

(** X11 on a readable file of seven rows asked with page_size = 0. *)
Lemma X11_witness :
  ((Csv rows7) = Missing ->
   dataset_endpoint (Csv rows7) None (Some 0) = Error 404) /\
  ((Csv rows7) = Unreadable ->
   dataset_endpoint (Csv rows7) None (Some 0) = Error 500) /\
  (forall rows, (Csv rows7) = Csv rows ->
     (int_arg (Some 0) 100 = 0 ->
      dataset_endpoint (Csv rows7) None (Some 0) = Error 500) /\
     (int_arg (Some 0) 100 <> 0 ->
      exists body, dataset_endpoint (Csv rows7) None (Some 0) = Ok body)).
Proof.
  exact (@PaginationFacts.X11_endpoint_errors
           nat (Csv rows7) None (Some 0)).
Defined.

(** X12 on seven rows with page_size = -2. *)
Lemma X12_witness :
  1 <= 2 < Z.of_nat (length rows7) /\
  int_arg None 1 <= 1 /\
  exists body,
    get_paginated_dataset (Some rows7) None (Some (- 2)) = Ok body /\
    records body = firstn (length rows7 - Z.to_nat 2) rows7 /\
    Z.of_nat (length (records body)) = Z.of_nat (length rows7) - 2 /\
    total_pages body <= 0.
Proof.
  assert (H1 : 1 <= 2 < Z.of_nat (length rows7))
    by (simpl; lia).
  assert (H2 : int_arg None 1 <= 1)
    by (simpl; lia).
  split; [exact H1|].
  split; [exact H2|].
  exact (@PaginationFacts.X12_negative_page_size
           nat rows7 None 2 H1 H2).
Defined.

Example get_paginated_dataset_rows7 :
  get_paginated_dataset (Some rows7) (Some 2) (Some 3)
  = Ok (mkPage 7 3 2 3 [13; 14; 15]%nat) /\
  get_paginated_dataset (Some rows7) (Some 9) (Some 3)
  = Ok (mkPage 7 3 3 3 [16]%nat) /\
  get_paginated_dataset (Some rows7) None (Some (-2))
  = Ok (mkPage 7 (-2) 1 (-2) [10; 11; 12; 13; 14]%nat) /\
  get_paginated_dataset (Some rows7) None (Some 0) = Error 500.
Proof. vm_compute. repeat split; reflexivity. Qed.

End PaginationExamples.

Module ClusterExportExamples.
Import Py Np CreateUnbiasedDataset Rebalancing ClusterExport Fixtures
  RealFixtures ExtraFixtures.

(** X13 on the eight rows of [X8] and [indexed_frame]. *)
Lemma X13_witness :
  let N := Z.of_nat (length X8) in
  let valid_indices :=
    filter (fun idx => idx <? N) (resume_indices indexed_frame) in
  let result :=
    save_cluster_embeddings coordinate_axes (Some X8) indexed_frame
                            1 in
  (valid_indices = [] -> result = NoValidIndices) /\
  (Exists (fun idx => idx < - N) valid_indices -> result = IndexingRaised) /\
  (valid_indices <> [] -> Forall (fun idx => - N <= idx) valid_indices ->
   exists json,
     json_written result = Some json /\
     json_cluster_id json = 1 /\
     total_embeddings json = Z.of_nat (length valid_indices) /\
     map saved_id (json_embeddings json)
       = map Z.of_nat (seq 0 (length valid_indices)) /\
     map saved_resume_id (json_embeddings json) = valid_indices /\
     Forall (fun e => saved_cluster_id e = 1)
            (json_embeddings json) /\
     map Some (map saved_embedding (json_embeddings json))
       = map (fun idx =>
                nth_error X8
                          (row_position (length X8) idx))
             valid_indices).
Proof.
  exact (ClusterExportFacts.X13_saved_cluster_entries
           coordinate_axes X8 indexed_frame 1).
Defined.

(** X14 on the eight rows of [X8] and a cluster file of three rows, with the toy generator. *)
Lemma X14_witness :
  (1 <= 3%nat)%nat /\
  (1 <= length X8)%nat /\
  let m := Nat.min 3%nat (length X8) in
  exists json,
    json_written (save_cluster_embeddings coordinate_axes (Some X8)
                    (read_cluster_csv 3%nat None) 1) = Some json /\
    map saved_resume_id (json_embeddings json) = map Z.of_nat (seq 0 m) /\
    map saved_embedding (json_embeddings json) = firstn m X8 /\
    exists resume_ids_to_remove,
      fst (select_for_cluster Z toy_seed toy_sample dedup
             (load_embeddings_data json) 7)
        = (resume_ids_to_remove, (m / 2)%nat) /\
      length resume_ids_to_remove = (m / 2)%nat /\
      NoDup resume_ids_to_remove /\
      Forall (fun idx => 0 <= idx < Z.of_nat m) resume_ids_to_remove.
Proof.
  assert (H1 : (1 <= 3%nat)%nat)
    by (simpl; lia).
  assert (H2 : (1 <= length X8)%nat)
    by (simpl; lia).
  split; [exact H1|].
  split; [exact H2|].
  exact (ClusterExportFacts.X14_range_index_cluster
           Z toy_seed toy_sample dedup
           RebalancerExamples.toy_sample_without_replacement
           RebalancerExamples.dedup_distinct coordinate_axes X8 3%nat 1 7 H1 H2).
Defined.

(** X15 on [two_files] and row 3 of a dataset of six rows. *)
Lemma X15_witness :
  (3%nat < 6%nat)%nat /\
  exists column,
    export_complete_dataset two_files (Some 6%nat) = Some column /\
    length column = 6%nat /\
    ((forall file, In file two_files ->
                   ~ In (Z.of_nat 3%nat) (resume_indices (snd file))) ->
     nth_error column 3%nat = Some (-1)) /\
    (forall pre c f post,
       two_files = pre ++ (c, f) :: post ->
       In (Z.of_nat 3%nat) (resume_indices f) ->
       (forall file, In file post ->
                     ~ In (Z.of_nat 3%nat) (resume_indices (snd file))) ->
       nth_error column 3%nat = Some c).
Proof.
  assert (H1 : (3%nat < 6%nat)%nat)
    by (lia).
  split; [exact H1|].
  exact (ClusterExportFacts.X15_export_last_file_wins
           two_files 6%nat 3%nat H1).
Defined.

(** X16 on files of five and three rows and row 1 of a dataset of nine rows. *)
Lemma X16_witness :
  (1%nat < 9%nat)%nat /\
  exists column,
    export_complete_dataset (range_index_files [(1, 5%nat); (2, 3%nat)]) (Some 9%nat)
      = Some column /\
    ((forall cn, In cn [(1, 5%nat); (2, 3%nat)] -> (snd cn <= 1%nat)%nat) ->
     nth_error column 1%nat = Some (-1)) /\
    (forall pre c n post,
       [(1, 5%nat); (2, 3%nat)] = pre ++ (c, n) :: post ->
       (1%nat < n)%nat ->
       (forall cn, In cn post -> (snd cn <= 1%nat)%nat) ->
       nth_error column 1%nat = Some c).
Proof.
  assert (H1 : (1%nat < 9%nat)%nat)
    by (lia).
  split; [exact H1|].
  exact (ClusterExportFacts.X16_export_by_row_count
           [(1, 5%nat); (2, 3%nat)] 9%nat 1%nat H1).
Defined.

(** X17 on [clusters12] with the toy generator. *)
Lemma X17_witness :
  let result :=
    fst (select_removals Z toy_seed toy_sample dedup
           clusters12 7) in
  Forall2 (fun cd count =>
             fst count = fst cd /\
             (2 * snd count <= length (snd cd))%nat /\
             Z.of_nat (snd count) <= remaining (snd cd) (snd count))
          clusters12 (snd result) /\
  (length (fst result) <= list_sum (map snd (snd result)))%nat.
Proof.
  exact (ClusterExportFacts.X17_at_most_half_removed
           Z toy_seed toy_sample dedup
           RebalancerExamples.toy_sample_without_replacement
           RebalancerExamples.dedup_distinct clusters12 7).
Defined.

(** A row listed by two files carries the number of the later one. *)
Example export_two_files :
  export_complete_dataset two_files (Some 6%nat) = Some [1; -1; -1; 2; 2; -1] /\
  export_complete_dataset (rev two_files) (Some 6%nat)
  = Some [1; -1; -1; 1; 2; -1].
Proof. vm_compute. split; reflexivity. Qed.

(** Files of five and three rows without an index column: the first three
    rows carry the number of the file processed last. *)
Example export_by_row_count :
  export_complete_dataset (range_index_files [(1, 5%nat); (2, 3%nat)])
                          (Some 9%nat)
  = Some [2; 2; 2; 1; 1; -1; -1; -1; -1].
Proof. vm_compute. reflexivity. Qed.

(** The indices kept of [indexed_frame]: 9 is dropped, -1 stays. *)
Example indexed_frame_valid :
  filter (fun idx => idx <? Z.of_nat (length X8)) (resume_indices indexed_frame)
  = [5; -1; 2] /\
  map (row_position (length X8)) [5; -1; 2] = [5; 7; 2]%nat.
Proof. vm_compute. split; reflexivity. Qed.

End ClusterExportExamples.

Module PipelineExamples.
Import Pipeline ExtraFixtures.

(** X18 on a run whose rebalancer returns without a value. *)
Lemma X18_witness :
  job_id_given failing_run = true /\
  get_job_status (job_dir_exists failing_run) [] <> StatusCompleted /\
  get_job_status (job_dir_exists failing_run) [] <> StatusFailed /\
  (job_dir_exists failing_run = false -> main failing_run = Raises) /\
  (job_dir_exists failing_run = true ->
   exists m,
     main failing_run = Returns [m] /\
     get_job_status true [m]
       = match m with Completed => StatusCompleted | Failed => StatusFailed end /\
     (m = Completed <->
      embeddings_stage failing_run = Returns true /\
      cluster_analysis_stage failing_run = Returns tt /\
      unbiasing_stage failing_run = Returns true)).
Proof.
  assert (H1 : job_id_given failing_run = true)
    by (reflexivity).
  split; [exact H1|].
  exact (PipelineFacts.X18_job_status_after_run
           failing_run H1).
Defined.

Example main_markers :
  main failing_run = Returns [Failed] /\
  main completed_run = Returns [Completed] /\
  get_job_status true [Failed] = StatusFailed /\
  get_job_status true [] = StatusProcessing /\
  get_job_status false [] = JobNotFound.
Proof. repeat split; reflexivity. Qed.

End PipelineExamples.

Module AlignmentExamples.
Import Py CreateUnbiasedDataset Fixtures.

(** X19 on [records12], twelve embeddings and the removal list 2, 4, 5. *)
Lemma X19_witness :
  length records12 = length (seq 0 12) /\
  Forall (fun idx => in_index (length records12) idx = true)
         [2; 4; 5] /\
  exists df_unbiased removed_df unbiased_embeddings removed_embeddings,
    split_dataset records12 (seq 0 12) [2; 4; 5]
      = Some (df_unbiased, removed_df, unbiased_embeddings,
              removed_embeddings) /\
    length df_unbiased = length unbiased_embeddings /\
    df_drop (combine records12 (seq 0 12)) [2; 4; 5]
      = Some (combine df_unbiased unbiased_embeddings) /\
    (StronglySorted Z.lt [2; 4; 5] ->
     length removed_df = length removed_embeddings /\
     df_loc (combine records12 (seq 0 12)) [2; 4; 5]
       = Some (combine removed_df removed_embeddings)).
Proof.
  assert (H1 : length records12 = length (seq 0 12))
    by (reflexivity).
  assert (H2 : Forall (fun idx => in_index (length records12) idx = true)
         [2; 4; 5])
    by (repeat constructor).
  split; [exact H1|].
  split; [exact H2|].
  exact (@AlignmentFacts.X19_kept_rows_aligned
           nat nat records12 (seq 0 12) [2; 4; 5] H1 H2).
Defined.

(** A removal list that is not increasing: the removed records follow the
    list, the removed embeddings the row order. *)
Example removed_rows_misaligned :
  split_dataset records12 (seq 0 12) [5; 2]
  = Some ([100; 101; 103; 104; 106; 107; 108; 109; 110; 111]%nat,
          [105; 102]%nat,
          [0; 1; 3; 4; 6; 7; 8; 9; 10; 11]%nat, [2; 5]%nat).
Proof. vm_compute. reflexivity. Qed.

End AlignmentExamples.
